(** * k6-modern-reporter: a shallow embedding of [k6-modern-reporter.js]

    The reporter is one JavaScript module: [htmlReport] computes a flat
    statistics object from a k6 summary ([calculateStats], [countChecks]) and
    interpolates it, together with four section builders, into one HTML
    template ([generateModernHTML]); every dynamic text is meant to go through
    [escapeHtml].

    JavaScript is untyped, so the embedding works on a universe of JSON-like
    values ([value]) and an exception monad ([result]): a property read on
    [undefined]/[null], a [for .. of] over something that is not iterable and
    a call of a method the receiver does not have are the three ways the code
    can throw.

    Numbers.  A JavaScript number is an IEEE-754 double.  The development
    carries the value of a finite double as a rational, plus [NaN].  The
    operations that round in binary64 round here, to nearest with ties to
    even ([round64]): the sum, the difference, the product, the quotient and
    the reading of a decimal literal.  Two things are left out.  An overflow
    to an infinity is not represented.  The increment of a counter is exact:
    the module counts keys of objects, of which there are fewer than 2^53.
    [toFixed] is defined by ECMAScript on the exact mathematical value of its
    receiver, which is what [to_fixed] computes.  The section Binary64
    compares [round64] with the primitive doubles of the kernel and replays
    the chain behind [errorRate] and [successRate] on them, for every error
    rate from 0.00 to 100.00.

    Strings.  A [string] is a sequence of code units; the five characters the
    escaper rewrites are ASCII, so the encoding of the others is irrelevant. *)

From Stdlib Require Import Bool List String Ascii ZArith NArith QArith Qround Qabs Lia Lqa.
From Stdlib Require Import Decimal DecimalFacts DecimalN DecimalString.
From Stdlib Require Qcanon.
From Stdlib Require PrimFloat FloatOps SpecFloat Uint63.
Import ListNotations.

Local Open Scope list_scope.
Local Open Scope string_scope.

(** ** Exceptions and the result monad *)

(** The three [TypeError]s the module can raise. *)
Inductive exn : Type :=
| NullAccess (prop : string)      (* reading [prop] of undefined or null *)
| NotIterable                      (* [for (x of v)] with [v] not iterable *)
| NotAFunction (method : string).  (* [v.method(..)] with [v.method] undefined *)

Inductive result (A : Type) : Type :=
| Ok (a : A)
| Throw (e : exn).
Arguments Ok {A} a.
Arguments Throw {A} e.

Definition bind {A B : Type} (m : result A) (k : A -> result B) : result B :=
  match m with
  | Ok a => k a
  | Throw e => Throw e
  end.

Notation "x <- m ;; k" := (bind m (fun x => k))
  (at level 61, m at next level, right associativity).

(** [for (x of xs) { acc = body(acc, x) }] with a body that may throw. *)
Fixpoint foldM {A S : Type} (body : S -> A -> result S) (xs : list A) (acc : S)
  : result S :=
  match xs with
  | [] => Ok acc
  | x :: rest => acc' <- body acc x ;; foldM body rest acc'
  end.

(** ** Numbers *)

Inductive num : Type :=
| Fin (q : Q)
| NaN.

Definition Qlt_bool (x y : Q) : bool := negb (Qle_bool y x).

Definition num_zero : num := Fin 0.

(** Rounding to binary64.  A positive rational [n/d] with
    [2^p <= n/d < 2^(p+1)] is rounded to a multiple of [2^e], where
    [e = max (p - 52) (-1074)]: 53 significant bits for a normal number, the
    fixed spacing [2^-1074] for a subnormal one.  A tie goes to the even
    multiple. *)
Definition round_half_even (q : Q) : Z :=
  let f := Qfloor q in
  match Qcompare (q - inject_Z f) (1 # 2) with
  | Lt => f
  | Gt => (f + 1)%Z
  | Eq => if Z.even f then f else (f + 1)%Z
  end.

(** The [p] with [2^p <= n/d < 2^(p+1)], for [0 < n]. *)
Definition floor_log2 (n : Z) (d : positive) : Z :=
  let p := (Z.log2 n - Z.log2 (Zpos d))%Z in
  if (if 0 <=? p then Zpos d * 2 ^ p <=? n else Zpos d <=? n * 2 ^ (- p))%Z
  then p else (p - 1)%Z.

Definition round64_pos (n : Z) (d : positive) : Q :=
  let e := Z.max (floor_log2 n d - 52) (-1074) in
  if (e <=? 0)%Z
  then Qred (Qmake (round_half_even (Qmake (n * 2 ^ (- e)) d)) (Z.to_pos (2 ^ (- e))))
  else Qred (inject_Z (round_half_even (Qmake n (d * Z.to_pos (2 ^ e))) * 2 ^ e)).

Definition round64 (q : Q) : Q :=
  let r := Qred q in
  match Qnum r with
  | Z0 => 0
  | Zpos _ => round64_pos (Qnum r) (Qden r)
  | Zneg p => Qopp (round64_pos (Zpos p) (Qden r))
  end.

(** [a + b], [a - b], [a * b] and [a / d] on doubles: the exact result,
    rounded. *)
Definition num_add (a b : num) : num :=
  match a, b with
  | Fin x, Fin y => Fin (round64 (x + y))
  | _, _ => NaN
  end.

(** [a + 1] for a counter, exact.  The module increments a counter once per
    key of an object or element of an array, of which there are fewer than
    2^53, and up to 2^53 the successor of a whole number is a double. *)
Definition num_succ (a : num) : num :=
  match a with
  | Fin x => Fin (Qred (x + 1))
  | NaN => NaN
  end.

Definition num_sub (a b : num) : num :=
  match a, b with
  | Fin x, Fin y => Fin (round64 (x - y))
  | _, _ => NaN
  end.

Definition num_mul (a b : num) : num :=
  match a, b with
  | Fin x, Fin y => Fin (round64 (x * y))
  | _, _ => NaN
  end.

(** Division by a non-zero literal (the module only divides by 1000000). *)
Definition num_div_by (a : num) (d : positive) : num :=
  match a with
  | Fin x => Fin (round64 (x / inject_Z (Zpos d)))
  | NaN => NaN
  end.

(** [Math.round]: the nearest integer, ties towards +infinity. *)
Definition round_half_up (q : Q) : Z := Qfloor (q + (1 # 2)).

Definition math_round (a : num) : num :=
  match a with
  | Fin x => Fin (inject_Z (round_half_up x))
  | NaN => NaN
  end.

(** Equality of numbers as [===] sees it: [NaN] differs from itself. *)
Definition num_eqb (a b : num) : bool :=
  match a, b with
  | Fin x, Fin y => Qeq_bool x y
  | _, _ => false
  end.

(** [a > b]; false as soon as one side is [NaN]. *)
Definition num_gtb (a b : num) : bool :=
  match a, b with
  | Fin x, Fin y => Qlt_bool y x
  | _, _ => false
  end.

(** ** Decimal digits *)

Definition n_to_string (n : N) : string := NilZero.string_of_uint (N.to_uint n).

Definition z_to_string (z : Z) : string :=
  if (z <? 0)%Z then "-" ++ n_to_string (Z.abs_N z) else n_to_string (Z.abs_N z).

(** A non-empty run of decimal digits, read as a natural number. *)
Definition parse_nat (s : string) : option N :=
  match s with
  | EmptyString => None
  | _ => option_map N.of_uint (NilEmpty.uint_of_string s)
  end.

Definition is_digit (c : ascii) : bool :=
  (48 <=? nat_of_ascii c)%nat && (nat_of_ascii c <=? 57)%nat.

(** The longest prefix of [s] made of digits, and what follows it. *)
Fixpoint span_digits (s : string) : string * string :=
  match s with
  | EmptyString => (EmptyString, EmptyString)
  | String c rest =>
      if is_digit c
      then let '(ds, tl) := span_digits rest in (String c ds, tl)
      else (EmptyString, s)
  end.

Definition strip_minus (s : string) : bool * string :=
  match s with
  | String "-"%char rest => (true, rest)
  | _ => (false, s)
  end.

Definition ten_pow (k : nat) : Z := (10 ^ Z.of_nat k)%Z.

(** A plain decimal literal: an optional minus sign, digits, and optionally a
    point followed by digits.  [None] for every other shape. *)
Definition parse_decimal (s : string) : option Q :=
  let '(neg, body) := strip_minus s in
  let '(ip, after) := span_digits body in
  match parse_nat ip with
  | None => None
  | Some i =>
      let sign (q : Q) : Q := if neg then Qopp q else q in
      match after with
      | EmptyString => Some (sign (inject_Z (Z.of_N i)))
      | String "."%char fp =>
          match span_digits fp with
          | (fd, EmptyString) =>
              match parse_nat fd with
              | Some f =>
                  Some (sign (Qred (Qmake (Z.of_N i * ten_pow (String.length fd) + Z.of_N f)
                                           (Z.to_pos (ten_pow (String.length fd))))))
              | None => None
              end
          | _ => None
          end
      | _ => None
      end
  end.

(** ** The part of the runtime that is left abstract

    Number formatting for values that are not integers below 10^21 (the
    shortest round-trip digits of a double), the reading of strings that are
    not plain decimal literals, locale formatting and the clock. *)
Record Runtime : Type := {
  number_to_string_other : Q -> string;
  string_to_number_other : string -> num;
  parse_int_other : string -> num;
  parse_float_other : string -> num;
  number_to_locale_string : num -> string;
  date_now_iso : string;      (* new Date().toISOString() *)
  date_now_locale : string    (* new Date().toLocaleString() *)
}.

(** ** Values *)

#[warnings="-register-all"] Inductive value : Type :=
| VUndef
| VNull
| VBool (b : bool)
| VNum (n : num)
| VStr (s : string)
| VArr (items : list value)
| VObj (fields : list (string * value)).

(** An object is the list of its own enumerable properties in enumeration
    order; a key occurs once. *)
Definition obj : Type := list (string * value).

Fixpoint assoc (k : string) (o : obj) : option value :=
  match o with
  | [] => None
  | (k', v) :: rest => if String.eqb k k' then Some v else assoc k rest
  end.

Definition field (o : obj) (k : string) : value :=
  match assoc k o with
  | Some v => v
  | None => VUndef
  end.

(** [o.k = v] on an object that may or may not have [k] already. *)
Fixpoint obj_set (o : obj) (k : string) (v : value) : obj :=
  match o with
  | [] => [(k, v)]
  | (k', v') :: rest =>
      if String.eqb k k' then (k', v) :: rest else (k', v') :: obj_set rest k v
  end.

Definition vnum (z : Z) : value := VNum (Fin (inject_Z z)).

Definition chars (s : string) : list value :=
  map (fun c => VStr (String c EmptyString)) (list_ascii_of_string s).

Definition index_keys (len : nat) : list string :=
  map (fun i => n_to_string (N.of_nat i)) (seq 0 len).

(** A canonical array index: digits that print back to themselves. *)
Definition parse_index (k : string) : option nat :=
  match parse_nat k with
  | Some n => if String.eqb (n_to_string n) k then Some (N.to_nat n) else None
  | None => None
  end.

(** [v.k] and [v[k]].  Built-in prototype members other than [length] are not
    represented: none of the names the module reads is one on a plain object,
    a string, a number or a boolean. *)
Definition get (v : value) (k : string) : result value :=
  match v with
  | VUndef | VNull => Throw (NullAccess k)
  | VObj o => Ok (field o k)
  | VArr items =>
      if String.eqb k "length" then Ok (vnum (Z.of_nat (List.length items)))
      else match parse_index k with
           | Some i => Ok (nth i items VUndef)
           | None => Ok VUndef
           end
  | VStr s =>
      if String.eqb k "length" then Ok (vnum (Z.of_nat (String.length s)))
      else match parse_index k with
           | Some i => Ok (nth i (chars s) VUndef)
           | None => Ok VUndef
           end
  | VBool _ | VNum _ => Ok VUndef
  end.

(** The keys a [for (k in v)] loop visits. *)
Definition own_keys (v : value) : list string :=
  match v with
  | VObj o => map fst o
  | VArr items => index_keys (List.length items)
  | VStr s => index_keys (String.length s)
  | _ => []
  end.

(** [Object.keys(v)]. *)
Definition object_keys (v : value) : result (list string) :=
  match v with
  | VUndef | VNull => Throw (NullAccess "keys")
  | _ => Ok (own_keys v)
  end.

(** The elements a [for (x of v)] loop visits. *)
Definition iterate (v : value) : result (list value) :=
  match v with
  | VArr items => Ok items
  | VStr s => Ok (chars s)
  | _ => Throw NotIterable
  end.

Definition truthy (v : value) : bool :=
  match v with
  | VUndef | VNull => false
  | VBool b => b
  | VNum (Fin q) => negb (Qeq_bool q 0)
  | VNum NaN => false
  | VStr s => negb (String.eqb s "")
  | VArr _ | VObj _ => true
  end.

(** [a || b]. *)
Definition js_or (a b : value) : value := if truthy a then a else b.

Section Conversions.
Context (rt : Runtime).

(** [Number::toString]. *)
Definition number_to_string (n : num) : string :=
  match n with
  | NaN => "NaN"
  | Fin q =>
      let r := Qred q in
      if Pos.eqb (Qden r) 1 && (Z.abs (Qnum r) <? ten_pow 21)%Z
      then z_to_string (Qnum r)
      else number_to_string_other rt r
  end.

(** [StringToNumber]. *)
Definition string_to_number (s : string) : num :=
  if String.eqb s "" then num_zero
  else if String.eqb s "NaN" then NaN
  else match parse_decimal s with
       | Some q => Fin (round64 q)
       | None => string_to_number_other rt s
       end.

(** [ToString], as a template literal or [String(..)] applies it. *)
Fixpoint to_string (v : value) : string :=
  match v with
  | VUndef => "undefined"
  | VNull => "null"
  | VBool true => "true"
  | VBool false => "false"
  | VNum n => number_to_string n
  | VStr s => s
  | VArr items =>
      String.concat ","
        (map (fun e => match e with
                       | VUndef | VNull => ""
                       | _ => to_string e
                       end) items)
  | VObj _ => "[object Object]"
  end.

(** [ToNumber]. *)
Definition to_number (v : value) : num :=
  match v with
  | VUndef => NaN
  | VNull => num_zero
  | VBool true => Fin 1
  | VBool false => num_zero
  | VNum n => n
  | VStr s => string_to_number s
  | VArr _ | VObj _ => string_to_number (to_string v)
  end.

Definition js_mul (a b : value) : value := VNum (num_mul (to_number a) (to_number b)).
Definition js_sub (a b : value) : value := VNum (num_sub (to_number a) (to_number b)).
Definition js_div_by (a : value) (d : positive) : value := VNum (num_div_by (to_number a) d).

(** Whether [ToPrimitive] of the operand is a string. *)
Definition concatenates (v : value) : bool :=
  match v with
  | VStr _ | VArr _ | VObj _ => true
  | _ => false
  end.

(** [a + b]. *)
Definition js_add (a b : value) : value :=
  if concatenates a || concatenates b
  then VStr (to_string a ++ to_string b)
  else VNum (num_add (to_number a) (to_number b)).

(** [v === c] for a numeric literal [c]. *)
Definition strict_eq_num (v : value) (c : Z) : bool :=
  match v with
  | VNum n => num_eqb n (Fin (inject_Z c))
  | _ => false
  end.

(** [v > c] for a numeric literal [c]. *)
Definition js_gt_num (v : value) (c : Z) : bool :=
  num_gtb (to_number v) (Fin (inject_Z c)).

(** [Math.round(v)]. *)
Definition js_round (v : value) : value := VNum (math_round (to_number v)).

(** The digits of [Number.prototype.toFixed]: [k] is the scaled, rounded
    magnitude; the last [d] digits follow the point. *)
Definition pad_zeros (d : nat) (s : string) : string :=
  string_of_list_ascii (repeat "0"%char (d - String.length s)) ++ s.

Definition fixed_digits (d : nat) (k : Z) : string :=
  match d with
  | O => z_to_string k
  | _ =>
      z_to_string (k / ten_pow d) ++ "." ++ pad_zeros d (z_to_string (k mod ten_pow d))
  end.

(** [Number.prototype.toFixed(d)] on a number. *)
Definition to_fixed (d : nat) (n : num) : string :=
  match n with
  | NaN => "NaN"
  | Fin q =>
      let sign := if Qlt_bool q 0 then "-" else "" in
      let x := Qabs q in
      if Qle_bool (inject_Z (ten_pow 21)) x
      then sign ++ number_to_string (Fin x)
      else sign ++ fixed_digits d (round_half_up (x * inject_Z (ten_pow d)))
  end.

(** [v.toFixed(d)]: only numbers have the method. *)
Definition call_toFixed (v : value) (d : nat) : result value :=
  match v with
  | VUndef | VNull => Throw (NullAccess "toFixed")
  | VNum n => Ok (VStr (to_fixed d n))
  | _ => Throw (NotAFunction "toFixed")
  end.

(** [v.toLocaleString()]. *)
Fixpoint locale_string (v : value) : string :=
  match v with
  | VNum n => number_to_locale_string rt n
  | VArr items =>
      String.concat ","
        (map (fun e => match e with
                       | VUndef | VNull => ""
                       | _ => locale_string e
                       end) items)
  | _ => to_string v
  end.

Definition call_toLocaleString (v : value) : result string :=
  match v with
  | VUndef | VNull => Throw (NullAccess "toLocaleString")
  | _ => Ok (locale_string v)
  end.

(** [parseInt(v)] with no radix. *)
Definition starts_with_digit (s : string) : bool :=
  match s with
  | String c _ => is_digit c
  | EmptyString => false
  end.

Definition hex_prefixed (s : string) : bool :=
  match s with
  | String "0"%char (String c _) => Ascii.eqb c "x" || Ascii.eqb c "X"
  | _ => false
  end.

Definition parse_int_string (s : string) : num :=
  let '(neg, body) := strip_minus s in
  if starts_with_digit body && negb (hex_prefixed body)
  then match parse_nat (fst (span_digits body)) with
       | Some n => Fin (round64 (inject_Z (if neg then Z.opp (Z.of_N n) else Z.of_N n)))
       | None => NaN
       end
  else parse_int_other rt s.

Definition parseInt (v : value) : value := VNum (parse_int_string (to_string v)).

(** [parseFloat(v)]. *)
Definition parse_float_string (s : string) : num :=
  if String.eqb s "NaN" then NaN
  else match parse_decimal s with
       | Some q => Fin (round64 q)
       | None => parse_float_other rt s
       end.

Definition parseFloat (v : value) : value := VNum (parse_float_string (to_string v)).

End Conversions.

(** ** String helpers of the JavaScript standard library *)

(** The double quote, which a string literal cannot hold. *)
Definition dq : string := String "034"%char EmptyString.

Definition nl : string := String "010"%char EmptyString.

(** The text of a template literal, line by line. *)
Definition lines (ls : list string) : string := String.concat nl ls.

(** [hay.indexOf(needle)]. *)
Definition index_of (hay needle : string) : Z :=
  match String.index 0 needle hay with
  | Some i => Z.of_nat i
  | None => (-1)%Z
  end.

(** [s.substring(start)]: a negative start counts as 0. *)
Definition substring_from (s : string) (start : Z) : string :=
  let i := Z.to_nat (Z.max 0 start) in
  String.substring i (String.length s - i) s.

(** [s.slice(0, n)] for a literal [n]. *)
Definition slice_to (s : string) (n : nat) : string := String.substring 0 n s.

(** [s.replace(pat, rep)] with a string pattern: the first occurrence only. *)
Definition replace_first (s pat rep : string) : string :=
  match String.index 0 pat s with
  | Some i =>
      String.substring 0 i s ++ rep
      ++ substring_from s (Z.of_nat (i + String.length pat))
  | None => s
  end.

(** [s.replace(/[..]/g, f)]: every character of the class is replaced by
    what the callback returns for it. *)
Fixpoint replace_class (cls : ascii -> bool) (f : string -> string) (s : string)
  : string :=
  match s with
  | EmptyString => EmptyString
  | String c rest =>
      (if cls c then f (String c EmptyString) else String c EmptyString)
      ++ replace_class cls f rest
  end.

(** ** The reporter *)

Section Reporter.
Context (rt : Runtime).

(** *** [escapeHtml] *)

Definition escape_map : obj :=
  [ ("&", VStr "&amp;");
    ("<", VStr "&lt;");
    (">", VStr "&gt;");
    (dq, VStr "&quot;");
    ("'", VStr "&#039;") ].

(** The character class of the regular expression. *)
Definition html_special (c : ascii) : bool :=
  Ascii.eqb c "&" || Ascii.eqb c "<" || Ascii.eqb c ">"
  || Ascii.eqb c "034" || Ascii.eqb c "'".

Definition escapeHtml (text : value) : string :=
  replace_class html_special
    (fun m => to_string rt (field escape_map m))
    (to_string rt text).

(** *** [countChecks] *)

Definition countChecks (checks : value) : result (value * value) :=
  items <- iterate checks ;;
  foldM (fun (acc : value * value) (check : value) =>
           let '(passes, fails) := acc in
           p <- get check "passes" ;;
           let passes := js_add rt passes (parseInt rt (js_or p (vnum 0))) in
           f <- get check "fails" ;;
           let fails := js_add rt fails (parseInt rt (js_or f (vnum 0))) in
           Ok (passes, fails))
        items (vnum 0, vnum 0).

(** *** [calculateStats] *)

Definition initial_stats : obj :=
  [ ("totalRequests", vnum 0);
    ("successfulRequests", vnum 0);
    ("failedRequests", vnum 0);
    ("successRate", vnum 0);
    ("errorRate", vnum 0);
    ("avgResponseTime", vnum 0);
    ("p95ResponseTime", vnum 0);
    ("maxResponseTime", vnum 0);
    ("minResponseTime", vnum 0);
    ("thresholdFailures", vnum 0);
    ("thresholdCount", vnum 0);
    ("checkFailures", vnum 0);
    ("checkPasses", vnum 0);
    ("totalChecks", vnum 0);
    ("maxVUs", vnum 0);
    ("avgVUs", vnum 0);
    ("iterations", vnum 0);
    ("dataReceived", vnum 0);
    ("dataSent", vnum 0);
    ("testDuration", vnum 0) ].

(** [data.metrics.name] and [data.metrics[name]]. *)
Definition metric (data : value) (name : string) : result value :=
  metrics <- get data "metrics" ;;
  get metrics name.

(** [data.metrics.name.values.stat]. *)
Definition metric_value (data : value) (name stat : string) : result value :=
  m <- metric data name ;;
  values <- get m "values" ;;
  get values stat.

(** [x++] on a property: numeric increment. *)
Definition incr (v : value) : value := VNum (num_succ (to_number rt v)).

(** Lines 879-882. *)
Definition stats_http_reqs (data : value) (stats : obj) : result obj :=
  m <- metric data "http_reqs" ;;
  if truthy m then
    count <- metric_value data "http_reqs" "count" ;;
    Ok (obj_set stats "totalRequests" (js_or count (vnum 0)))
  else Ok stats.

(** Lines 884-890. *)
Definition stats_http_req_failed (data : value) (stats : obj) : result obj :=
  m <- metric data "http_req_failed" ;;
  if truthy m then
    rate <- metric_value data "http_req_failed" "rate" ;;
    let stats :=
      obj_set stats "failedRequests"
        (js_round rt (js_mul rt (js_or rate (vnum 0)) (field stats "totalRequests"))) in
    let stats :=
      obj_set stats "successfulRequests"
        (js_sub rt (field stats "totalRequests") (field stats "failedRequests")) in
    rate <- metric_value data "http_req_failed" "rate" ;;
    errorRate <- call_toFixed rt (js_mul rt (js_or rate (vnum 0)) (vnum 100)) 2 ;;
    let stats := obj_set stats "errorRate" errorRate in
    successRate <- call_toFixed rt (js_sub rt (vnum 100) (field stats "errorRate")) 2 ;;
    Ok (obj_set stats "successRate" successRate)
  else Ok stats.

(** Lines 892-899. *)
Definition stats_http_req_duration (data : value) (stats : obj) : result obj :=
  m <- metric data "http_req_duration" ;;
  if truthy m then
    m <- metric data "http_req_duration" ;;
    duration <- get m "values" ;;
    avg <- get duration "avg" ;;
    avg <- call_toFixed rt (js_or avg (vnum 0)) 2 ;;
    let stats := obj_set stats "avgResponseTime" avg in
    p95 <- get duration "p(95)" ;;
    p95 <- call_toFixed rt (js_or p95 (vnum 0)) 2 ;;
    let stats := obj_set stats "p95ResponseTime" p95 in
    max <- get duration "max" ;;
    max <- call_toFixed rt (js_or max (vnum 0)) 2 ;;
    let stats := obj_set stats "maxResponseTime" max in
    min <- get duration "min" ;;
    min <- call_toFixed rt (js_or min (vnum 0)) 2 ;;
    Ok (obj_set stats "minResponseTime" min)
  else Ok stats.

(** Lines 901-905. *)
Definition stats_vus (data : value) (stats : obj) : result obj :=
  m <- metric data "vus" ;;
  if truthy m then
    max <- metric_value data "vus" "max" ;;
    let stats := obj_set stats "maxVUs" (js_or max (vnum 0)) in
    avg <- metric_value data "vus" "avg" ;;
    avg <- call_toFixed rt (js_or avg (vnum 0)) 0 ;;
    Ok (obj_set stats "avgVUs" avg)
  else Ok stats.

(** Lines 907-910. *)
Definition stats_iterations (data : value) (stats : obj) : result obj :=
  m <- metric data "iterations" ;;
  if truthy m then
    count <- metric_value data "iterations" "count" ;;
    Ok (obj_set stats "iterations" (js_or count (vnum 0)))
  else Ok stats.

(** Lines 912-918: bytes to megabytes; no [|| 0] on the count here. *)
Definition stats_data (name target : string) (data : value) (stats : obj)
  : result obj :=
  m <- metric data name ;;
  if truthy m then
    count <- metric_value data name "count" ;;
    mb <- call_toFixed rt (js_div_by rt count 1000000) 2 ;;
    Ok (obj_set stats target mb)
  else Ok stats.

(** Lines 925-929: the inner loop over one metric's threshold expressions. *)
Definition count_threshold_failures (thresholds : value) (stats : obj)
  : result obj :=
  foldM (fun (stats : obj) (thres : string) =>
           t <- get thresholds thres ;;
           ok <- get t "ok" ;;
           if negb (truthy ok)
           then Ok (obj_set stats "thresholdFailures"
                      (incr (field stats "thresholdFailures")))
           else Ok stats)
        (own_keys thresholds) stats.

(** Lines 920-931. *)
Definition stats_thresholds (data : value) (stats : obj) : result obj :=
  metrics <- get data "metrics" ;;
  foldM (fun (stats : obj) (metricName : string) =>
           m <- metric data metricName ;;
           th <- get m "thresholds" ;;
           if truthy th then
             let stats :=
               obj_set stats "thresholdCount" (incr (field stats "thresholdCount")) in
             m <- metric data metricName ;;
             thresholds <- get m "thresholds" ;;
             count_threshold_failures thresholds stats
           else Ok stats)
        (own_keys metrics) stats.

(** [stats.checkPasses += passes; stats.checkFailures += fails]. *)
Definition add_checks (stats : obj) (counted : value * value) : obj :=
  let '(passes, fails) := counted in
  let stats := obj_set stats "checkPasses" (js_add rt (field stats "checkPasses") passes) in
  obj_set stats "checkFailures" (js_add rt (field stats "checkFailures") fails).

(** Lines 933-938. *)
Definition stats_root_checks (data : value) (stats : obj) : result obj :=
  root <- get data "root_group" ;;
  checks <- get root "checks" ;;
  if truthy checks then
    root <- get data "root_group" ;;
    checks <- get root "checks" ;;
    counted <- countChecks checks ;;
    Ok (add_checks stats counted)
  else Ok stats.

(** Lines 940-947. *)
Definition stats_group_checks (data : value) (stats : obj) : result obj :=
  root <- get data "root_group" ;;
  groups <- get root "groups" ;;
  items <- iterate (js_or groups (VArr [])) ;;
  foldM (fun (stats : obj) (group : value) =>
           checks <- get group "checks" ;;
           if truthy checks then
             checks <- get group "checks" ;;
             counted <- countChecks checks ;;
             Ok (add_checks stats counted)
           else Ok stats)
        items stats.

(** Line 949. *)
Definition stats_total_checks (stats : obj) : obj :=
  obj_set stats "totalChecks"
    (js_add rt (field stats "checkPasses") (field stats "checkFailures")).

Definition calculateStats (data : value) : result obj :=
  stats <- stats_http_reqs data initial_stats ;;
  stats <- stats_http_req_failed data stats ;;
  stats <- stats_http_req_duration data stats ;;
  stats <- stats_vus data stats ;;
  stats <- stats_iterations data stats ;;
  stats <- stats_data "data_received" "dataReceived" data stats ;;
  stats <- stats_data "data_sent" "dataSent" data stats ;;
  stats <- stats_thresholds data stats ;;
  stats <- stats_root_checks data stats ;;
  stats <- stats_group_checks data stats ;;
  Ok (stats_total_checks stats).

End Reporter.

(** ** The static text of the templates

    The text between the interpolations of the template literals, as it
    stands in the source (indentation and line breaks included). *)

(** Static text of the document template, lines 62-68. *)
Definition page_01 : string := lines
  [ "";
    "<!DOCTYPE html>";
    ("<html lang=" ++ dq ++ "en" ++ dq ++ ">");
    "<head>";
    ("    <meta charset=" ++ dq ++ "UTF-8" ++ dq ++ ">");
    ("    <meta name=" ++ dq ++ "viewport" ++ dq ++ " content=" ++ dq ++ "width=device-width, initial-scale=1.0" ++ dq ++ ">");
    "    <title>K6 Performance Test Report - " ].

(** Static text of the document template, lines 68-109. *)
Definition page_02 : string := lines
  [ "</title>";
    "    <!-- Font Awesome for icons -->";
    ("    <link rel=" ++ dq ++ "stylesheet" ++ dq ++ " href=" ++ dq ++ "https://cdnjs.cloudflare.com/ajax/libs/font-awesome/6.4.0/css/all.min.css" ++ dq ++ ">");
    "    <style>";
    "        /* ========================================";
    "           GLOBAL STYLES";
    "           ======================================== */";
    "        ";
    "        /* Reset default browser styles */";
    "        * {";
    "            margin: 0;";
    "            padding: 0;";
    "            box-sizing: border-box;";
    "        }";
    "";
    "        /* Main body styling with gradient background */";
    "        body {";
    "            font-family: -apple-system, BlinkMacSystemFont, 'Segoe UI', Roboto, Oxygen, Ubuntu, Cantarell, sans-serif;";
    "            background: linear-gradient(135deg, #667eea 0%, #764ba2 100%);";
    "            color: #333;";
    "            line-height: 1.6;";
    "            padding: 20px;";
    "            min-height: 100vh;";
    "        }";
    "";
    "        /* Main container with white background and shadow */";
    "        .container {";
    "            max-width: 1400px;";
    "            margin: 0 auto;";
    "            background: white;";
    "            border-radius: 20px;";
    "            box-shadow: 0 20px 60px rgba(0, 0, 0, 0.3);";
    "            overflow: hidden;";
    "        }";
    "";
    "        /* ========================================";
    "           HEADER SECTION";
    "           ======================================== */";
    "        ";
    "        /* Header with dynamic gradient based on test pass/fail status */";
    "        .header {";
    "            background: " ].

(** Static text of the document template, lines 109-666. *)
Definition page_03 : string := lines
  [ ";";
    "            color: white;";
    "            padding: 40px;";
    "            position: relative;";
    "            overflow: hidden;";
    "        }";
    "";
    "        /* Animated background effect in header */";
    "        .header::before {";
    "            content: '';";
    "            position: absolute;";
    "            top: -50%;";
    "            right: -50%;";
    "            width: 200%;";
    "            height: 200%;";
    "            background: radial-gradient(circle, rgba(255,255,255,0.1) 0%, transparent 70%);";
    "            animation: pulse 15s ease-in-out infinite;";
    "        }";
    "";
    "        /* Pulse animation for header background */";
    "        @keyframes pulse {";
    "            0%, 100% { transform: scale(1); opacity: 0.5; }";
    "            50% { transform: scale(1.1); opacity: 0.8; }";
    "        }";
    "";
    "        /* Header content positioned above the animated background */";
    "        .header-content {";
    "            position: relative;";
    "            z-index: 10;";
    "        }";
    "";
    "        /* Main heading with flexbox for logo alignment */";
    "        .header h1 {";
    "            font-size: 2.5em;";
    "            margin-bottom: 10px;";
    "            font-weight: 300;";
    "            display: flex;";
    "            align-items: center;";
    "            gap: 15px;";
    "        }";
    "";
    "        /* K6 logo container */";
    "        .k6-logo {";
    "            width: 60px;";
    "            height: 60px;";
    "            background: rgba(255, 255, 255, 0.2);";
    "            border-radius: 12px;";
    "            display: flex;";
    "            align-items: center;";
    "            justify-content: center;";
    "            font-size: 2em;";
    "        }";
    "";
    "        /* Test status badge (PASSED/FAILED) */";
    "        .test-status {";
    "            display: inline-block;";
    "            padding: 10px 25px;";
    "            border-radius: 50px;";
    "            font-size: 0.9em;";
    "            font-weight: 600;";
    "            margin-top: 15px;";
    "            background: rgba(255, 255, 255, 0.3);";
    "            backdrop-filter: blur(10px);";
    "        }";
    "";
    "        /* ========================================";
    "           STATS GRID SECTION";
    "           ======================================== */";
    "        ";
    "        /* Responsive grid for statistic cards */";
    "        .stats-grid {";
    "            display: grid;";
    "            grid-template-columns: repeat(auto-fit, minmax(280px, 1fr));";
    "            gap: 25px;";
    "            padding: 40px;";
    "            background: #f8f9fa;";
    "        }";
    "";
    "        /* Individual stat card with shadow and hover effects */";
    "        .stat-card {";
    "            background: white;";
    "            border-radius: 15px;";
    "            padding: 30px;";
    "            box-shadow: 0 10px 30px rgba(0, 0, 0, 0.1);";
    "            transition: all 0.3s ease;";
    "            position: relative;";
    "            overflow: hidden;";
    "        }";
    "";
    "        /* Colored top border for each stat card */";
    "        .stat-card::before {";
    "            content: '';";
    "            position: absolute;";
    "            top: 0;";
    "            left: 0;";
    "            width: 100%;";
    "            height: 4px;";
    "            background: linear-gradient(90deg, #667eea 0%, #764ba2 100%);";
    "        }";
    "";
    "        /* Hover effect: lift the card */";
    "        .stat-card:hover {";
    "            transform: translateY(-5px);";
    "            box-shadow: 0 15px 40px rgba(0, 0, 0, 0.15);";
    "        }";
    "";
    "        /* Success state: green gradient */";
    "        .stat-card.success::before {";
    "            background: linear-gradient(90deg, #11998e 0%, #38ef7d 100%);";
    "        }";
    "";
    "        /* Error state: red gradient */";
    "        .stat-card.error::before {";
    "            background: linear-gradient(90deg, #eb3349 0%, #f45c43 100%);";
    "        }";
    "";
    "        /* Warning state: yellow/orange gradient */";
    "        .stat-card.warning::before {";
    "            background: linear-gradient(90deg, #f2994a 0%, #f2c94c 100%);";
    "        }";
    "";
    "        /* Background icon for stat cards (low opacity) */";
    "        .stat-icon {";
    "            font-size: 3em;";
    "            opacity: 0.1;";
    "            position: absolute;";
    "            right: 20px;";
    "            top: 50%;";
    "            transform: translateY(-50%);";
    "        }";
    "";
    "        /* Label text for each statistic */";
    "        .stat-label {";
    "            font-size: 0.85em;";
    "            color: #6c757d;";
    "            text-transform: uppercase;";
    "            letter-spacing: 1px;";
    "            margin-bottom: 10px;";
    "            font-weight: 600;";
    "        }";
    "";
    "        /* Main value display for each statistic */";
    "        .stat-value {";
    "            font-size: 2.5em;";
    "            font-weight: 700;";
    "            color: #2c3e50;";
    "            position: relative;";
    "            z-index: 10;";
    "        }";
    "";
    "        /* Subtext below the main stat value */";
    "        .stat-subtext {";
    "            font-size: 0.9em;";
    "            color: #95a5a6;";
    "            margin-top: 8px;";
    "        }";
    "";
    "        /* ========================================";
    "           TABS SECTION";
    "           ======================================== */";
    "        ";
    "        /* Container for all tab content */";
    "        .tabs-container {";
    "            padding: 40px;";
    "        }";
    "";
    "        /* Tab button container with bottom border */";
    "        .tabs {";
    "            display: flex;";
    "            gap: 10px;";
    "            border-bottom: 2px solid #e9ecef;";
    "            margin-bottom: 30px;";
    "            flex-wrap: wrap;";
    "        }";
    "";
    "        /* Individual tab button styling */";
    "        .tab-button {";
    "            padding: 15px 30px;";
    "            background: none;";
    "            border: none;";
    "            cursor: pointer;";
    "            font-size: 1em;";
    "            font-weight: 600;";
    "            color: #6c757d;";
    "            border-bottom: 3px solid transparent;";
    "            transition: all 0.3s ease;";
    "            display: flex;";
    "            align-items: center;";
    "            gap: 10px;";
    "        }";
    "";
    "        /* Tab button hover state */";
    "        .tab-button:hover {";
    "            color: #667eea;";
    "            background: rgba(102, 126, 234, 0.1);";
    "        }";
    "";
    "        /* Active tab styling */";
    "        .tab-button.active {";
    "            color: #667eea;";
    "            border-bottom-color: #667eea;";
    "        }";
    "";
    "        /* Tab content panel (hidden by default) */";
    "        .tab-content {";
    "            display: none;";
    "            animation: fadeIn 0.5s ease;";
    "        }";
    "";
    "        /* Show active tab content */";
    "        .tab-content.active {";
    "            display: block;";
    "        }";
    "";
    "        /* Fade-in animation for tab content */";
    "        @keyframes fadeIn {";
    "            from { opacity: 0; transform: translateY(10px); }";
    "            to { opacity: 1; transform: translateY(0); }";
    "        }";
    "";
    "        /* ========================================";
    "           METRICS TABLE";
    "           ======================================== */";
    "        ";
    "        /* Main metrics table with rounded corners */";
    "        .metrics-table {";
    "            width: 100%;";
    "            border-collapse: separate;";
    "            border-spacing: 0;";
    "            border-radius: 10px;";
    "            overflow: hidden;";
    "            box-shadow: 0 5px 15px rgba(0, 0, 0, 0.1);";
    "        }";
    "";
    "        /* Table header with gradient background */";
    "        .metrics-table thead {";
    "            background: linear-gradient(135deg, #667eea 0%, #764ba2 100%);";
    "            color: white;";
    "        }";
    "";
    "        /* Table header cells */";
    "        .metrics-table th {";
    "            padding: 15px;";
    "            text-align: left;";
    "            font-weight: 600;";
    "            font-size: 0.9em;";
    "            text-transform: uppercase;";
    "            letter-spacing: 0.5px;";
    "        }";
    "";
    "        /* Table data cells */";
    "        .metrics-table td {";
    "            padding: 15px;";
    "            border-bottom: 1px solid #e9ecef;";
    "        }";
    "";
    "        /* Table row hover effect */";
    "        .metrics-table tbody tr {";
    "            transition: background 0.2s ease;";
    "        }";
    "";
    "        .metrics-table tbody tr:hover {";
    "            background: #f8f9fa;";
    "        }";
    "";
    "        /* Remove border from last row */";
    "        .metrics-table tbody tr:last-child td {";
    "            border-bottom: none;";
    "        }";
    "";
    "        /* ========================================";
    "           BADGES AND INDICATORS";
    "           ======================================== */";
    "        ";
    "        /* Generic badge styling */";
    "        .badge {";
    "            display: inline-block;";
    "            padding: 5px 12px;";
    "            border-radius: 20px;";
    "            font-size: 0.85em;";
    "            font-weight: 600;";
    "        }";
    "";
    "        /* Success badge (green) */";
    "        .badge-success {";
    "            background: #d4edda;";
    "            color: #155724;";
    "        }";
    "";
    "        /* Error badge (red) */";
    "        .badge-error {";
    "            background: #f8d7da;";
    "            color: #721c24;";
    "        }";
    "";
    "        /* Warning badge (yellow) */";
    "        .badge-warning {";
    "            background: #fff3cd;";
    "            color: #856404;";
    "        }";
    "";
    "        /* Good metric value (green text) */";
    "        .metric-value-good {";
    "            color: #28a745;";
    "            font-weight: 600;";
    "        }";
    "";
    "        /* Bad metric value (red text) */";
    "        .metric-value-bad {";
    "            color: #dc3545;";
    "            font-weight: 600;";
    "        }";
    "";
    "        /* ========================================";
    "           CHART AND CONTAINER STYLES";
    "           ======================================== */";
    "        ";
    "        /* Container for charts and content sections */";
    "        .chart-container {";
    "            background: white;";
    "            border-radius: 15px;";
    "            padding: 30px;";
    "            box-shadow: 0 5px 15px rgba(0, 0, 0, 0.1);";
    "            margin-bottom: 30px;";
    "        }";
    "";
    "        /* Chart section title */";
    "        .chart-title {";
    "            font-size: 1.3em;";
    "            font-weight: 600;";
    "            margin-bottom: 20px;";
    "            color: #2c3e50;";
    "        }";
    "";
    "        /* Progress bar container */";
    "        .progress-bar {";
    "            height: 30px;";
    "            background: #e9ecef;";
    "            border-radius: 15px;";
    "            overflow: hidden;";
    "            margin: 10px 0;";
    "            position: relative;";
    "        }";
    "";
    "        /* Progress bar fill with animation */";
    "        .progress-fill {";
    "            height: 100%;";
    "            background: linear-gradient(90deg, #11998e 0%, #38ef7d 100%);";
    "            border-radius: 15px;";
    "            display: flex;";
    "            align-items: center;";
    "            justify-content: flex-end;";
    "            padding-right: 15px;";
    "            color: white;";
    "            font-weight: 600;";
    "            transition: width 1s ease;";
    "        }";
    "";
    "        /* Error state for progress bar (red gradient) */";
    "        .progress-fill.error {";
    "            background: linear-gradient(90deg, #eb3349 0%, #f45c43 100%);";
    "        }";
    "";
    "        /* ========================================";
    "           FOOTER";
    "           ======================================== */";
    "        ";
    "        /* Footer section */";
    "        .footer {";
    "            text-align: center;";
    "            padding: 30px;";
    "            background: #f8f9fa;";
    "            color: #6c757d;";
    "            font-size: 0.9em;";
    "        }";
    "";
    "        /* Footer links */";
    "        .footer a {";
    "            color: #667eea;";
    "            text-decoration: none;";
    "            font-weight: 600;";
    "        }";
    "";
    "        .footer a:hover {";
    "            text-decoration: underline;";
    "        }";
    "";
    "        /* ========================================";
    "           RESPONSIVE DESIGN";
    "           ======================================== */";
    "        ";
    "        /* Mobile/tablet optimizations */";
    "        @media (max-width: 768px) {";
    "            .header h1 {";
    "                font-size: 1.8em;";
    "            }";
    "";
    "            .stats-grid {";
    "                grid-template-columns: 1fr;";
    "                padding: 20px;";
    "            }";
    "";
    "            .tabs-container {";
    "                padding: 20px;";
    "            }";
    "";
    "            .tab-button {";
    "                font-size: 0.9em;";
    "                padding: 12px 20px;";
    "            }";
    "        }";
    "";
    "        /* ========================================";
    "           CHECK ITEMS";
    "           ======================================== */";
    "        ";
    "        /* Individual check result item */";
    "        .check-item {";
    "            display: flex;";
    "            justify-content: space-between;";
    "            align-items: center;";
    "            padding: 15px;";
    "            background: white;";
    "            border-radius: 10px;";
    "            margin-bottom: 10px;";
    "            box-shadow: 0 2px 5px rgba(0, 0, 0, 0.05);";
    "        }";
    "";
    "        .check-item:hover {";
    "            box-shadow: 0 5px 15px rgba(0, 0, 0, 0.1);";
    "        }";
    "";
    "        /* Check name/description */";
    "        .check-name {";
    "            flex: 1;";
    "            font-weight: 500;";
    "        }";
    "";
    "        /* Container for check statistics */";
    "        .check-stats {";
    "            display: flex;";
    "            gap: 20px;";
    "        }";
    "";
    "        /* ========================================";
    "           HEADER SUBTITLE AND METHOD BADGES";
    "           ======================================== */";
    "        ";
    "        /* Subtitle display in header */";
    "        .header-subtitle {";
    "            font-size: 1.1em;";
    "            opacity: 0.85;";
    "            margin: 15px 0 10px 0;";
    "            font-family: 'Courier New', monospace;";
    "            background: rgba(255, 255, 255, 0.2);";
    "            padding: 10px 20px;";
    "            border-radius: 8px;";
    "            display: inline-block;";
    "        }";
    "";
    "        /* HTTP method badge (GET, POST, etc.) */";
    "        .http-method-badge {";
    "            display: inline-block;";
    "            padding: 5px 15px;";
    "            border-radius: 6px;";
    "            font-weight: 700;";
    "            font-size: 0.9em;";
    "            margin-right: 10px;";
    "            font-family: 'Courier New', monospace;";
    "            letter-spacing: 1px;";
    "        }";
    "";
    "        /* Color coding for different HTTP methods */";
    "        .method-GET {";
    "            background: #28a745;";
    "            color: white;";
    "        }";
    "";
    "        .method-POST {";
    "            background: #007bff;";
    "            color: white;";
    "        }";
    "";
    "        .method-PUT {";
    "            background: #ffc107;";
    "            color: #000;";
    "        }";
    "";
    "        .method-DELETE {";
    "            background: #dc3545;";
    "            color: white;";
    "        }";
    "";
    "        .method-PATCH {";
    "            background: #17a2b8;";
    "            color: white;";
    "        }";
    "";
    "        /* ========================================";
    "           INFO TABLE";
    "           ======================================== */";
    "        ";
    "        /* Table for displaying test information */";
    "        .info-table {";
    "            width: 100%;";
    "            border-collapse: collapse;";
    "            margin-top: 15px;";
    "        }";
    "";
    "        /* Info table cells */";
    "        .info-table td {";
    "            padding: 10px 15px;";
    "            border-bottom: 1px solid #e9ecef;";
    "        }";
    "";
    "        /* Info table labels (left column) */";
    "        .info-table td:first-child {";
    "            font-weight: 600;";
    "            color: #667eea;";
    "            width: 40%;";
    "        }";
    "";
    "        /* Info table values (right column) */";
    "        .info-table td:last-child {";
    "            color: #2c3e50;";
    "            font-family: 'Courier New', monospace;";
    "        }";
    "";
    "        /* Remove border from last row */";
    "        .info-table tr:last-child td {";
    "            border-bottom: none;";
    "        }";
    "";
    "        /* Row hover effect */";
    "        .info-table tr:hover {";
    "            background: #f8f9fa;";
    "        }";
    "    </style>";
    "</head>";
    "<body>";
    ("    <div class=" ++ dq ++ "container" ++ dq ++ ">");
    "        <!-- ========================================";
    "             HEADER SECTION";
    "             ======================================== -->";
    ("        <div class=" ++ dq ++ "header" ++ dq ++ ">");
    ("            <div class=" ++ dq ++ "header-content" ++ dq ++ ">");
    "                <h1>";
    "                    <!-- K6 Logo SVG -->";
    ("                    <div class=" ++ dq ++ "k6-logo" ++ dq ++ ">");
    ("                        <svg width=" ++ dq ++ "40" ++ dq ++ " height=" ++ dq ++ "36" ++ dq ++ " viewBox=" ++ dq ++ "0 0 50 45" ++ dq ++ " fill=" ++ dq ++ "white" ++ dq ++ ">");
    ("                            <path d=" ++ dq ++ "M31.968 34.681a2.007 2.007 0 002.011-2.003c0-1.106-.9-2.003-2.011-2.003a2.007 2.007 0 00-2.012 2.003c0 1.106.9 2.003 2.012 2.003z" ++ dq ++ "/>");
    ("                            <path d=" ++ dq ++ "M39.575 0L27.154 16.883 16.729 9.31 0 45h50L39.575 0zM23.663 37.17l-2.97-4.072v4.072h-2.751V22.038l2.75 1.989v7.66l3.659-5.014 2.086 1.51-3.071 4.21 3.486 4.776h-3.189v.001zm8.305.17c-2.586 0-4.681-2.088-4.681-4.662 0-1.025.332-1.972.896-2.743l4.695-6.435 2.086 1.51-2.239 3.07a4.667 4.667 0 013.924 4.6c0 2.572-2.095 4.66-4.681 4.66z" ++ dq ++ "/>");
    "                        </svg>";
    "                    </div>";
    "                    K6 Performance Test Report";
    "                </h1>";
    "                <!-- Report title -->";
    ("                <p style=" ++ dq ++ "font-size: 1.2em; opacity: 0.9; margin: 10px 0;" ++ dq ++ ">") ].

(** Static text of the document template, lines 666-668. *)
Definition page_04 : string := lines
  [ "</p>";
    "                <!-- Subtitle with HTTP method badge if provided -->";
    "                " ].

(** Static text of the document template, lines 680-683. *)
Definition page_05 : string := lines
  [ "";
    "                <!-- Timestamp when report was generated -->";
    ("                <p style=" ++ dq ++ "margin-top: 15px; opacity: 0.9;" ++ dq ++ ">");
    ("                    <i class=" ++ dq ++ "far fa-clock" ++ dq ++ "></i> Generated: ") ].

(** Static text of the document template, lines 683-693. *)
Definition page_06 : string := lines
  [ "";
    "                </p>";
    "            </div>";
    "        </div>";
    "";
    "        <!-- ========================================";
    "             STATS GRID - Overview Cards";
    "             ======================================== -->";
    ("        <div class=" ++ dq ++ "stats-grid" ++ dq ++ ">");
    "            <!-- Total Requests Card -->";
    ("            <div class=" ++ dq ++ "stat-card ") ].

(** Static text of the document template, lines 693-696. *)
Definition page_07 : string := lines
  [ (dq ++ ">");
    ("                <i class=" ++ dq ++ "fas fa-globe stat-icon" ++ dq ++ "></i>");
    ("                <div class=" ++ dq ++ "stat-label" ++ dq ++ ">Total Requests</div>");
    ("                <div class=" ++ dq ++ "stat-value" ++ dq ++ ">") ].

(** Static text of the document template, lines 696-697. *)
Definition page_08 : string := lines
  [ "</div>";
    ("                <div class=" ++ dq ++ "stat-subtext" ++ dq ++ ">") ].

(** Static text of the document template, lines 697-701. *)
Definition page_09 : string := lines
  [ " successful</div>";
    "            </div>";
    "";
    "            <!-- Success Rate Card -->";
    ("            <div class=" ++ dq ++ "stat-card ") ].

(** Static text of the document template, lines 701-704. *)
Definition page_10 : string := lines
  [ (dq ++ ">");
    ("                <i class=" ++ dq ++ "fas fa-chart-line stat-icon" ++ dq ++ "></i>");
    ("                <div class=" ++ dq ++ "stat-label" ++ dq ++ ">Success Rate</div>");
    ("                <div class=" ++ dq ++ "stat-value" ++ dq ++ ">") ].

(** Static text of the document template, lines 704-705. *)
Definition page_11 : string := lines
  [ "%</div>";
    ("                <div class=" ++ dq ++ "stat-subtext" ++ dq ++ ">") ].

(** Static text of the document template, lines 705-709. *)
Definition page_12 : string := lines
  [ " failed requests</div>";
    "            </div>";
    "";
    "            <!-- Average Response Time Card -->";
    ("            <div class=" ++ dq ++ "stat-card ") ].

(** Static text of the document template, lines 709-712. *)
Definition page_13 : string := lines
  [ (dq ++ ">");
    ("                <i class=" ++ dq ++ "fas fa-tachometer-alt stat-icon" ++ dq ++ "></i>");
    ("                <div class=" ++ dq ++ "stat-label" ++ dq ++ ">Avg Response Time</div>");
    ("                <div class=" ++ dq ++ "stat-value" ++ dq ++ ">") ].

(** Static text of the document template, lines 712-713. *)
Definition page_14 : string := lines
  [ ("<span style=" ++ dq ++ "font-size: 0.5em;" ++ dq ++ ">ms</span></div>");
    ("                <div class=" ++ dq ++ "stat-subtext" ++ dq ++ ">P95: ") ].

(** Static text of the document template, lines 713-720. *)
Definition page_15 : string := lines
  [ "ms</div>";
    "            </div>";
    "";
    "            <!-- Virtual Users Card -->";
    ("            <div class=" ++ dq ++ "stat-card" ++ dq ++ ">");
    ("                <i class=" ++ dq ++ "fas fa-users stat-icon" ++ dq ++ "></i>");
    ("                <div class=" ++ dq ++ "stat-label" ++ dq ++ ">Virtual Users</div>");
    ("                <div class=" ++ dq ++ "stat-value" ++ dq ++ ">") ].

(** Static text of the document template, lines 720-721. *)
Definition page_16 : string := lines
  [ "</div>";
    ("                <div class=" ++ dq ++ "stat-subtext" ++ dq ++ ">Average: ") ].

(** Static text of the document template, lines 721-725. *)
Definition page_17 : string := lines
  [ " VUs</div>";
    "            </div>";
    "";
    "            <!-- Checks Card -->";
    ("            <div class=" ++ dq ++ "stat-card ") ].

(** Static text of the document template, lines 725-728. *)
Definition page_18 : string := lines
  [ (dq ++ ">");
    ("                <i class=" ++ dq ++ "fas fa-check-circle stat-icon" ++ dq ++ "></i>");
    ("                <div class=" ++ dq ++ "stat-label" ++ dq ++ ">Checks</div>");
    ("                <div class=" ++ dq ++ "stat-value" ++ dq ++ ">") ].

(** Static text of the document template, lines 728-729. *)
Definition page_19 : string := lines
  [ "</div>";
    ("                <div class=" ++ dq ++ "stat-subtext" ++ dq ++ ">") ].

(** Static text of the document template, line 729. *)
Definition page_20 : string := " passed / ".

(** Static text of the document template, lines 729-733. *)
Definition page_21 : string := lines
  [ " failed</div>";
    "            </div>";
    "";
    "            <!-- Thresholds Card -->";
    ("            <div class=" ++ dq ++ "stat-card ") ].

(** Static text of the document template, lines 733-736. *)
Definition page_22 : string := lines
  [ (dq ++ ">");
    ("                <i class=" ++ dq ++ "fas fa-exclamation-triangle stat-icon" ++ dq ++ "></i>");
    ("                <div class=" ++ dq ++ "stat-label" ++ dq ++ ">Thresholds</div>");
    ("                <div class=" ++ dq ++ "stat-value" ++ dq ++ ">") ].

(** Static text of the document template, lines 736-737. *)
Definition page_23 : string := lines
  [ "</div>";
    ("                <div class=" ++ dq ++ "stat-subtext" ++ dq ++ ">of ") ].

(** Static text of the document template, lines 737-760. *)
Definition page_24 : string := lines
  [ " breached</div>";
    "            </div>";
    "        </div>";
    "";
    "        <!-- ========================================";
    "             TABS SECTION";
    "             ======================================== -->";
    ("        <div class=" ++ dq ++ "tabs-container" ++ dq ++ ">");
    "            <!-- Tab Navigation Buttons -->";
    ("            <div class=" ++ dq ++ "tabs" ++ dq ++ ">");
    ("                <button class=" ++ dq ++ "tab-button active" ++ dq ++ " onclick=" ++ dq ++ "switchTab(event, 'overview')" ++ dq ++ ">");
    ("                    <i class=" ++ dq ++ "fas fa-chart-pie" ++ dq ++ "></i> Overview");
    "                </button>";
    ("                <button class=" ++ dq ++ "tab-button" ++ dq ++ " onclick=" ++ dq ++ "switchTab(event, 'metrics')" ++ dq ++ ">");
    ("                    <i class=" ++ dq ++ "fas fa-table" ++ dq ++ "></i> Detailed Metrics");
    "                </button>";
    ("                <button class=" ++ dq ++ "tab-button" ++ dq ++ " onclick=" ++ dq ++ "switchTab(event, 'checks')" ++ dq ++ ">");
    ("                    <i class=" ++ dq ++ "fas fa-tasks" ++ dq ++ "></i> Checks & Groups");
    "                </button>";
    ("                <button class=" ++ dq ++ "tab-button" ++ dq ++ " onclick=" ++ dq ++ "switchTab(event, 'thresholds')" ++ dq ++ ">");
    ("                    <i class=" ++ dq ++ "fas fa-gauge-high" ++ dq ++ "></i> Thresholds");
    "                </button>";
    "                <!-- Conditional Test Info tab (only if additional info provided) -->";
    "                " ].

(** Static text of the document template, lines 764-771. *)
Definition page_25 : string := lines
  [ "";
    "            </div>";
    "";
    "            <!-- Tab Content Panels -->";
    "            ";
    "            <!-- Overview Tab - Charts and graphs -->";
    ("            <div id=" ++ dq ++ "overview" ++ dq ++ " class=" ++ dq ++ "tab-content active" ++ dq ++ ">");
    "                " ].

(** Static text of the document template, lines 771-776. *)
Definition page_26 : string := lines
  [ "";
    "            </div>";
    "";
    "            <!-- Metrics Tab - Detailed metrics table -->";
    ("            <div id=" ++ dq ++ "metrics" ++ dq ++ " class=" ++ dq ++ "tab-content" ++ dq ++ ">");
    "                " ].

(** Static text of the document template, lines 776-781. *)
Definition page_27 : string := lines
  [ "";
    "            </div>";
    "";
    "            <!-- Checks Tab - Test checks and validations -->";
    ("            <div id=" ++ dq ++ "checks" ++ dq ++ " class=" ++ dq ++ "tab-content" ++ dq ++ ">");
    "                " ].

(** Static text of the document template, lines 781-786. *)
Definition page_28 : string := lines
  [ "";
    "            </div>";
    "";
    "            <!-- Thresholds Tab - Threshold pass/fail status -->";
    ("            <div id=" ++ dq ++ "thresholds" ++ dq ++ " class=" ++ dq ++ "tab-content" ++ dq ++ ">");
    "                " ].

(** Static text of the document template, lines 786-790. *)
Definition page_29 : string := lines
  [ "";
    "            </div>";
    "";
    "            <!-- Test Info Tab - Additional configuration details -->";
    "            " ].

(** Static text of the document template, lines 794-844. *)
Definition page_30 : string := lines
  [ "";
    "        </div>";
    "";
    "        <!-- ========================================";
    "             FOOTER";
    "             ======================================== -->";
    ("        <div class=" ++ dq ++ "footer" ++ dq ++ ">");
    "            <p><strong>K6 Reporter by Samin Azhan</strong></p>";
    "            <p>Generated with ❤️ by K6 Performance Testing Suite</p>";
    ("            <p style=" ++ dq ++ "margin-top: 10px;" ++ dq ++ ">");
    ("                <a href=" ++ dq ++ "https://k6.io/docs/" ++ dq ++ " target=" ++ dq ++ "_blank" ++ dq ++ ">K6 Documentation</a> | ");
    ("                <a href=" ++ dq ++ "https://github.com/Samin005" ++ dq ++ " target=" ++ dq ++ "_blank" ++ dq ++ ">GitHub</a>");
    "            </p>";
    "        </div>";
    "    </div>";
    "";
    "    <!-- ========================================";
    "         JAVASCRIPT - Tab Switching & Animations";
    "         ======================================== -->";
    "    <script>";
    "        /**";
    "         * Switch between tabs when clicking tab buttons";
    "         * @param {Event} event - The click event";
    "         * @param {string} tabId - The ID of the tab to show";
    "         */";
    "        function switchTab(event, tabId) {";
    "            // Remove active class from all tab buttons";
    "            document.querySelectorAll('.tab-button').forEach(btn => btn.classList.remove('active'));";
    "            // Hide all tab content panels";
    "            document.querySelectorAll('.tab-content').forEach(content => content.classList.remove('active'));";
    "            ";
    "            // Add active class to clicked button";
    "            event.currentTarget.classList.add('active');";
    "            // Show selected tab content";
    "            document.getElementById(tabId).classList.add('active');";
    "        }";
    "";
    "        /**";
    "         * Animate progress bars on page load";
    "         * Progress bars start at 0 width and animate to their final width";
    "         */";
    "        window.addEventListener('load', () => {";
    "            document.querySelectorAll('.progress-fill').forEach(bar => {";
    "                const width = bar.style.width; // Store final width";
    "                bar.style.width = '0';         // Start at 0";
    "                setTimeout(() => { bar.style.width = width; }, 100); // Animate to final width";
    "            });";
    "        });";
    "    </script>";
    "</body>";
    "</html>" ].

(** The header when a subtitle is given, lines 668-670. *)
Definition subtitle_shown_01 : string := lines
  [ "";
    ("                <div class=" ++ dq ++ "header-subtitle" ++ dq ++ ">");
    "                    " ].

(** The header when a subtitle is given, lines 670-671. *)
Definition subtitle_shown_02 : string := lines
  [ "";
    "                    " ].

(** The header when a subtitle is given, lines 671-674. *)
Definition subtitle_shown_03 : string := lines
  [ "";
    "                </div>";
    ("                <span class=" ++ dq ++ "test-status" ++ dq ++ " style=" ++ dq ++ "margin-top: 15px;" ++ dq ++ ">");
    "                    " ].

(** The header when a subtitle is given, lines 674-676. *)
Definition subtitle_shown_04 : string := lines
  [ "";
    "                </span>";
    "                " ].

(** The header without a subtitle, lines 676-678. *)
Definition subtitle_absent_01 : string := lines
  [ "";
    ("                <span class=" ++ dq ++ "test-status" ++ dq ++ ">");
    "                    " ].

(** The header without a subtitle, lines 678-680. *)
Definition subtitle_absent_02 : string := lines
  [ "";
    "                </span>";
    "                " ].

(** The tab button of the test-info section, lines 760-764. *)
Definition testinfo_button_01 : string := lines
  [ "";
    ("                <button class=" ++ dq ++ "tab-button" ++ dq ++ " onclick=" ++ dq ++ "switchTab(event, 'testinfo')" ++ dq ++ ">");
    ("                    <i class=" ++ dq ++ "fas fa-info-circle" ++ dq ++ "></i> Test Info");
    "                </button>";
    "                " ].

(** The panel of the test-info section, lines 790-792. *)
Definition testinfo_panel_01 : string := lines
  [ "";
    ("            <div id=" ++ dq ++ "testinfo" ++ dq ++ " class=" ++ dq ++ "tab-content" ++ dq ++ ">");
    "                " ].

(** The panel of the test-info section, lines 792-794. *)
Definition testinfo_panel_02 : string := lines
  [ "";
    "            </div>";
    "            " ].

(** Static text of the overview section, lines 1203-1211. *)
Definition overview_01 : string := lines
  [ "";
    ("        <div class=" ++ dq ++ "chart-container" ++ dq ++ ">");
    ("            <h3 class=" ++ dq ++ "chart-title" ++ dq ++ ">Performance Overview</h3>");
    "            ";
    "            <!-- Success Rate Progress Bar -->";
    ("            <div style=" ++ dq ++ "margin: 30px 0;" ++ dq ++ ">");
    ("                <div style=" ++ dq ++ "display: flex; justify-content: space-between; margin-bottom: 10px;" ++ dq ++ ">");
    "                    <span>Success Rate</span>";
    ("                    <span class=" ++ dq ++ "metric-value-good" ++ dq ++ ">") ].

(** Static text of the overview section, lines 1211-1214. *)
Definition overview_02 : string := lines
  [ "%</span>";
    "                </div>";
    ("                <div class=" ++ dq ++ "progress-bar" ++ dq ++ ">");
    ("                    <div class=" ++ dq ++ "progress-fill" ++ dq ++ " style=" ++ dq ++ "width: ") ].

(** Static text of the overview section, line 1214. *)
Definition overview_03 : string := ("%" ++ dq ++ ">").

(** Static text of the overview section, lines 1214-1222. *)
Definition overview_04 : string := lines
  [ "%</div>";
    "                </div>";
    "            </div>";
    "";
    "            <!-- Error Rate Progress Bar -->";
    ("            <div style=" ++ dq ++ "margin: 30px 0;" ++ dq ++ ">");
    ("                <div style=" ++ dq ++ "display: flex; justify-content: space-between; margin-bottom: 10px;" ++ dq ++ ">");
    "                    <span>Error Rate</span>";
    ("                    <span class=" ++ dq ++ "metric-value-bad" ++ dq ++ ">") ].

(** Static text of the overview section, lines 1222-1225. *)
Definition overview_05 : string := lines
  [ "%</span>";
    "                </div>";
    ("                <div class=" ++ dq ++ "progress-bar" ++ dq ++ ">");
    ("                    <div class=" ++ dq ++ "progress-fill error" ++ dq ++ " style=" ++ dq ++ "width: ") ].

(** Static text of the overview section, line 1225. *)
Definition overview_06 : string := ("%" ++ dq ++ ">").

(** Static text of the overview section, lines 1225-1234. *)
Definition overview_07 : string := lines
  [ "%</div>";
    "                </div>";
    "            </div>";
    "";
    "            <!-- Response Time Statistics Grid -->";
    ("            <div style=" ++ dq ++ "display: grid; grid-template-columns: repeat(auto-fit, minmax(200px, 1fr)); gap: 20px; margin-top: 30px;" ++ dq ++ ">");
    "                <!-- Minimum Response Time -->";
    ("                <div style=" ++ dq ++ "text-align: center; padding: 20px; background: #f8f9fa; border-radius: 10px;" ++ dq ++ ">");
    ("                    <div style=" ++ dq ++ "font-size: 0.9em; color: #6c757d; margin-bottom: 5px;" ++ dq ++ ">MIN</div>");
    ("                    <div style=" ++ dq ++ "font-size: 1.8em; font-weight: 700; color: #28a745;" ++ dq ++ ">") ].

(** Static text of the overview section, lines 1234-1239. *)
Definition overview_08 : string := lines
  [ "ms</div>";
    "                </div>";
    "                <!-- Average Response Time -->";
    ("                <div style=" ++ dq ++ "text-align: center; padding: 20px; background: #f8f9fa; border-radius: 10px;" ++ dq ++ ">");
    ("                    <div style=" ++ dq ++ "font-size: 0.9em; color: #6c757d; margin-bottom: 5px;" ++ dq ++ ">AVG</div>");
    ("                    <div style=" ++ dq ++ "font-size: 1.8em; font-weight: 700, color: #667eea;" ++ dq ++ ">") ].

(** Static text of the overview section, lines 1239-1244. *)
Definition overview_09 : string := lines
  [ "ms</div>";
    "                </div>";
    "                <!-- 95th Percentile Response Time -->";
    ("                <div style=" ++ dq ++ "text-align: center; padding: 20px; background: #f8f9fa; border-radius: 10px;" ++ dq ++ ">");
    ("                    <div style=" ++ dq ++ "font-size: 0.9em; color: #6c757d; margin-bottom: 5px;" ++ dq ++ ">P95</div>");
    ("                    <div style=" ++ dq ++ "font-size: 1.8em; font-weight: 700; color: #f2994a;" ++ dq ++ ">") ].

(** Static text of the overview section, lines 1244-1249. *)
Definition overview_10 : string := lines
  [ "ms</div>";
    "                </div>";
    "                <!-- Maximum Response Time -->";
    ("                <div style=" ++ dq ++ "text-align: center; padding: 20px; background: #f8f9fa; border-radius: 10px;" ++ dq ++ ">");
    ("                    <div style=" ++ dq ++ "font-size: 0.9em; color: #6c757d; margin-bottom: 5px;" ++ dq ++ ">MAX</div>");
    ("                    <div style=" ++ dq ++ "font-size: 1.8em; font-weight: 700; color: #dc3545;" ++ dq ++ ">") ].

(** Static text of the overview section, lines 1249-1261. *)
Definition overview_11 : string := lines
  [ "ms</div>";
    "                </div>";
    "            </div>";
    "        </div>";
    "";
    "        <!-- Data Transfer Statistics -->";
    ("        <div class=" ++ dq ++ "chart-container" ++ dq ++ ">");
    ("            <h3 class=" ++ dq ++ "chart-title" ++ dq ++ ">Data Transfer</h3>");
    ("            <div style=" ++ dq ++ "display: grid; grid-template-columns: 1fr 1fr; gap: 30px; margin-top: 20px;" ++ dq ++ ">");
    "                <!-- Data Received -->";
    ("                <div style=" ++ dq ++ "text-align: center;" ++ dq ++ ">");
    ("                    <i class=" ++ dq ++ "fas fa-download" ++ dq ++ " style=" ++ dq ++ "font-size: 3em; color: #667eea; opacity: 0.3;" ++ dq ++ "></i>");
    ("                    <div style=" ++ dq ++ "font-size: 2em; font-weight: 700; margin: 10px 0;" ++ dq ++ ">") ].

(** Static text of the overview section, lines 1261-1267. *)
Definition overview_12 : string := lines
  [ " MB</div>";
    ("                    <div style=" ++ dq ++ "color: #6c757d;" ++ dq ++ ">Data Received</div>");
    "                </div>";
    "                <!-- Data Sent -->";
    ("                <div style=" ++ dq ++ "text-align: center;" ++ dq ++ ">");
    ("                    <i class=" ++ dq ++ "fas fa-upload" ++ dq ++ " style=" ++ dq ++ "font-size: 3em; color: #764ba2; opacity: 0.3;" ++ dq ++ "></i>");
    ("                    <div style=" ++ dq ++ "font-size: 2em; font-weight: 700; margin: 10px 0;" ++ dq ++ ">") ].

(** Static text of the overview section, lines 1267-1272. *)
Definition overview_13 : string := lines
  [ " MB</div>";
    ("                    <div style=" ++ dq ++ "color: #6c757d;" ++ dq ++ ">Data Sent</div>");
    "                </div>";
    "            </div>";
    "        </div>";
    "    " ].

(** The summary cards of the thresholds section, lines 1150-1154. *)
Definition thresholds_summary_01 : string := lines
  [ ("<div class=" ++ dq ++ "chart-container" ++ dq ++ ">");
    ("            <h3 class=" ++ dq ++ "chart-title" ++ dq ++ "><i class=" ++ dq ++ "fas fa-gauge-high" ++ dq ++ "></i> Threshold Results</h3>");
    ("            <div style=" ++ dq ++ "display: grid; grid-template-columns: 1fr 1fr; gap: 20px; margin-bottom: 30px;" ++ dq ++ ">");
    ("                <div style=" ++ dq ++ "background: linear-gradient(135deg, #d4edda 0%, #c3e6cb 100%); padding: 20px; border-radius: 10px; text-align: center;" ++ dq ++ ">");
    ("                    <div style=" ++ dq ++ "font-size: 2.5em; font-weight: 700; color: #155724;" ++ dq ++ ">") ].

(** The summary cards of the thresholds section, lines 1154-1158. *)
Definition thresholds_summary_02 : string := lines
  [ "</div>";
    ("                    <div style=" ++ dq ++ "color: #155724; font-weight: 600;" ++ dq ++ ">Passed</div>");
    "                </div>";
    ("                <div style=" ++ dq ++ "background: linear-gradient(135deg, #f8d7da 0%, #f5c6cb 100%); padding: 20px; border-radius: 10px; text-align: center;" ++ dq ++ ">");
    ("                    <div style=" ++ dq ++ "font-size: 2.5em; font-weight: 700; color: #721c24;" ++ dq ++ ">") ].

(** The summary cards of the thresholds section, lines 1158-1161. *)
Definition thresholds_summary_03 : string := lines
  [ "</div>";
    ("                    <div style=" ++ dq ++ "color: #721c24; font-weight: 600;" ++ dq ++ ">Failed</div>");
    "                </div>";
    "            </div>" ].

(** ** The section builders and the document *)

Section Builders.
Context (rt : Runtime).

(** [a && b] where [b] is a comparison. *)
Definition and_then (a : value) (b : result bool) : result bool :=
  if truthy a then b else Ok false.

(** *** [generateOverviewSection] *)

Definition generateOverviewSection (stats : obj) : string :=
  String.concat ""
    [ overview_01; to_string rt (field stats "successRate");
      overview_02; to_string rt (field stats "successRate");
      overview_03; to_string rt (field stats "successRate");
      overview_04; to_string rt (field stats "errorRate");
      overview_05; to_string rt (field stats "errorRate");
      overview_06; to_string rt (field stats "errorRate");
      overview_07; to_string rt (field stats "minResponseTime");
      overview_08; to_string rt (field stats "avgResponseTime");
      overview_09; to_string rt (field stats "p95ResponseTime");
      overview_10; to_string rt (field stats "maxResponseTime");
      overview_11; to_string rt (field stats "dataReceived");
      overview_12; to_string rt (field stats "dataSent");
      overview_13 ].

(** *** [generateMetricsTable] *)

Definition standardMetrics : list string :=
  [ "http_req_duration";
    "http_req_waiting";
    "http_req_connecting";
    "http_req_tls_handshaking";
    "http_req_sending";
    "http_req_receiving";
    "http_req_blocked";
    "iteration_duration" ].

(** [(values.stat || 0).toFixed(2)], interpolated. *)
Definition metric_cell (values : value) (stat : string) : result string :=
  v <- get values stat ;;
  s <- call_toFixed rt (js_or v (vnum 0)) 2 ;;
  Ok (to_string rt s).

Definition metrics_row (data : value) (html metricName : string) : result string :=
  m <- metric data metricName ;;
  if truthy m then
    m <- metric data metricName ;;
    values <- get m "values" ;;
    let html := html ++ "<tr>" in
    let html := html ++ "<td><strong>" ++ metricName ++ "</strong></td>" in
    avg <- metric_cell values "avg" ;;
    let html := html ++ "<td>" ++ avg ++ "</td>" in
    min <- metric_cell values "min" ;;
    let html := html ++ ("<td class=" ++ dq ++ "metric-value-good" ++ dq ++ ">") ++ min ++ "</td>" in
    med <- metric_cell values "med" ;;
    let html := html ++ "<td>" ++ med ++ "</td>" in
    max <- metric_cell values "max" ;;
    let html := html ++ ("<td class=" ++ dq ++ "metric-value-bad" ++ dq ++ ">") ++ max ++ "</td>" in
    p90 <- metric_cell values "p(90)" ;;
    let html := html ++ "<td>" ++ p90 ++ "</td>" in
    p95 <- metric_cell values "p(95)" ;;
    let html := html ++ "<td>" ++ p95 ++ "</td>" in
    Ok (html ++ "</tr>")
  else Ok html.

Definition generateMetricsTable (data : value) : result string :=
  let html := ("<div class=" ++ dq ++ "chart-container" ++ dq ++ "><h3 class=" ++ dq ++ "chart-title" ++ dq ++ ">HTTP Request Metrics</h3>") in
  let html := html ++ ("<table class=" ++ dq ++ "metrics-table" ++ dq ++ "><thead><tr>") in
  let html := html ++ "<th>Metric</th><th>Avg</th><th>Min</th><th>Med</th><th>Max</th><th>P90</th><th>P95</th>" in
  let html := html ++ "</tr></thead><tbody>" in
  html <- foldM (metrics_row data) standardMetrics html ;;
  let html := html ++ "</tbody></table></div>" in
  Ok (html ++ ("<p style=" ++ dq ++ "margin-top: 10px; color: #6c757d; font-size: 0.9em;" ++ dq ++ "><i class=" ++ dq ++ "fas fa-info-circle" ++ dq ++ "></i> All times are in milliseconds</p>")).

(** *** [generateChecksSection] *)

(** The body shared by the two loops over checks (lines 1039-1046 and
    1062-1069). *)
Definition check_item (html : string) (check : value) : result string :=
  let html := html ++ ("<div class=" ++ dq ++ "check-item" ++ dq ++ ">") in
  name <- get check "name" ;;
  let html := html ++ ("<div class=" ++ dq ++ "check-name" ++ dq ++ ">") ++ escapeHtml rt name ++ "</div>" in
  let html := html ++ ("<div class=" ++ dq ++ "check-stats" ++ dq ++ ">") in
  passes <- get check "passes" ;;
  let html := html ++ ("<span class=" ++ dq ++ "badge badge-success" ++ dq ++ "><i class=" ++ dq ++ "fas fa-check" ++ dq ++ "></i> ") ++ to_string rt passes ++ " passed</span>" in
  fails <- get check "fails" ;;
  html <- (if js_gt_num rt fails 0 then
             fails <- get check "fails" ;;
             Ok (html ++ ("<span class=" ++ dq ++ "badge badge-error" ++ dq ++ "><i class=" ++ dq ++ "fas fa-times" ++ dq ++ "></i> ") ++ to_string rt fails ++ " failed</span>")
           else Ok html) ;;
  Ok (html ++ "</div></div>").

(** In a group the loop first reads [check.fails] for [isPassed], a constant
    that is not used afterwards. *)
Definition group_check_item (html : string) (check : value) : result string :=
  isPassed <- get check "fails" ;;
  check_item html check.

Definition group_block (html : string) (group : value) : result string :=
  let html := html ++ ("<div class=" ++ dq ++ "chart-container" ++ dq ++ ">") in
  name <- get group "name" ;;
  let html := html ++ ("<h3 class=" ++ dq ++ "chart-title" ++ dq ++ "><i class=" ++ dq ++ "fas fa-layer-group" ++ dq ++ "></i> Group: ") ++ escapeHtml rt name ++ "</h3>" in
  checks <- get group "checks" ;;
  nonempty <- and_then checks
                (checks <- get group "checks" ;;
                 len <- get checks "length" ;;
                 Ok (js_gt_num rt len 0)) ;;
  html <- (if nonempty then
             checks <- get group "checks" ;;
             items <- iterate checks ;;
             foldM group_check_item items html
           else Ok (html ++ ("<p style=" ++ dq ++ "color: #6c757d;" ++ dq ++ ">No checks in this group</p>"))) ;;
  Ok (html ++ "</div>").

Definition generateChecksSection (data : value) : result string :=
  let html := "" in
  root <- get data "root_group" ;;
  groups <- get root "groups" ;;
  nonempty <- and_then groups
                (root <- get data "root_group" ;;
                 groups <- get root "groups" ;;
                 len <- get groups "length" ;;
                 Ok (js_gt_num rt len 0)) ;;
  html <- (if nonempty then
             root <- get data "root_group" ;;
             groups <- get root "groups" ;;
             items <- iterate groups ;;
             foldM group_block items html
           else Ok html) ;;
  root <- get data "root_group" ;;
  checks <- get root "checks" ;;
  nonempty <- and_then checks
                (root <- get data "root_group" ;;
                 checks <- get root "checks" ;;
                 len <- get checks "length" ;;
                 Ok (js_gt_num rt len 0)) ;;
  html <- (if nonempty then
             let html := html ++ ("<div class=" ++ dq ++ "chart-container" ++ dq ++ ">") in
             let html := html ++ ("<h3 class=" ++ dq ++ "chart-title" ++ dq ++ "><i class=" ++ dq ++ "fas fa-list-check" ++ dq ++ "></i> Other Checks</h3>") in
             root <- get data "root_group" ;;
             checks <- get root "checks" ;;
             items <- iterate checks ;;
             html <- foldM check_item items html ;;
             Ok (html ++ "</div>")
           else Ok html) ;;
  if negb (truthy (VStr html))
  then Ok ("<div class=" ++ dq ++ "chart-container" ++ dq ++ "><p style=" ++ dq ++ "color: #6c757d;" ++ dq ++ ">No checks configured for this test</p></div>")
  else Ok html.

(** *** [generateThresholdsSection] *)

(** The loop state: [html], [hasThresholds], [passedCount], [failedCount]. *)
Record thresholds_state : Type := {
  ts_html : string;
  ts_hasThresholds : bool;
  ts_passedCount : value;
  ts_failedCount : value
}.

Definition colour (isPassed : value) : string :=
  if truthy isPassed then "#28a745" else "#dc3545".

Definition threshold_item (metricName : string) (thresholds : value)
  (st : thresholds_state) (thresholdName : string) : result thresholds_state :=
  threshold <- get thresholds thresholdName ;;
  isPassed <- get threshold "ok" ;;
  let passedCount := if truthy isPassed then incr rt (ts_passedCount st) else ts_passedCount st in
  let failedCount := if truthy isPassed then ts_failedCount st else incr rt (ts_failedCount st) in
  let html := ts_html st in
  let html := html ++ ("<div class=" ++ dq ++ "check-item" ++ dq ++ " style=" ++ dq ++ "border-left: 4px solid ") ++ colour isPassed ++ (";" ++ dq ++ ">") in
  let html := html ++ ("<div style=" ++ dq ++ "flex: 1;" ++ dq ++ ">") in
  let html := html ++ ("<div style=" ++ dq ++ "font-weight: 600; margin-bottom: 5px;" ++ dq ++ ">") in
  let html := html ++ ("<i class=" ++ dq ++ "fas fa-") ++ (if truthy isPassed then "check-circle" else "times-circle") ++ (dq ++ " style=" ++ dq ++ "color: ") ++ colour isPassed ++ (";" ++ dq ++ "></i> ") in
  let html := html ++ escapeHtml rt (VStr metricName) in
  let html := html ++ "</div>" in
  let html := html ++ ("<div style=" ++ dq ++ "color: #6c757d; font-size: 0.9em; font-family: monospace;" ++ dq ++ ">") in
  let html := html ++ escapeHtml rt (VStr thresholdName) in
  let html := html ++ "</div>" in
  let html := html ++ "</div>" in
  let html := html ++ ("<div class=" ++ dq ++ "check-stats" ++ dq ++ ">") in
  let html :=
    if truthy isPassed then
      let html := html ++ ("<span class=" ++ dq ++ "badge badge-success" ++ dq ++ ">") in
      let html := html ++ ("<i class=" ++ dq ++ "fas fa-check" ++ dq ++ "></i> PASSED") in
      html ++ "</span>"
    else
      let html := html ++ ("<span class=" ++ dq ++ "badge badge-error" ++ dq ++ ">") in
      let html := html ++ ("<i class=" ++ dq ++ "fas fa-times" ++ dq ++ "></i> FAILED") in
      html ++ "</span>" in
  let html := html ++ "</div>" in
  let html := html ++ "</div>" in
  Ok {| ts_html := html; ts_hasThresholds := ts_hasThresholds st;
        ts_passedCount := passedCount; ts_failedCount := failedCount |}.

Definition thresholds_of_metric (data : value) (st : thresholds_state)
  (metricName : string) : result thresholds_state :=
  m <- metric data metricName ;;
  thresholds <- get m "thresholds" ;;
  if truthy thresholds then
    let st := {| ts_html := ts_html st; ts_hasThresholds := true;
                 ts_passedCount := ts_passedCount st;
                 ts_failedCount := ts_failedCount st |} in
    thresholds <- get m "thresholds" ;;
    foldM (threshold_item metricName thresholds) (own_keys thresholds) st
  else Ok st.

Definition generateThresholdsSection (data : value) : result string :=
  let html := ("<div class=" ++ dq ++ "chart-container" ++ dq ++ ">") in
  let html := html ++ ("<h3 class=" ++ dq ++ "chart-title" ++ dq ++ "><i class=" ++ dq ++ "fas fa-gauge-high" ++ dq ++ "></i> Threshold Results</h3>") in
  metrics <- get data "metrics" ;;
  st <- foldM (thresholds_of_metric data) (own_keys metrics)
          {| ts_html := html; ts_hasThresholds := false;
             ts_passedCount := vnum 0; ts_failedCount := vnum 0 |} ;;
  let html := ts_html st in
  let html :=
    if negb (ts_hasThresholds st) then
      html ++ ("<p style=" ++ dq ++ "color: #6c757d; text-align: center; padding: 40px;" ++ dq ++ ">No thresholds configured for this test</p>")
    else
      String.concat ""
        [ thresholds_summary_01; to_string rt (ts_passedCount st);
          thresholds_summary_02; to_string rt (ts_failedCount st);
          thresholds_summary_03 ]
      ++ substring_from html (index_of html "</h3>" + 5) in
  Ok (html ++ "</div>").

(** *** [generateTestInfoSection] *)

Definition info_row (additionalInfo : value) (html key : string) : result string :=
  let html := html ++ "<tr>" in
  let html := html ++ ("<td><i class=" ++ dq ++ "fas fa-caret-right" ++ dq ++ " style=" ++ dq ++ "color: #667eea; margin-right: 8px;" ++ dq ++ "></i>") ++ escapeHtml rt (VStr key) ++ "</td>" in
  v <- get additionalInfo key ;;
  let html := html ++ "<td>" ++ escapeHtml rt (VStr (to_string rt v)) ++ "</td>" in
  Ok (html ++ "</tr>").

Definition generateTestInfoSection (additionalInfo : value) : result string :=
  let html := ("<div class=" ++ dq ++ "chart-container" ++ dq ++ ">") in
  let html := html ++ ("<h3 class=" ++ dq ++ "chart-title" ++ dq ++ "><i class=" ++ dq ++ "fas fa-info-circle" ++ dq ++ "></i> Test Configuration & Additional Information</h3>") in
  let html := html ++ ("<table class=" ++ dq ++ "info-table" ++ dq ++ ">") in
  html <- foldM (info_row additionalInfo) (own_keys additionalInfo) html ;;
  let html := html ++ "</table>" in
  Ok (html ++ "</div>").

(** *** [generateModernHTML] *)

(** Line 60. *)
Definition testStatus (stats : obj) : bool :=
  strict_eq_num (field stats "failedRequests") 0
  && strict_eq_num (field stats "checkFailures") 0
  && strict_eq_num (field stats "thresholdFailures") 0.

(** Line 109: the gradient of the header. *)
Definition status_gradient (status : bool) : string :=
  if status
  then "linear-gradient(135deg, #11998e 0%, #38ef7d 100%)"
  else "linear-gradient(135deg, #eb3349 0%, #f45c43 100%)".

(** Lines 674 and 678: the banner. *)
Definition status_banner (status : bool) : string :=
  if status then "✅ ALL TESTS PASSED" else "❌ TESTS FAILED".

(** Line 670: the badge in front of the subtitle; [httpMethod] is
    interpolated as it is. *)
Definition method_badge (httpMethod : value) : string :=
  if truthy httpMethod
  then ("<span class=" ++ dq ++ "http-method-badge method-") ++ to_string rt httpMethod ++ (dq ++ ">") ++ to_string rt httpMethod ++ "</span>"
  else ("<i class=" ++ dq ++ "fas fa-link" ++ dq ++ "></i>").

(** Lines 668-680. *)
Definition header_status (subtitle httpMethod : value) (status : bool) : string :=
  if truthy subtitle
  then String.concat ""
         [ subtitle_shown_01; method_badge httpMethod;
           subtitle_shown_02; escapeHtml rt subtitle;
           subtitle_shown_03; status_banner status;
           subtitle_shown_04 ]
  else String.concat ""
         [ subtitle_absent_01; status_banner status; subtitle_absent_02 ].

Definition card_class (bad : bool) (yes no : string) : string :=
  if bad then yes else no.

Definition generateModernHTML (data title subtitle httpMethod additionalInfo : value)
  (stats : obj) : result string :=
  let status := testStatus stats in
  totalRequests <- call_toLocaleString rt (field stats "totalRequests") ;;
  successfulRequests <- call_toLocaleString rt (field stats "successfulRequests") ;;
  keys <- object_keys additionalInfo ;;
  let button :=
    if js_gt_num rt (vnum (Z.of_nat (List.length keys))) 0
    then testinfo_button_01 else "" in
  let overview := generateOverviewSection stats in
  metricsTable <- generateMetricsTable data ;;
  checks <- generateChecksSection data ;;
  thresholds <- generateThresholdsSection data ;;
  keys <- object_keys additionalInfo ;;
  panel <- (if js_gt_num rt (vnum (Z.of_nat (List.length keys))) 0
            then info <- generateTestInfoSection additionalInfo ;;
                 Ok (String.concat "" [ testinfo_panel_01; info; testinfo_panel_02 ])
            else Ok "") ;;
  Ok (String.concat ""
        [ page_01; escapeHtml rt title;
          page_02; status_gradient status;
          page_03; escapeHtml rt title;
          page_04; header_status subtitle httpMethod status;
          page_05; date_now_locale rt;
          page_06; card_class (strict_eq_num (field stats "failedRequests") 0) "success" "error";
          page_07; totalRequests;
          page_08; successfulRequests;
          page_09; card_class (js_gt_num rt (field stats "errorRate") 0) "error" "success";
          page_10; to_string rt (field stats "successRate");
          page_11; to_string rt (field stats "failedRequests");
          page_12; card_class (js_gt_num rt (parseFloat rt (field stats "avgResponseTime")) 1000) "warning" "success";
          page_13; to_string rt (field stats "avgResponseTime");
          page_14; to_string rt (field stats "p95ResponseTime");
          page_15; to_string rt (field stats "maxVUs");
          page_16; to_string rt (field stats "avgVUs");
          page_17; card_class (js_gt_num rt (field stats "checkFailures") 0) "error" "success";
          page_18; to_string rt (field stats "totalChecks");
          page_19; to_string rt (field stats "checkPasses");
          page_20; to_string rt (field stats "checkFailures");
          page_21; card_class (js_gt_num rt (field stats "thresholdFailures") 0) "error" "success";
          page_22; to_string rt (field stats "thresholdFailures");
          page_23; to_string rt (field stats "thresholdCount");
          page_24; button;
          page_25; overview;
          page_26; metricsTable;
          page_27; checks;
          page_28; thresholds;
          page_29; panel;
          page_30 ]).

(** *** [htmlReport]

    The two [console.log] calls write to the console and do not take part in
    the returned value; they are left out. *)
Definition default_title : string :=
  replace_first (slice_to (date_now_iso rt) 16) "T" " ".

Definition htmlReport (data options : value) : result string :=
  let options := match options with VUndef => VObj [] | _ => options end in
  title <- get options "title" ;;
  let title := if truthy title then title else VStr default_title in
  subtitle <- get options "subtitle" ;;
  let subtitle := js_or subtitle (VStr "") in
  httpMethod <- get options "httpMethod" ;;
  let httpMethod := js_or httpMethod (VStr "") in
  additionalInfo <- get options "additionalInfo" ;;
  let additionalInfo := js_or additionalInfo (VObj []) in
  debug <- get options "debug" ;;
  let debug := js_or debug (VBool false) in
  stats <- calculateStats rt data ;;
  generateModernHTML data title subtitle httpMethod additionalInfo stats.

End Builders.

(** ** Well-formed summaries (the data model of the specification)

    A Summary has a [metrics] mapping and a [root_group].  A Metric has a
    [values] mapping of numbers and, optionally, a [thresholds] mapping to
    records with a boolean [ok].  A Group has optional [checks] and [groups]
    arrays; a Check has a [name] and non-negative integer [passes] and
    [fails].  What lies below a child group's own [groups] key is left
    unconstrained. *)

Definition opt_field (p : value -> bool) (o : obj) (k : string) : bool :=
  match assoc k o with
  | Some v => p v
  | None => true
  end.

Definition req_field (p : value -> bool) (o : obj) (k : string) : bool :=
  match assoc k o with
  | Some v => p v
  | None => false
  end.

Definition all_fields (p : value -> bool) (o : obj) : bool :=
  forallb (fun kv => p (snd kv)) o.

Fixpoint unique_keys (o : obj) : bool :=
  match o with
  | [] => true
  | (k, _) :: rest => negb (existsb (String.eqb k) (map fst rest)) && unique_keys rest
  end.

Definition is_num (v : value) : bool :=
  match v with VNum _ => true | _ => false end.

Definition is_str (v : value) : bool :=
  match v with VStr _ => true | _ => false end.

Definition is_bool (v : value) : bool :=
  match v with VBool _ => true | _ => false end.

(** [Number.MAX_SAFE_INTEGER]. *)
Definition max_safe_integer : Z := 2 ^ 53 - 1.

(** A count: an integer between 0 and [max_safe_integer]. *)
Definition is_count (v : value) : bool :=
  match v with
  | VNum (Fin q) =>
      Pos.eqb (Qden (Qred q)) 1
      && (0 <=? Qnum (Qred q))%Z && (Qnum (Qred q) <=? max_safe_integer)%Z
  | _ => false
  end.

Definition wf_threshold (t : value) : bool :=
  match t with
  | VObj o => req_field is_bool o "ok"
  | _ => false
  end.

Definition wf_thresholds (v : value) : bool :=
  match v with
  | VObj o => unique_keys o && all_fields wf_threshold o
  | _ => false
  end.

Definition wf_values (v : value) : bool :=
  match v with
  | VObj o => all_fields is_num o
  | _ => false
  end.

Definition wf_metric (m : value) : bool :=
  match m with
  | VObj o => req_field wf_values o "values" && opt_field wf_thresholds o "thresholds"
  | _ => false
  end.

Definition wf_metrics (v : value) : bool :=
  match v with
  | VObj o => unique_keys o && all_fields wf_metric o
  | _ => false
  end.

Definition wf_check (c : value) : bool :=
  match c with
  | VObj o =>
      req_field is_str o "name" && opt_field is_count o "passes"
      && opt_field is_count o "fails"
  | _ => false
  end.

Definition wf_checks (v : value) : bool :=
  match v with
  | VArr items => forallb wf_check items
  | _ => false
  end.

Definition wf_group (g : value) : bool :=
  match g with
  | VObj o => opt_field is_str o "name" && opt_field wf_checks o "checks"
  | _ => false
  end.

Definition wf_groups (v : value) : bool :=
  match v with
  | VArr items => forallb wf_group items
  | _ => false
  end.

Definition wf_root (g : value) : bool :=
  match g with
  | VObj o => opt_field wf_checks o "checks" && opt_field wf_groups o "groups"
  | _ => false
  end.

Definition wf_summary (d : value) : bool :=
  match d with
  | VObj o => req_field wf_metrics o "metrics" && req_field wf_root o "root_group"
  | _ => false
  end.

(** The options argument: anything but [null] (a missing argument is
    [undefined] and defaults to the empty object). *)
Definition wf_options (options : value) : bool :=
  match options with
  | VNull => false
  | _ => true
  end.


(** ** What the specification says, written out *)

(** A value that is the finite number [q]. *)
Definition is_number (v : value) (q : Q) : Prop :=
  match v with
  | VNum (Fin x) => x == q
  | _ => False
  end.

(** The integer a count stands for. *)
Definition count_of (v : value) : Z :=
  match v with
  | VNum (Fin q) => Qnum (Qred q)
  | _ => 0%Z
  end.

Definition checks_of (g : value) : list value :=
  match g with
  | VObj o => match field o "checks" with VArr items => items | _ => [] end
  | _ => []
  end.

Definition groups_of (g : value) : list value :=
  match g with
  | VObj o => match field o "groups" with VArr items => items | _ => [] end
  | _ => []
  end.

Definition check_field (k : string) (c : value) : Z :=
  match c with
  | VObj o => count_of (field o k)
  | _ => 0%Z
  end.

(** The sum of [passes] (or [fails]) over a sequence of checks. *)
Definition sum_checks (k : string) (checks : list value) : Z :=
  fold_right Z.add 0%Z (map (check_field k) checks).

(** The tally of the specification: the root's own checks and those of each
    direct child group. *)
Definition tally (k : string) (root : value) : Z :=
  (sum_checks k (checks_of root)
   + fold_right Z.add 0 (map (fun g => sum_checks k (checks_of g)) (groups_of root)))%Z.

(** What the additions of the code make of a sum of counts whose exact value
    is [exact]: a whole number that is not negative, zero exactly when the
    sum is, and the sum itself as long as that stays within 2^53 - 1. *)
Definition counts_as (exact shown : Z) : Prop :=
  (0 <= shown)%Z
  /\ (shown = 0%Z <-> exact = 0%Z)
  /\ ((exact <= max_safe_integer)%Z -> shown = exact).

(** The two tallies of the statistics stand for the sums [a] and [b]. *)
Definition tallied (st : obj) (a b : Z) : Prop :=
  (exists p, field st "checkPasses" = vnum p /\ counts_as a p)
  /\ (exists f, field st "checkFailures" = vnum f /\ counts_as b f).

Definition thresholds_of (m : value) : option obj :=
  match m with
  | VObj o => match assoc "thresholds" o with
              | Some (VObj ts) => Some ts
              | _ => None
              end
  | _ => None
  end.

(** Metrics that carry a thresholds mapping, empty or not. *)
Definition metrics_with_thresholds (ms : obj) : nat :=
  List.length (filter (fun kv => match thresholds_of (snd kv) with
                                 | Some _ => true
                                 | None => false
                                 end) ms).

(** Metrics that carry a non-empty thresholds mapping. *)
Definition metrics_with_nonempty_thresholds (ms : obj) : nat :=
  List.length (filter (fun kv => match thresholds_of (snd kv) with
                                 | Some (_ :: _) => true
                                 | _ => false
                                 end) ms).

Definition failed_expressions (ts : obj) : nat :=
  List.length (filter (fun kv => match snd kv with
                                 | VObj t => negb (truthy (field t "ok"))
                                 | _ => false
                                 end) ts).

(** Threshold expressions whose [ok] flag is falsy, over all metrics. *)
Definition failed_thresholds (ms : obj) : nat :=
  fold_right Nat.add 0%nat
    (map (fun kv => match thresholds_of (snd kv) with
                    | Some ts => failed_expressions ts
                    | None => 0%nat
                    end) ms).

(** The escaper of the specification: each of the five characters becomes
    its entity, every other character stays. *)
Definition entity (c : ascii) : string :=
  if Ascii.eqb c "&" then "&amp;"
  else if Ascii.eqb c "<" then "&lt;"
  else if Ascii.eqb c ">" then "&gt;"
  else if Ascii.eqb c "034" then "&quot;"
  else if Ascii.eqb c "'" then "&#039;"
  else String c EmptyString.

Definition escape (s : string) : string :=
  String.concat "" (map entity (list_ascii_of_string s)).

(** [needle] occurs in [hay]. *)
Fixpoint occurs (needle hay : string) : bool :=
  String.prefix needle hay
  || match hay with
     | EmptyString => false
     | String _ rest => occurs needle rest
     end.

(** [m.values.stat] for a metric record [m], [undefined] when missing. *)
Definition stat_of (m : value) (stat : string) : value :=
  match m with
  | VObj mo => match field mo "values" with
               | VObj vs => field vs stat
               | _ => VUndef
               end
  | _ => VUndef
  end.

(** The two objects agree on every key outside [ks]. *)
Definition unchanged (ks : list string) (s s' : obj) : Prop :=
  forall k, existsb (String.eqb k) ks = false -> field s' k = field s k.

(** [v.toFixed(d)] on a value that is a number. *)
Definition formatted (rt : Runtime) (d : nat) (v : value) : value :=
  VStr (to_fixed rt d (to_number rt v)).

(** A field that is filled from the metric [m] when the summary has it. *)
Definition from_metric (m present absent : value) : value :=
  if truthy m then present else absent.

(** What [calculateStats] leaves in the statistics object, for a summary
    with metrics [ms] and root group [root]. *)
Definition derived (rt : Runtime) (ms : obj) (root : value) (st : obj) : Prop :=
  let failed := field ms "http_req_failed" in
  let rate := js_or (stat_of failed "rate") (vnum 0) in
  field st "totalRequests"
    = (if truthy (field ms "http_reqs")
       then js_or (stat_of (field ms "http_reqs") "count") (vnum 0)
       else vnum 0)
  /\ (truthy failed = false ->
      field st "failedRequests" = vnum 0 /\ field st "successfulRequests" = vnum 0
      /\ field st "errorRate" = vnum 0 /\ field st "successRate" = vnum 0)
  /\ (truthy failed = true ->
      field st "failedRequests" = js_round rt (js_mul rt rate (field st "totalRequests"))
      /\ field st "successfulRequests"
         = js_sub rt (field st "totalRequests") (field st "failedRequests")
      /\ field st "errorRate"
         = VStr (to_fixed rt 2 (to_number rt (js_mul rt rate (vnum 100))))
      /\ field st "successRate"
         = VStr (to_fixed rt 2 (to_number rt (js_sub rt (vnum 100) (field st "errorRate")))))
  /\ field st "thresholdCount" = vnum (Z.of_nat (metrics_with_thresholds ms))
  /\ field st "thresholdFailures" = vnum (Z.of_nat (failed_thresholds ms))
  /\ (exists p, field st "checkPasses" = vnum p /\ counts_as (tally "passes" root) p)
  /\ (exists f, field st "checkFailures" = vnum f /\ counts_as (tally "fails" root) f)
  /\ (exists t, field st "totalChecks" = vnum t
                /\ counts_as (tally "passes" root + tally "fails" root) t)
  /\ (let m := field ms "http_req_duration" in
      let cell stat := formatted rt 2 (js_or (stat_of m stat) (vnum 0)) in
      field st "avgResponseTime" = from_metric m (cell "avg") (vnum 0)
      /\ field st "p95ResponseTime" = from_metric m (cell "p(95)") (vnum 0)
      /\ field st "maxResponseTime" = from_metric m (cell "max") (vnum 0)
      /\ field st "minResponseTime" = from_metric m (cell "min") (vnum 0))
  /\ (let m := field ms "vus" in
      field st "maxVUs" = from_metric m (js_or (stat_of m "max") (vnum 0)) (vnum 0)
      /\ field st "avgVUs"
         = from_metric m (formatted rt 0 (js_or (stat_of m "avg") (vnum 0))) (vnum 0))
  /\ (let m := field ms "iterations" in
      field st "iterations" = from_metric m (js_or (stat_of m "count") (vnum 0)) (vnum 0))
  /\ (let m := field ms "data_received" in
      field st "dataReceived"
      = from_metric m (formatted rt 2 (js_div_by rt (stat_of m "count") 1000000)) (vnum 0))
  /\ (let m := field ms "data_sent" in
      field st "dataSent"
      = from_metric m (formatted rt 2 (js_div_by rt (stat_of m "count") 1000000)) (vnum 0))
  /\ field st "testDuration" = vnum 0.

(** ** Examples

    A runtime to run examples with: plain digits for locale formatting and a
    fixed clock; the formats left abstract are never reached by them. *)
Definition sample_runtime : Runtime :=
  {| number_to_string_other := fun _ => "";
     string_to_number_other := fun _ => NaN;
     parse_int_other := fun _ => NaN;
     parse_float_other := fun _ => NaN;
     number_to_locale_string :=
       fun n => match n with
                | Fin q => z_to_string (Qfloor q)
                | NaN => "NaN"
                end;
     date_now_iso := "2025-01-02T03:04:05.678Z";
     date_now_locale := "1/2/2025, 3:04:05 AM" |}.

Definition record (fields : list (string * value)) : value := VObj fields.

(** Two metrics with one threshold each, one passing and one failing, over
    200 requests of which an eighth failed. *)
Definition two_thresholds_metrics : obj :=
  [ ("http_reqs", record [("values", record [("count", vnum 200)])]);
    ("http_req_failed",
     record [("values", record [("rate", VNum (Fin (1 # 8)))]);
             ("thresholds", record [("rate==0.00", record [("ok", VBool false)])])]);
    ("http_req_duration",
     record [("values", record [("avg", VNum (Fin (12345 # 100)))]);
             ("thresholds", record [("p(95)<1000", record [("ok", VBool true)])])]) ].

(** The check-group scenario of the specification. *)
Definition check_group_root : value :=
  record
    [ ("checks",
       VArr [record [("name", VStr "A"); ("passes", vnum 3); ("fails", vnum 0)]]);
      ("groups",
       VArr [record [("name", VStr "G1");
                     ("checks",
                      VArr [record [("name", VStr "B"); ("passes", vnum 1);
                                    ("fails", vnum 1)]])]]) ].

Definition sample_summary : value :=
  record [("metrics", VObj two_thresholds_metrics); ("root_group", check_group_root)].

(** A metric whose thresholds mapping is present and empty. *)
Definition empty_thresholds_metrics : obj :=
  [ ("vus", record [("values", record [("max", vnum 5)]); ("thresholds", record [])]) ].

Definition empty_thresholds_summary : value :=
  record [("metrics", VObj empty_thresholds_metrics); ("root_group", record [])].

(** A failure rate without a request counter. *)
Definition rate_only_summary (rate : Q) : value :=
  record
    [ ("metrics",
       record [("http_req_failed", record [("values", record [("rate", VNum (Fin rate))])])]);
      ("root_group", record []) ].

(** Two checks whose passes add up to 2^53 + 1. *)
Definition large_tally_root : value :=
  record
    [ ("checks",
       VArr [record [("name", VStr "a"); ("passes", vnum 9007199254740991);
                     ("fails", vnum 0)];
             record [("name", VStr "b"); ("passes", vnum 2); ("fails", vnum 0)]]) ].

Definition large_tally_summary : value :=
  record [("metrics", record []); ("root_group", large_tally_root)].

(** A failure rate and a request counter. *)
Definition requests_summary (rate : Q) (count : Z) : value :=
  record
    [ ("metrics",
       record [("http_req_failed", record [("values", record [("rate", VNum (Fin rate))])]);
               ("http_reqs", record [("values", record [("count", vnum count)])])]);
      ("root_group", record []) ].

(** A byte counter whose [count] is missing. *)
Definition no_count_summary : value :=
  record
    [ ("metrics", record [("data_received", record [("values", record [])])]);
      ("root_group", record []) ].


(** Options with markup in [httpMethod]. *)
Definition script_method : string := "<script>alert(1)</script>".

Definition script_options : value :=
  record [("title", VStr "run"); ("subtitle", VStr "/login");
          ("httpMethod", VStr script_method)].

(** One statistic of the summary, as [calculateStats] derives it. *)
Definition derived_field (rt : Runtime) (data : value) (k : string) : result value :=
  st <- calculateStats rt data ;;
  Ok (field st k).

(** Whether [needle] occurs in the document [htmlReport] returns. *)
Definition report_contains (rt : Runtime) (data options : value) (needle : string)
  : result bool :=
  doc <- htmlReport rt data options ;;
  Ok (occurs needle doc).

(** [options.k || default], as [htmlReport] reads its options. *)
Definition option_or (options : value) (k : string) (default : value) : value :=
  match get (match options with VUndef => VObj [] | _ => options end) k with
  | Ok v => js_or v default
  | Throw _ => default
  end.

(** What precedes and what follows the banner in the header (lines 668-680);
    neither depends on the verdict. *)
Definition banner_prefix (rt : Runtime) (subtitle httpMethod : value) : string :=
  if truthy subtitle
  then subtitle_shown_01 ++ method_badge rt httpMethod ++ subtitle_shown_02
       ++ escapeHtml rt subtitle ++ subtitle_shown_03
  else subtitle_absent_01.

Definition banner_suffix (subtitle : value) : string :=
  if truthy subtitle then subtitle_shown_04 else subtitle_absent_02.

Definition nullish (v : value) : bool :=
  match v with
  | VUndef | VNull => true
  | _ => false
  end.

(** ** Binary64

    The numbers of the report next to the primitive doubles of the kernel:
    the exact value of a double, [round64] against the primitive product,
    difference and quotient, and the chain [errorRate] text -> number ->
    [100 - ..] -> [toFixed(2)] carried out on the primitive doubles. *)

(** The rational a finite double stands for. *)
Definition float_value (f : PrimFloat.float) : option Q :=
  match FloatOps.Prim2SF f with
  | SpecFloat.S754_zero _ => Some 0
  | SpecFloat.S754_finite s m e =>
      Some (Qred ((if s then Qopp else fun q => q) (inject_Z (Zpos m) * Qpower 2 e)))
  | _ => None
  end.

Definition float_of_Z (z : Z) : PrimFloat.float := PrimFloat.of_uint63 (Uint63.of_Z z).

(** The double nearest to [k / 100]: what [Number] reads from the text of
    [k] hundredths. *)
Definition hundredths (k : Z) : PrimFloat.float :=
  PrimFloat.div (float_of_Z k) (float_of_Z 100).

(** [f.toFixed(2)] on a double, through its exact value. *)
Definition to_fixed_float (f : PrimFloat.float) : string :=
  match float_value f with
  | Some q => to_fixed sample_runtime 2 (Fin q)
  | None => "NaN"
  end.

(** For an [errorRate] of [k] hundredths: the double prints as the text it
    was read from, [100 - errorRate] in binary64 prints as the exact
    difference, and the two doubles add up to what prints as 100.00. *)
Definition binary64_chain (k : Z) : bool :=
  let e := hundredths k in
  let s := PrimFloat.sub (float_of_Z 100) e in
  String.eqb (to_fixed_float e) (fixed_digits 2 k)
  && String.eqb (to_fixed_float s) (fixed_digits 2 (10000 - k))
  && String.eqb (to_fixed_float (PrimFloat.add e (hundredths (10000 - k)))) "100.00".

(** On the doubles [a] and [b], the primitive operation returns the double
    of what [round64] makes of the exact result. *)
Definition agrees (exact : Q -> Q -> Q)
    (prim : PrimFloat.float -> PrimFloat.float -> PrimFloat.float)
    (a b : PrimFloat.float) : bool :=
  match float_value a, float_value b, float_value (prim a b) with
  | Some x, Some y, Some z => Qeq_bool (round64 (exact x y)) z
  | _, _, _ => false
  end.

(** The double nearest to [k / 10000]: a rate given to four decimals. *)
Definition rate_double (k : Z) : PrimFloat.float :=
  PrimFloat.div (float_of_Z k) (float_of_Z 10000).

(** The operations of the report on the rate of [k] ten-thousandths and on
    the text of [k] hundredths: the products with 100 and with a count, the
    difference from 100, the sum with the complement, a quotient by 1000000,
    and the reading of the text. *)
Definition round64_chain (k : Z) : bool :=
  agrees Qmult PrimFloat.mul (rate_double k) (float_of_Z 100)
  && agrees Qmult PrimFloat.mul (rate_double k) (float_of_Z (1237 + k))
  && agrees Qminus PrimFloat.sub (float_of_Z 100) (hundredths k)
  && agrees Qplus PrimFloat.add (hundredths k) (hundredths (10000 - k))
  && agrees Qdiv PrimFloat.div (float_of_Z (k * 98765 + 4321)) (float_of_Z 1000000)
  && match float_value (hundredths k) with
     | Some q => Qeq_bool (round64 (k # 100)) q
     | None => false
     end.

(** [k], [k + 1], ..: [n] numbers. *)
Fixpoint count_from (k : Z) (n : nat) : list Z :=
  match n with
  | O => []
  | S n' => k :: count_from (k + 1) n'
  end.

Definition upto (n : Z) : list Z := count_from 0 (S (Z.to_nat n)).

(** Every fifth number from 0 to 10000. *)
Definition every_fifth : list Z := map (Z.mul 5) (upto 2000).

(** Single operations: 0.35 * 10, 0.00065 * 100, 100 - 10^17,
    2^60 - 345876451382054080, 2^-53 * (2^53 + 2), (2^53 + 2) - 1, 2^53 + 1
    and (2^53 - 1) + 2. *)
Definition round64_cases : bool :=
  agrees Qmult PrimFloat.mul (rate_double 3500) (float_of_Z 10)
  && agrees Qmult PrimFloat.mul (PrimFloat.div (float_of_Z 13) (float_of_Z 20000))
       (float_of_Z 100)
  && agrees Qminus PrimFloat.sub (float_of_Z 100) (float_of_Z (10 ^ 17))
  && agrees Qminus PrimFloat.sub (float_of_Z (2 ^ 60)) (float_of_Z 345876451382054080)
  && agrees Qmult PrimFloat.mul (PrimFloat.div (float_of_Z 1) (float_of_Z (2 ^ 53)))
       (float_of_Z (2 ^ 53 + 2))
  && agrees Qminus PrimFloat.sub (float_of_Z (2 ^ 53 + 2)) (float_of_Z 1)
  && agrees Qplus PrimFloat.add (float_of_Z (2 ^ 53)) (float_of_Z 1)
  && agrees Qplus PrimFloat.add (float_of_Z (2 ^ 53 - 1)) (float_of_Z 2).

(** ** Notions for the properties of the escaper *)

(** No character of [s] opens or closes a tag or an attribute value: [<],
    [>], the double quote and the apostrophe do not occur. *)
Definition markup_free (s : string) : bool :=
  forallb (fun c => negb (Ascii.eqb c "<" || Ascii.eqb c ">"
                          || Ascii.eqb c "034" || Ascii.eqb c "'"))
    (list_ascii_of_string s).

(** None of the five characters the escaper rewrites occurs in [s]. *)
Definition plain_text (s : string) : bool :=
  forallb (fun c => negb (html_special c)) (list_ascii_of_string s).

(** ** Notions for the verdict *)

(** No check of the root group or of one of its direct child groups has a
    failure. *)
Definition all_checks_pass (root : value) : bool :=
  forallb (fun c => Z.eqb (check_field "fails" c) 0)
    (checks_of root ++ flat_map checks_of (groups_of root)).

(** Every threshold expression of every metric has a truthy [ok]. *)
Definition all_thresholds_ok (ms : obj) : bool :=
  forallb (fun kv => match thresholds_of (snd kv) with
                     | Some ts =>
                         forallb (fun t => match snd t with
                                           | VObj t' => truthy (field t' "ok")
                                           | _ => false
                                           end) ts
                     | None => true
                     end) ms.

(** A summary with the two byte counters. *)
Definition transfer_summary : value :=
  record
    [ ("metrics",
       record [ ("data_received", record [("values", record [("count", vnum 1234567)])]);
                ("data_sent", record [("values", record [("count", vnum 4999)])]) ]);
      ("root_group", record []) ].

(** A root group whose [checks] is an object, not an array. *)
Definition checks_object_summary : value :=
  record [("metrics", record []); ("root_group", record [("checks", record [])])].

(** A root group whose [groups] is a number. *)
Definition groups_number_summary : value :=
  record [("metrics", record []); ("root_group", record [("groups", vnum 3)])].

(** ** Notions for the sections of the report *)

(** [generateChecksSection], line 1077: what is shown when nothing else was
    written. *)
Definition no_checks_message : string :=
  ("<div class=" ++ dq ++ "chart-container" ++ dq ++ "><p style=" ++ dq ++ "color: #6c757d;" ++ dq ++ ">No checks configured for this test</p></div>").

(** [generateTestInfoSection], lines 1176-1179: what precedes the rows. *)
Definition info_heading : string :=
  ("<div class=" ++ dq ++ "chart-container" ++ dq ++ ">")
  ++ ("<h3 class=" ++ dq ++ "chart-title" ++ dq ++ "><i class=" ++ dq ++ "fas fa-info-circle" ++ dq ++ "></i> Test Configuration & Additional Information</h3>")
  ++ ("<table class=" ++ dq ++ "info-table" ++ dq ++ ">").

(** Lines 1183-1186: the row of one key and its value. *)
Definition info_row_text (rt : Runtime) (key : string) (v : value) : string :=
  "<tr>"
  ++ ("<td><i class=" ++ dq ++ "fas fa-caret-right" ++ dq ++ " style=" ++ dq ++ "color: #667eea; margin-right: 8px;" ++ dq ++ "></i>")
  ++ escapeHtml rt (VStr key) ++ "</td>"
  ++ "<td>" ++ escapeHtml rt (VStr (to_string rt v)) ++ "</td>"
  ++ "</tr>".

(** Additional information with markup in a value. *)
Definition sample_info : obj :=
  [ ("environment", VStr "<staging>"); ("virtual users", vnum 50) ].

(** A summary with nothing but a metrics mapping. *)
Definition metrics_only_summary : value := record [("metrics", record [])].

(** A root group with one check and no child group. *)
Definition one_check_summary : value :=
  record
    [ ("metrics", record []);
      ("root_group",
       record [("checks",
                VArr [record [("name", VStr "status is 200"); ("passes", vnum 3);
                              ("fails", vnum 0)]])]) ].

(** [generateThresholdsSection], lines 1091-1092: the heading the loop
    starts from. *)
Definition thresholds_heading : string :=
  ("<div class=" ++ dq ++ "chart-container" ++ dq ++ ">")
  ++ ("<h3 class=" ++ dq ++ "chart-title" ++ dq ++ "><i class=" ++ dq ++ "fas fa-gauge-high" ++ dq ++ "></i> Threshold Results</h3>").

(** Line 1147. *)
Definition no_thresholds_message : string :=
  ("<p style=" ++ dq ++ "color: #6c757d; text-align: center; padding: 40px;" ++ dq ++ ">No thresholds configured for this test</p>").

(** Lines 1094-1143: the loop over the metrics, from its initial state. *)
Definition thresholds_loop (rt : Runtime) (data : value) : result thresholds_state :=
  metrics <- get data "metrics" ;;
  foldM (thresholds_of_metric rt data) (own_keys metrics)
    {| ts_html := thresholds_heading; ts_hasThresholds := false;
       ts_passedCount := vnum 0; ts_failedCount := vnum 0 |}.

Definition passed_expressions (ts : obj) : nat :=
  List.length (filter (fun kv => match snd kv with
                                 | VObj t => truthy (field t "ok")
                                 | _ => false
                                 end) ts).

(** Threshold expressions whose [ok] flag is truthy, over all metrics. *)
Definition passed_thresholds (ms : obj) : nat :=
  fold_right Nat.add 0%nat
    (map (fun kv => match thresholds_of (snd kv) with
                    | Some ts => passed_expressions ts
                    | None => 0%nat
                    end) ms).

(** A check whose counts are decimal digit strings. *)
Definition text_check (counts : N * N) : value :=
  VObj [ ("name", VStr "check");
         ("passes", VStr (n_to_string (fst counts)));
         ("fails", VStr (n_to_string (snd counts))) ].

(** ** [test-reporter.ts]: naming the report file *)

(** [s.split(sep)] for a one-character separator. *)
Fixpoint split_char (sep : ascii) (s : string) : list string :=
  match s with
  | EmptyString => [EmptyString]
  | String c rest =>
      if Ascii.eqb c sep then EmptyString :: split_char sep rest
      else match split_char sep rest with
           | piece :: pieces => String c piece :: pieces
           | [] => [String c EmptyString]
           end
  end.

(** Line 55.  [script_name] is [__ENV.K6_SCRIPT_NAME] and [now] is what
    [new Date().toJSON()] returns when the line runs; [parts.join('-')] is
    [String.concat]. *)
Definition reportFileName (rt : Runtime) (script_name : value) (now : string) : string :=
  let currentFileName := js_or script_name (VStr "test-reporter") in
  "./reports/" ++ to_string rt currentFileName ++ "-"
  ++ String.concat "-" (split_char ":" now) ++ ".html".

(** Lines 53-59: an object with one computed key, the report under its file
    name. *)
Definition handleSummary (rt : Runtime) (script_name : value) (now : string)
  (data : value) : result value :=
  let name := reportFileName rt script_name now in
  report <- htmlReport rt data VUndef ;;
  Ok (VObj [(name, VStr report)]).

(** Every colon of [s] turned into a hyphen. *)
Definition hyphenated (s : string) : string :=
  string_of_list_ascii
    (map (fun c => if Ascii.eqb c ":" then "-"%char else c) (list_ascii_of_string s)).

(** A standard timing metric without [values]. *)
Definition waiting_without_values : obj :=
  [ ("http_req_duration", record [("values", record [("avg", vnum 12)])]);
    ("http_req_waiting", record []) ].

(** A summary with nothing in it. *)
Definition empty_summary : value :=
  record [("metrics", record []); ("root_group", record [])].

(** A child group with a nested group of its own. *)
Definition nested_summary : value :=
  record
    [ ("metrics", record []);
      ("root_group",
       record
         [ ("groups",
            VArr [record
                    [ ("name", VStr "outer");
                      ("checks",
                       VArr [record [("name", VStr "a"); ("passes", vnum 1);
                                     ("fails", vnum 0)]]);
                      ("groups",
                       VArr [record
                               [ ("name", VStr "inner");
                                 ("checks",
                                  VArr [record [("name", VStr "b"); ("passes", vnum 7);
                                                ("fails", vnum 2)]]) ]]) ]]) ]) ].

(** ** Auxiliary notions of the proofs *)

(** Every entry of [l] is what a lookup of its key in [o] returns. *)
Definition resolves (o l : obj) : Prop :=
  forall k v, In (k, v) l -> field o k = v.

(** Two digits after the point. *)
Definition two_digits (f : N) : string := pad_zeros 2 (n_to_string f).

Definition two_digits_ok (f : N) : bool :=
  Nat.eqb (String.length (two_digits f)) 2
  && String.eqb (fst (span_digits (two_digits f))) (two_digits f)
  && String.eqb (snd (span_digits (two_digits f))) ""
  && match parse_nat (two_digits f) with
     | Some g => N.eqb g f
     | None => false
     end.

(** * Properties

    ** Objects and digits *)

(** ** Objects *)

Lemma field_set_same (o : obj) (k : string) (v : value) :
  field (obj_set o k v) k = v.
Proof.
  unfold field. induction o as [|[k' v'] o IH]; simpl.
  - now rewrite String.eqb_refl.
  - destruct (String.eqb k k') eqn:E; simpl; rewrite E; auto.
Qed.

Lemma field_set_other (o : obj) (k k' : string) (v : value) :
  String.eqb k' k = false -> field (obj_set o k v) k' = field o k'.
Proof.
  intros Hne. unfold field. induction o as [|[k0 v0] o IH]; simpl.
  - now rewrite Hne.
  - destruct (String.eqb k k0) eqn:E; simpl.
    + apply String.eqb_eq in E. subst k0. now rewrite Hne.
    + destruct (String.eqb k' k0); auto.
Qed.

Lemma all_fields_assoc (p : value -> bool) (o : obj) (k : string) (v : value) :
  all_fields p o = true -> assoc k o = Some v -> p v = true.
Proof.
  unfold all_fields. induction o as [|[k' v'] o IH]; simpl; [discriminate|].
  intros H. apply andb_prop in H. destruct H as [Hv Ho].
  destruct (String.eqb k k'); [intros [= <-]; exact Hv | auto].
Qed.

Lemma field_cases (p : value -> bool) (o : obj) (k : string) :
  all_fields p o = true -> field o k = VUndef \/ p (field o k) = true.
Proof.
  intros H. unfold field. destruct (assoc k o) eqn:E; [right|now left].
  eapply all_fields_assoc; eauto.
Qed.

Lemma opt_field_cases (p : value -> bool) (o : obj) (k : string) :
  opt_field p o k = true -> field o k = VUndef \/ p (field o k) = true.
Proof.
  unfold opt_field, field. destruct (assoc k o); auto.
Qed.

Lemma req_field_holds (p : value -> bool) (o : obj) (k : string) :
  req_field p o k = true -> p (field o k) = true.
Proof.
  unfold req_field, field. destruct (assoc k o); auto. discriminate.
Qed.

(** ** Digits *)

Lemma string_of_uint_digits (d : uint) (rest : string) :
  starts_with_digit rest = false ->
  span_digits (NilEmpty.string_of_uint d ++ rest) = (NilEmpty.string_of_uint d, rest).
Proof.
  intros Hr. induction d; simpl; try (rewrite IHd; reflexivity).
  destruct rest as [|c rest]; simpl; auto.
  simpl in Hr. unfold starts_with_digit in Hr. now rewrite Hr.
Qed.

Lemma to_uint_nonnil (n : N) : N.to_uint n <> Nil.
Proof.
  destruct n; simpl; [discriminate|].
  apply DecimalPos.Unsigned.to_uint_nonnil.
Qed.

Lemma n_to_string_eq (n : N) : n_to_string n = NilEmpty.string_of_uint (N.to_uint n).
Proof.
  unfold n_to_string, NilZero.string_of_uint.
  pose proof (to_uint_nonnil n). destruct (N.to_uint n); congruence.
Qed.

Lemma parse_nat_string_of_uint (d : uint) :
  d <> Nil -> parse_nat (NilEmpty.string_of_uint d) = Some (N.of_uint d).
Proof.
  intros Hd. unfold parse_nat.
  rewrite NilEmpty.usu.
  destruct d; simpl; congruence.
Qed.

Lemma parse_nat_n_to_string (n : N) : parse_nat (n_to_string n) = Some n.
Proof.
  rewrite n_to_string_eq, parse_nat_string_of_uint by apply to_uint_nonnil.
  now rewrite DecimalN.Unsigned.of_to.
Qed.

Lemma span_digits_n_to_string (n : N) (rest : string) :
  starts_with_digit rest = false ->
  span_digits (n_to_string n ++ rest) = (n_to_string n, rest).
Proof.
  intros. rewrite n_to_string_eq. now apply string_of_uint_digits.
Qed.

Lemma n_to_string_head (n : N) :
  exists c s, n_to_string n = String c s /\ is_digit c = true
              /\ (c = "0"%char -> starts_with_digit s = true \/ s = "").
Proof.
  rewrite n_to_string_eq. pose proof (to_uint_nonnil n) as H.
  destruct (N.to_uint n) as [|d|d|d|d|d|d|d|d|d|d]; [congruence| | | | | | | | | |];
    simpl; eexists; eexists; (split; [reflexivity|split; [reflexivity|]]);
    try discriminate.
  intros _. destruct d; simpl; auto.
Qed.

(** ** Rounding to binary64 *)

Lemma Qred_inject_Z (z : Z) : Qred (inject_Z z) = inject_Z z.
Proof.
  apply Qcanon.Qred_identity. simpl. apply Z.gcd_1_r.
Qed.

Lemma round_half_even_nonneg (q : Q) : 0 <= q -> (0 <= round_half_even q)%Z.
Proof.
  intros H. unfold round_half_even.
  assert (F : (0 <= Qfloor q)%Z).
  { change 0%Z with (Qfloor 0). now apply Qfloor_resp_le. }
  destruct (Qcompare _ _); [destruct (Z.even _)| |]; lia.
Qed.

Lemma round_half_even_le (q : Q) (N : Z) : q <= inject_Z N -> (round_half_even q <= N)%Z.
Proof.
  intros H. unfold round_half_even.
  pose proof (Qfloor_le q) as Hf.
  assert (F : (Qfloor q <= N)%Z) by (rewrite Zle_Qle; lra).
  assert (G : inject_Z (Qfloor q) < q -> (Qfloor q + 1 <= N)%Z).
  { intros L. assert (L' : (Qfloor q < N)%Z) by (rewrite Zlt_Qlt; lra). lia. }
  destruct (Qcompare (q - inject_Z (Qfloor q)) (1 # 2)) eqn:C.
  - apply Qeq_alt in C. destruct (Z.even _); [exact F|]. apply G. lra.
  - exact F.
  - apply Qgt_alt in C. apply G. lra.
Qed.

(** An integer rounds to itself. *)
Lemma round_half_even_integer (z : Z) : round_half_even (inject_Z z) = z.
Proof.
  unfold round_half_even. rewrite Qfloor_Z.
  assert (E : inject_Z z - inject_Z z == 0) by ring.
  destruct (Qcompare (inject_Z z - inject_Z z) (1 # 2)) eqn:C; [|reflexivity|].
  - apply Qeq_alt in C. rewrite E in C. discriminate C.
  - apply Qgt_alt in C. rewrite E in C. discriminate C.
Qed.

Lemma floor_log2_lower (n : Z) (d : positive) :
  (0 < n)%Z -> (0 <= floor_log2 n d)%Z -> (Zpos d * 2 ^ floor_log2 n d <= n)%Z.
Proof.
  intros Hn. unfold floor_log2.
  set (p := (Z.log2 n - Z.log2 (Zpos d))%Z).
  destruct (Z.leb_spec 0 p) as [Hp|Hp].
  - destruct (Z.leb_spec (Zpos d * 2 ^ p) n) as [L|L]; intros H; [exact L|].
    destruct (Z.log2_spec n Hn) as [Ln _].
    destruct (Z.log2_spec (Zpos d) eq_refl) as [_ Ld].
    pose proof (Z.log2_nonneg (Zpos d)) as Nd.
    assert (E : (2 ^ Z.log2 n = 2 ^ (p - 1) * 2 ^ Z.succ (Z.log2 (Zpos d)))%Z).
    { rewrite <- Z.pow_add_r by lia. f_equal. unfold p. lia. }
    assert (P : (0 < 2 ^ (p - 1))%Z) by (apply Z.pow_pos_nonneg; lia).
    nia.
  - destruct (Z.leb (Zpos d) (n * 2 ^ (- p))); intros H; lia.
Qed.

(** Below 2^53 the spacing of the doubles is at most one, so a product that
    lies between zero and an integer there rounds to a double between the
    same two. *)
Lemma round64_pos_bounds (n : Z) (d : positive) (b : Z) :
  (0 < n)%Z -> (n <= b * Zpos d)%Z -> (b <= max_safe_integer)%Z ->
  0 <= round64_pos n d /\ round64_pos n d <= inject_Z b.
Proof.
  intros Hn Hb Hm. unfold round64_pos.
  set (p := floor_log2 n d).
  assert (Hp : (p <= 52)%Z).
  { destruct (Z.le_gt_cases p 52) as [L|L]; [exact L|exfalso].
    pose proof (floor_log2_lower n d Hn ltac:(fold p; lia)) as F. fold p in F.
    assert (P : (2 ^ 53 <= 2 ^ p)%Z) by (apply Z.pow_le_mono_r; lia).
    unfold max_safe_integer in Hm. nia. }
  set (e := Z.max (p - 52) (-1074)).
  assert (He : (e <= 0)%Z) by (unfold e; lia).
  destruct (Z.leb_spec e 0) as [_|C]; [|lia].
  set (s := (2 ^ (- e))%Z).
  assert (Hs : (0 < s)%Z) by (apply Z.pow_pos_nonneg; lia).
  set (m := round_half_even (n * s # d)).
  assert (M0 : (0 <= m)%Z).
  { apply round_half_even_nonneg. unfold Qle. simpl. nia. }
  assert (M1 : (m <= b * s)%Z).
  { apply round_half_even_le. unfold Qle. simpl. nia. }
  rewrite Qred_correct. unfold Qle. simpl. rewrite Z2Pos.id by exact Hs. nia.
Qed.

Lemma round64_comp (x y : Q) : x == y -> round64 x = round64 y.
Proof. intros H. unfold round64. now rewrite (Qred_complete x y H). Qed.


Lemma round64_bounds (x : Q) (b : Z) :
  0 <= x -> x <= inject_Z b -> (b <= max_safe_integer)%Z ->
  0 <= round64 x /\ round64 x <= inject_Z b.
Proof.
  intros H0 Hb Hm. unfold round64.
  rewrite <- (Qred_correct x) in H0, Hb.
  destruct (Qred x) as [n d]. simpl.
  unfold Qle in H0, Hb. simpl in H0, Hb.
  destruct n as [|n|n].
  - split; [apply Qle_refl|]. unfold Qle. simpl. lia.
  - apply round64_pos_bounds; lia.
  - lia.
Qed.

Lemma round_half_even_ge (q : Q) (N : Z) : inject_Z N <= q -> (N <= round_half_even q)%Z.
Proof.
  intros H. unfold round_half_even.
  assert (F : (N <= Qfloor q)%Z).
  { rewrite <- (Qfloor_Z N). now apply Qfloor_resp_le. }
  destruct (Qcompare _ _); [destruct (Z.even _)| |]; lia.
Qed.

(** A positive whole number rounds to a positive whole number, and to itself
    up to 2^53 - 1. *)
Lemma round64_pos_natural (n : positive) :
  exists m, round64_pos (Zpos n) 1 = inject_Z m
    /\ (1 <= m)%Z /\ ((Zpos n <= max_safe_integer)%Z -> m = Zpos n).
Proof.
  unfold round64_pos.
  set (p := floor_log2 (Zpos n) 1).
  set (e := Z.max (p - 52) (-1074)).
  destruct (Z.leb_spec e 0) as [He|He].
  - exists (Zpos n). split; [|split; [lia|reflexivity]].
    set (s := (2 ^ (- e))%Z).
    assert (Hs : (0 < s)%Z) by (apply Z.pow_pos_nonneg; lia).
    assert (R : round_half_even (Zpos n * s # 1) = (Zpos n * s)%Z)
      by apply round_half_even_integer.
    rewrite R.
    assert (Q : (Zpos n * s # Z.to_pos s) == inject_Z (Zpos n)).
    { unfold Qeq. cbn [Qnum Qden inject_Z]. rewrite Z2Pos.id by exact Hs. lia. }
    rewrite (Qred_complete _ _ Q). apply Qred_inject_Z.
  - assert (Hp : (53 <= p)%Z) by (unfold e in He; lia).
    pose proof (floor_log2_lower (Zpos n) 1 eq_refl ltac:(fold p; lia)) as F. fold p in F.
    set (s := (2 ^ e)%Z).
    assert (Hs : (0 < s)%Z) by (apply Z.pow_pos_nonneg; lia).
    assert (Es : (2 ^ p = 2 ^ 52 * s)%Z).
    { unfold s. rewrite <- Z.pow_add_r by lia. f_equal. unfold e. lia. }
    set (M := round_half_even (Zpos n # 1 * Z.to_pos s)).
    assert (HM : (2 ^ 52 <= M)%Z).
    { apply round_half_even_ge. unfold Qle. cbn [Qnum Qden inject_Z].
      rewrite Pos2Z.inj_mul, Z2Pos.id by exact Hs. nia. }
    exists (M * s)%Z. split; [apply Qred_inject_Z|]. split; [nia|].
    intros Hmax. exfalso.
    assert (P : (2 ^ 53 <= 2 ^ p)%Z) by (apply Z.pow_le_mono_r; lia).
    unfold max_safe_integer in Hmax. nia.
Qed.

Lemma round64_natural (z : Z) :
  (0 <= z)%Z ->
  exists m, round64 (inject_Z z) = inject_Z m
    /\ (0 <= m)%Z /\ (m = 0%Z <-> z = 0%Z) /\ ((z <= max_safe_integer)%Z -> m = z).
Proof.
  intros Hz. unfold round64. rewrite Qred_inject_Z. cbn [Qnum Qden inject_Z].
  destruct z as [|n|n]; [|destruct (round64_pos_natural n) as (m & E & H1 & H2)|lia].
  - exists 0%Z. repeat split; auto; lia.
  - exists m. split; [exact E|]. split; [lia|]. split; [|exact H2]. split; lia.
Qed.

(** An integer between 0 and 2^53 - 1 is a double. *)
Lemma round64_integer (z : Z) (x : Q) :
  (0 <= z <= max_safe_integer)%Z -> x == inject_Z z -> round64 x = inject_Z z.
Proof.
  intros Hz E. rewrite (round64_comp _ _ E).
  destruct (round64_natural z ltac:(lia)) as (m & Em & _ & _ & H). rewrite Em.
  now rewrite H by lia.
Qed.

(** *** Sums of counts *)

Lemma counts_as_refl (a : Z) : (0 <= a)%Z -> counts_as a a.
Proof. intros H. unfold counts_as. tauto. Qed.

Lemma counts_as_exact (a s : Z) :
  counts_as a s -> (a <= max_safe_integer)%Z -> s = a.
Proof. intros (_ & _ & H). exact H. Qed.

(** The sum of what stands for two sums of counts stands for their sum. *)
Lemma num_add_counts (a b a' b' : Z) :
  (0 <= a)%Z -> (0 <= b)%Z -> counts_as a a' -> counts_as b b' ->
  exists c', num_add (Fin (inject_Z a')) (Fin (inject_Z b')) = Fin (inject_Z c')
             /\ counts_as (a + b) c'.
Proof.
  intros Ha Hb (A0 & Az & Ae) (B0 & Bz & Be). unfold num_add.
  assert (E : inject_Z a' + inject_Z b' == inject_Z (a' + b')) by now rewrite inject_Z_plus.
  rewrite (round64_comp _ _ E).
  destruct (round64_natural (a' + b') ltac:(lia)) as (m & Em & M0 & Mz & Me).
  exists m. split; [now rewrite Em|].
  unfold counts_as. split; [exact M0|]. split.
  - rewrite Mz. split; intros H.
    + assert (a' = 0%Z) by lia. assert (b' = 0%Z) by lia.
      assert (a = 0%Z) by tauto. assert (b = 0%Z) by tauto. lia.
    + assert (a = 0%Z) by lia. assert (b = 0%Z) by lia.
      assert (a' = 0%Z) by tauto. assert (b' = 0%Z) by tauto. lia.
  - intros Hmax. assert (Ea : a' = a) by (apply Ae; lia).
    assert (Eb : b' = b) by (apply Be; lia). rewrite Me by lia. lia.
Qed.

(** Rounding moves a number by at most half a unit. *)
Lemma round_half_even_close (q : Q) :
  q - (1 # 2) <= inject_Z (round_half_even q) /\ inject_Z (round_half_even q) <= q + (1 # 2).
Proof.
  unfold round_half_even.
  pose proof (Qfloor_le q) as Hf. pose proof (Qlt_floor q) as Hc.
  rewrite inject_Z_plus in Hc. change (inject_Z 1) with 1 in Hc.
  destruct (Qcompare (q - inject_Z (Qfloor q)) (1 # 2)) eqn:C.
  - apply Qeq_alt in C. destruct (Z.even _).
    + lra.
    + rewrite inject_Z_plus. change (inject_Z 1) with 1. lra.
  - apply Qlt_alt in C. lra.
  - apply Qgt_alt in C. rewrite inject_Z_plus. change (inject_Z 1) with 1. lra.
Qed.

Lemma floor_log2_below (n : Z) (d : positive) (P : Z) :
  (0 < n)%Z -> (0 <= P)%Z -> (n < 2 ^ P * Zpos d)%Z -> (floor_log2 n d < P)%Z.
Proof.
  intros Hn HP Hlt.
  destruct (Z.lt_ge_cases (floor_log2 n d) P) as [L|L]; [exact L|exfalso].
  pose proof (floor_log2_lower n d Hn ltac:(lia)) as F.
  assert (M : (2 ^ P <= 2 ^ floor_log2 n d)%Z) by (apply Z.pow_le_mono_r; lia).
  nia.
Qed.

(** A number below [2^(P+1)] is rounded to a multiple of [2^(P-52)] or of a
    smaller power of two, so it moves by at most [2^(P-53)]. *)
Lemma round64_pos_close (n : Z) (d : positive) (P : Z) :
  (0 < n)%Z -> (-1 <= P <= 52)%Z -> (n < 2 ^ (P + 1) * Zpos d)%Z ->
  (n # d) - (1 # Z.to_pos (2 ^ (53 - P))) <= round64_pos n d
  /\ round64_pos n d <= (n # d) + (1 # Z.to_pos (2 ^ (53 - P))).
Proof.
  intros Hn HP Hlt. unfold round64_pos.
  pose proof (floor_log2_below n d (P + 1) Hn ltac:(lia) Hlt) as Hp.
  set (p := floor_log2 n d) in *.
  set (e := Z.max (p - 52) (-1074)).
  assert (He : (e <= P - 52)%Z) by (unfold e; lia).
  destruct (Z.leb_spec e 0) as [_|C]; [|lia].
  set (s := (2 ^ (- e))%Z).
  assert (Hs : (0 < s)%Z) by (apply Z.pow_pos_nonneg; lia).
  set (t := (2 ^ (53 - P))%Z).
  assert (Ht : (0 < t)%Z) by (apply Z.pow_pos_nonneg; lia).
  assert (Hts : (t <= 2 * s)%Z).
  { unfold t, s. change 2%Z with (2 ^ 1)%Z at 2. rewrite <- Z.pow_add_r by lia.
    apply Z.pow_le_mono_r; lia. }
  destruct (round_half_even_close (n * s # d)) as [Lo Hi].
  set (m := round_half_even (n * s # d)) in *.
  rewrite Qred_correct.
  unfold Qle, Qminus, Qplus, Qopp in *. cbn [Qnum Qden inject_Z] in *.
  rewrite ?Pos2Z.inj_mul, ?Z2Pos.id by assumption.
  rewrite ?Pos2Z.inj_mul in Lo, Hi.
  set (D := Zpos d) in *. assert (HD : (0 < D)%Z) by (unfold D; lia).
  split; nia.
Qed.

Lemma round64_close (x : Q) (P : Z) :
  0 <= x -> (-1 <= P <= 52)%Z -> x < inject_Z (2 ^ (P + 1)) ->
  x - (1 # Z.to_pos (2 ^ (53 - P))) <= round64 x
  /\ round64 x <= x + (1 # Z.to_pos (2 ^ (53 - P))).
Proof.
  intros H0 HP Hlt. unfold round64.
  assert (Ex : x == Qred x) by (now rewrite Qred_correct).
  rewrite Ex in H0, Hlt. rewrite Ex at 1 4. clear Ex.
  destruct (Qred x) as [n d]. cbn [Qnum Qden].
  assert (Ht : 0 < 1 # Z.to_pos (2 ^ (53 - P))) by reflexivity.
  destruct n as [|n|n].
  - assert (E : 0 # d == 0) by reflexivity. rewrite E. lra.
  - apply round64_pos_close; [lia|exact HP|].
    unfold Qlt in Hlt. cbn [Qnum Qden inject_Z] in Hlt. lia.
  - unfold Qle in H0. cbn [Qnum Qden] in H0. lia.
Qed.

(** A number within a quarter of an integer rounds to it. *)
Lemma round_half_up_near (y : Q) (m : Z) :
  inject_Z m - (1 # 4) <= y -> y <= inject_Z m + (1 # 4) -> round_half_up y = m.
Proof.
  intros Lo Hi. unfold round_half_up.
  pose proof (Qfloor_le (y + (1 # 2))) as Hf. pose proof (Qlt_floor (y + (1 # 2))) as Hc.
  set (f := Qfloor (y + (1 # 2))) in *.
  assert (A : (f < m + 1)%Z).
  { rewrite Zlt_Qlt, inject_Z_plus. change (inject_Z 1) with 1. lra. }
  assert (B : (m < f + 1)%Z) by (rewrite Zlt_Qlt; lra).
  lia.
Qed.

(** ** Integers through [parseInt] *)

Section NumberFacts.
Context (rt : Runtime).

Lemma js_add_counts (a b a' b' : Z) :
  (0 <= a)%Z -> (0 <= b)%Z -> counts_as a a' -> counts_as b b' ->
  exists c', js_add rt (vnum a') (vnum b') = vnum c' /\ counts_as (a + b) c'.
Proof.
  intros Ha Hb Ca Cb.
  destruct (num_add_counts a b a' b' Ha Hb Ca Cb) as (c' & E & Cc).
  exists c'. split; [|exact Cc].
  unfold js_add, vnum. simpl concatenates. simpl orb. cbv iota.
  unfold to_number. now rewrite E.
Qed.

Lemma incr_integer (a : Z) : incr rt (vnum a) = vnum (a + 1).
Proof.
  unfold incr, vnum, to_number, num_succ. do 2 f_equal.
  rewrite <- (Qred_inject_Z (a + 1)). apply Qred_complete.
  rewrite inject_Z_plus. reflexivity.
Qed.

Lemma z_to_string_nonneg (z : Z) : (0 <= z)%Z -> z_to_string z = n_to_string (Z.to_N z).
Proof.
  intros Hz. unfold z_to_string.
  destruct (Z.ltb_spec z 0); [lia|].
  f_equal. destruct z; simpl; auto. lia.
Qed.

Lemma digit_not_x (c : ascii) :
  is_digit c = true -> (Ascii.eqb c "x" || Ascii.eqb c "X") = false.
Proof.
  intros H. destruct (Ascii.eqb_spec c "x") as [->|]; [discriminate|].
  destruct (Ascii.eqb_spec c "X") as [->|]; [discriminate|]. reflexivity.
Qed.

Lemma strip_minus_digit (c : ascii) (s : string) :
  is_digit c = true -> strip_minus (String c s) = (false, String c s).
Proof.
  intros H. unfold strip_minus.
  destruct c as [[|] [|] [|] [|] [|] [|] [|] [|]]; try reflexivity; discriminate.
Qed.

Lemma parse_int_string_digits (n : N) :
  parse_int_string rt (n_to_string n) = Fin (round64 (inject_Z (Z.of_N n))).
Proof.
  unfold parse_int_string.
  destruct (n_to_string_head n) as (c & s & E & Hc & H0).
  pose proof (span_digits_n_to_string n "" eq_refl) as Hs.
  pose proof (parse_nat_n_to_string n) as Hp.
  assert (Happ : n_to_string n ++ "" = n_to_string n).
  { generalize (n_to_string n). induction s0; simpl; congruence. }
  rewrite Happ in Hs. rewrite E in *.
  rewrite strip_minus_digit by assumption.
  assert (Hh : hex_prefixed (String c s) = false).
  { unfold hex_prefixed.
    destruct (Ascii.eqb_spec c "0") as [->|Hne].
    - destruct (H0 eq_refl) as [Hd| ->]; [|reflexivity].
      destruct s as [|c2 s2]; [reflexivity|]. simpl in Hd. now apply digit_not_x.
    - destruct c as [[|] [|] [|] [|] [|] [|] [|] [|]]; try reflexivity.
      now elim Hne. }
  rewrite Hh. simpl starts_with_digit. rewrite Hc. simpl andb. cbv iota.
  rewrite Hs. simpl fst. now rewrite Hp.
Qed.

(** The digits of an integer up to 2^53 - 1 are read back as that integer. *)
Lemma parse_int_string_nat (n : N) :
  (Z.of_N n <= max_safe_integer)%Z ->
  parse_int_string rt (n_to_string n) = Fin (inject_Z (Z.of_N n)).
Proof.
  intros H. rewrite parse_int_string_digits. f_equal.
  apply round64_integer; [lia|reflexivity].
Qed.

Lemma ten_pow_21_gt_safe : (max_safe_integer < ten_pow 21)%Z.
Proof. reflexivity. Qed.

Lemma number_to_string_count (q : Q) :
  is_count (VNum (Fin q)) = true ->
  number_to_string rt (Fin q) = n_to_string (Z.to_N (Qnum (Qred q))).
Proof.
  unfold is_count, number_to_string. intros H.
  apply andb_prop in H. destruct H as [H Hmax].
  apply andb_prop in H. destruct H as [Hden Hmin].
  rewrite Hden. apply Z.leb_le in Hmin, Hmax.
  pose proof ten_pow_21_gt_safe.
  destruct (Z.ltb_spec (Z.abs (Qnum (Qred q))) (ten_pow 21)); [|lia].
  simpl. now apply z_to_string_nonneg.
Qed.

Lemma parseInt_count (q : Q) :
  is_count (VNum (Fin q)) = true ->
  parseInt rt (VNum (Fin q)) = vnum (count_of (VNum (Fin q))).
Proof.
  intros H. unfold parseInt, to_string. rewrite number_to_string_count by assumption.
  unfold is_count in H.
  apply andb_prop in H. destruct H as [H Hmax].
  apply andb_prop in H. destruct H as [_ Hmin]. apply Z.leb_le in Hmin, Hmax.
  rewrite parse_int_string_nat by (rewrite Z2N.id; assumption).
  unfold vnum, count_of. now rewrite Z2N.id.
Qed.

Lemma parseInt_zero : parseInt rt (vnum 0) = vnum 0.
Proof. reflexivity. Qed.

(** [parseInt(x || 0)] on a count or on a missing field. *)
Lemma parseInt_or_count (v : value) :
  v = VUndef \/ is_count v = true ->
  parseInt rt (js_or v (vnum 0)) = vnum (count_of v).
Proof.
  intros [->|H]; [reflexivity|].
  destruct v as [| | |[q|]| | |]; try discriminate.
  unfold js_or, truthy.
  destruct (Qeq_bool q 0) eqn:E; simpl negb; cbv iota.
  - rewrite parseInt_zero. unfold count_of, vnum. do 3 f_equal.
    apply Qeq_bool_eq in E. apply Qred_complete in E. now rewrite E.
  - now apply parseInt_count.
Qed.

End NumberFacts.

(** ** The blocks of [calculateStats] on a well-formed summary *)

Lemma unchanged_refl (ks : list string) (s : obj) : unchanged ks s s.
Proof. intros k _. reflexivity. Qed.

Lemma unchanged_set (ks : list string) (s s' : obj) (k : string) (v : value) :
  unchanged ks s s' -> existsb (String.eqb k) ks = true ->
  unchanged ks s (obj_set s' k v).
Proof.
  intros H Hk k' Hk'. rewrite field_set_other; [now apply H|].
  destruct (String.eqb_spec k' k) as [->|]; [congruence|reflexivity].
Qed.

Lemma unchanged_trans (ks : list string) (s1 s2 s3 : obj) :
  unchanged ks s1 s2 -> unchanged ks s2 s3 -> unchanged ks s1 s3.
Proof. intros H1 H2 k Hk. rewrite H2, H1; auto. Qed.

Lemma wf_metric_inv (m : value) :
  wf_metric m = true ->
  exists mo vs, m = VObj mo /\ field mo "values" = VObj vs
                /\ all_fields is_num vs = true
                /\ opt_field wf_thresholds mo "thresholds" = true.
Proof.
  destruct m as [| | | | | |mo]; try discriminate. simpl.
  intros H. apply andb_prop in H. destruct H as [Hv Ht].
  apply req_field_holds in Hv.
  destruct (field mo "values") as [| | | | | |vs] eqn:E; try discriminate.
  exists mo, vs. auto.
Qed.

Lemma is_num_inv (v : value) : is_num v = true -> exists n, v = VNum n.
Proof. destruct v; try discriminate. eauto. Qed.

Lemma js_or_num (v : value) :
  v = VUndef \/ is_num v = true -> exists n, js_or v (vnum 0) = VNum n.
Proof.
  intros [->|H]; [eexists; reflexivity|].
  apply is_num_inv in H. destruct H as [n ->].
  unfold js_or. destruct (truthy (VNum n)); eexists; reflexivity.
Qed.

Section Summary.
Context (rt : Runtime) (o ms rg : obj).
Hypothesis Hmetrics : assoc "metrics" o = Some (VObj ms).
Hypothesis Hwfms : all_fields wf_metric ms = true.

Let data : value := VObj o.

Lemma metric_ok (name : string) : metric data name = Ok (field ms name).
Proof. unfold metric, data, get, field. rewrite Hmetrics. reflexivity. Qed.

Lemma metric_cases (name : string) :
  field ms name = VUndef \/
  exists mo vs, field ms name = VObj mo /\ field mo "values" = VObj vs
                /\ all_fields is_num vs = true
                /\ opt_field wf_thresholds mo "thresholds" = true.
Proof.
  destruct (field_cases wf_metric ms name Hwfms) as [H|H]; [now left|right].
  now apply wf_metric_inv.
Qed.

Lemma metric_value_ok (name stat : string) (mo vs : obj) :
  field ms name = VObj mo -> field mo "values" = VObj vs ->
  metric_value data name stat = Ok (field vs stat).
Proof.
  intros Hm Hv. unfold metric_value. rewrite metric_ok, Hm. cbn [bind get].
  rewrite Hv. reflexivity.
Qed.

Lemma stats_http_reqs_spec (s : obj) :
  exists s', stats_http_reqs data s = Ok s'
    /\ unchanged ["totalRequests"] s s'
    /\ field s' "totalRequests" =
         if truthy (field ms "http_reqs")
         then js_or (stat_of (field ms "http_reqs") "count") (vnum 0)
         else field s "totalRequests".
Proof.
  unfold stats_http_reqs. rewrite metric_ok. cbn [bind].
  destruct (metric_cases "http_reqs") as [E|(mo & vs & E & Ev & Hn & _)]; rewrite E.
  - exists s. split; [reflexivity|]. split; [apply unchanged_refl|reflexivity].
  - cbn [truthy]. rewrite (metric_value_ok _ _ _ _ E Ev). cbn [bind].
    eexists. split; [reflexivity|]. split.
    + apply unchanged_set; [apply unchanged_refl|reflexivity].
    + rewrite field_set_same. unfold stat_of. now rewrite Ev.
Qed.

Lemma stats_http_req_failed_spec (s : obj) :
  exists s', stats_http_req_failed rt data s = Ok s'
    /\ unchanged ["failedRequests"; "successfulRequests"; "errorRate"; "successRate"] s s'
    /\ (truthy (field ms "http_req_failed") = false -> s' = s)
    /\ (truthy (field ms "http_req_failed") = true ->
        let rate := js_or (stat_of (field ms "http_req_failed") "rate") (vnum 0) in
        field s' "failedRequests" = js_round rt (js_mul rt rate (field s "totalRequests"))
        /\ field s' "successfulRequests" =
             js_sub rt (field s "totalRequests") (field s' "failedRequests")
        /\ field s' "errorRate" =
             VStr (to_fixed rt 2 (to_number rt (js_mul rt rate (vnum 100))))
        /\ field s' "successRate" =
             VStr (to_fixed rt 2 (to_number rt (js_sub rt (vnum 100) (field s' "errorRate"))))).
Proof.
  unfold stats_http_req_failed. rewrite metric_ok. cbn [bind].
  destruct (metric_cases "http_req_failed") as [E|(mo & vs & E & Ev & Hn & _)]; rewrite E.
  - exists s. cbn [truthy]. split; [reflexivity|]. split; [apply unchanged_refl|].
    split; [reflexivity|discriminate].
  - cbn [truthy]. rewrite (metric_value_ok _ _ _ _ E Ev). cbn [bind].
    unfold call_toFixed, js_mul at 2, js_sub at 2. cbn [bind].
    eexists. split; [reflexivity|]. split; [|split; [discriminate|]].
    + repeat (apply unchanged_set; [|reflexivity]). apply unchanged_refl.
    + intros _. unfold stat_of. rewrite Ev. cbv zeta.
      repeat (rewrite ?field_set_same; rewrite ?field_set_other by reflexivity).
      repeat split.
Qed.

Lemma call_toFixed_formatted (v : value) (d : nat) :
  v = VUndef \/ is_num v = true ->
  call_toFixed rt (js_or v (vnum 0)) d = Ok (formatted rt d (js_or v (vnum 0))).
Proof.
  intros H. destruct (js_or_num v H) as [n ->]. reflexivity.
Qed.

Lemma stats_http_req_duration_spec (s : obj) :
  exists s', stats_http_req_duration rt data s = Ok s'
    /\ unchanged ["avgResponseTime"; "p95ResponseTime"; "maxResponseTime"; "minResponseTime"] s s'
    /\ let m := field ms "http_req_duration" in
       let cell stat := formatted rt 2 (js_or (stat_of m stat) (vnum 0)) in
       field s' "avgResponseTime" = from_metric m (cell "avg") (field s "avgResponseTime")
       /\ field s' "p95ResponseTime" = from_metric m (cell "p(95)") (field s "p95ResponseTime")
       /\ field s' "maxResponseTime" = from_metric m (cell "max") (field s "maxResponseTime")
       /\ field s' "minResponseTime" = from_metric m (cell "min") (field s "minResponseTime").
Proof.
  unfold stats_http_req_duration. rewrite metric_ok. cbn [bind].
  destruct (metric_cases "http_req_duration") as [E|(mo & vs & E & Ev & Hn & _)]; rewrite E.
  - exists s. split; [reflexivity|]. split; [apply unchanged_refl|]. repeat split.
  - cbn [truthy bind get]. rewrite Ev. cbn [bind get].
    rewrite !call_toFixed_formatted by now apply field_cases.
    cbn [bind].
    eexists. split; [reflexivity|]. split.
    + repeat (apply unchanged_set; [|reflexivity]). apply unchanged_refl.
    + unfold from_metric, stat_of. rewrite Ev. cbn [truthy]. cbv zeta.
      repeat (rewrite ?field_set_same; rewrite ?field_set_other by reflexivity).
      repeat split.
Qed.

Lemma stats_vus_spec (s : obj) :
  exists s', stats_vus rt data s = Ok s'
    /\ unchanged ["maxVUs"; "avgVUs"] s s'
    /\ let m := field ms "vus" in
       field s' "maxVUs" = from_metric m (js_or (stat_of m "max") (vnum 0)) (field s "maxVUs")
       /\ field s' "avgVUs"
          = from_metric m (formatted rt 0 (js_or (stat_of m "avg") (vnum 0)))
              (field s "avgVUs").
Proof.
  unfold stats_vus. rewrite metric_ok. cbn [bind].
  destruct (metric_cases "vus") as [E|(mo & vs & E & Ev & Hn & _)]; rewrite E.
  - exists s. split; [reflexivity|]. split; [apply unchanged_refl|]. repeat split.
  - cbn [truthy]. rewrite !(metric_value_ok _ _ _ _ E Ev). cbn [bind].
    rewrite call_toFixed_formatted by now apply field_cases.
    cbn [bind].
    eexists. split; [reflexivity|]. split.
    + repeat (apply unchanged_set; [|reflexivity]). apply unchanged_refl.
    + unfold from_metric, stat_of. rewrite Ev. cbn [truthy]. cbv zeta.
      repeat (rewrite ?field_set_same; rewrite ?field_set_other by reflexivity).
      repeat split.
Qed.

Lemma stats_iterations_spec (s : obj) :
  exists s', stats_iterations data s = Ok s'
    /\ unchanged ["iterations"] s s'
    /\ let m := field ms "iterations" in
       field s' "iterations"
       = from_metric m (js_or (stat_of m "count") (vnum 0)) (field s "iterations").
Proof.
  unfold stats_iterations. rewrite metric_ok. cbn [bind].
  destruct (metric_cases "iterations") as [E|(mo & vs & E & Ev & Hn & _)]; rewrite E.
  - exists s. split; [reflexivity|]. split; [apply unchanged_refl|]. reflexivity.
  - cbn [truthy]. rewrite !(metric_value_ok _ _ _ _ E Ev). cbn [bind].
    eexists. split; [reflexivity|]. split.
    + repeat (apply unchanged_set; [|reflexivity]). apply unchanged_refl.
    + unfold from_metric, stat_of. rewrite Ev. cbn [truthy]. cbv zeta.
      now rewrite field_set_same.
Qed.

Lemma stats_data_spec (name target : string) (s : obj) :
  exists s', stats_data rt name target data s = Ok s'
    /\ unchanged [target] s s'
    /\ let m := field ms name in
       field s' target
       = from_metric m (formatted rt 2 (js_div_by rt (stat_of m "count") 1000000))
           (field s target).
Proof.
  unfold stats_data. rewrite metric_ok. cbn [bind].
  destruct (metric_cases name) as [E|(mo & vs & E & Ev & Hn & _)]; rewrite E.
  - exists s. split; [reflexivity|]. split; [apply unchanged_refl|]. reflexivity.
  - cbn [truthy]. rewrite !(metric_value_ok _ _ _ _ E Ev). cbn [bind].
    unfold js_div_by. cbn [call_toFixed bind].
    eexists. split; [reflexivity|]. split.
    + apply unchanged_set; [apply unchanged_refl|].
      cbn. now rewrite String.eqb_refl.
    + unfold from_metric, stat_of. rewrite Ev. cbn [truthy]. cbv zeta.
      now rewrite field_set_same.
Qed.

End Summary.

(** ** The threshold loop *)

Lemma existsb_eqb_false (k : string) (ks : list string) :
  existsb (String.eqb k) ks = false -> ~ In k ks.
Proof.
  induction ks as [|k' ks IH]; simpl; [tauto|].
  intros H. apply orb_false_elim in H. destruct H as [H1 H2].
  intros [->|Hin]; [now rewrite String.eqb_refl in H1|now apply IH].
Qed.

Lemma unique_assoc (o : obj) (k : string) (v : value) :
  unique_keys o = true -> In (k, v) o -> assoc k o = Some v.
Proof.
  induction o as [|[k' v'] o IH]; simpl; [tauto|].
  intros H. apply andb_prop in H. destruct H as [Hk Ho].
  apply negb_true_iff, existsb_eqb_false in Hk.
  intros [[= -> ->]|Hin].
  - now rewrite String.eqb_refl.
  - destruct (String.eqb_spec k k') as [->|]; [|auto].
    elim Hk. apply in_map_iff. now exists (k', v).
Qed.

Lemma resolves_self (o : obj) : unique_keys o = true -> resolves o o.
Proof.
  intros H k v Hin. unfold field. now rewrite (unique_assoc o k v H Hin).
Qed.

Lemma resolves_tail (o : obj) (e : string * value) (l : obj) :
  resolves o (e :: l) -> resolves o l.
Proof. intros H k v Hin. apply H. now right. Qed.

Lemma wf_threshold_inv (t : value) :
  wf_threshold t = true -> exists to b, t = VObj to /\ field to "ok" = VBool b.
Proof.
  destruct t as [| | | | | |to]; try discriminate. simpl. intros H.
  apply req_field_holds in H. destruct (field to "ok") eqn:E; try discriminate.
  eauto.
Qed.

Section Thresholds.
Context (rt : Runtime).

Lemma count_threshold_failures_spec (ts l : obj) (s : obj) (a : Z) :
  resolves ts l -> all_fields wf_threshold l = true ->
  field s "thresholdFailures" = vnum a ->
  exists s', foldM (fun (stats : obj) (thres : string) =>
                      t <- get (VObj ts) thres ;;
                      ok <- get t "ok" ;;
                      if negb (truthy ok)
                      then Ok (obj_set stats "thresholdFailures"
                                 (incr rt (field stats "thresholdFailures")))
                      else Ok stats) (map fst l) s = Ok s'
    /\ unchanged ["thresholdFailures"] s s'
    /\ field s' "thresholdFailures" = vnum (a + Z.of_nat (failed_expressions l)).
Proof.
  revert s a. induction l as [|[k t] l IH]; intros s a Hres Hwf Ha.
  - exists s. split; [reflexivity|]. split; [apply unchanged_refl|].
    rewrite Ha. unfold failed_expressions. simpl. now rewrite Z.add_0_r.
  - simpl in Hwf. apply andb_prop in Hwf. destruct Hwf as [Ht Hl].
    destruct (wf_threshold_inv t Ht) as (to & b & -> & Hok).
    cbn [map fst foldM bind get]. rewrite (Hres k (VObj to)) by now left.
    cbn [bind get]. rewrite Hok.
    unfold failed_expressions. cbn [filter snd]. rewrite Hok.
    destruct b; cbn [truthy negb bind].
    + destruct (IH s a (resolves_tail _ _ _ Hres) Hl Ha) as (s' & E & Hu & Hf).
      exists s'. auto.
    + rewrite Ha, incr_integer.
      destruct (IH (obj_set s "thresholdFailures" (vnum (a + 1))) (a + 1)%Z
                  (resolves_tail _ _ _ Hres) Hl (field_set_same _ _ _))
        as (s' & E & Hu & Hf).
      exists s'. split; [exact E|]. split.
      * eapply unchanged_trans; [|exact Hu].
        apply unchanged_set; [apply unchanged_refl|reflexivity].
      * rewrite Hf. unfold failed_expressions. cbn [List.length]. f_equal. lia.
Qed.

End Thresholds.

Section SummaryThresholds.
Context (rt : Runtime) (o ms rg : obj).
Hypothesis Hmetrics : assoc "metrics" o = Some (VObj ms).
Hypothesis Hwfms : all_fields wf_metric ms = true.

Let data : value := VObj o.

Let loop_body : obj -> string -> result obj :=
  fun (stats : obj) (metricName : string) =>
    m <- metric data metricName ;;
    th <- get m "thresholds" ;;
    if truthy th then
      let stats :=
        obj_set stats "thresholdCount" (incr rt (field stats "thresholdCount")) in
      m <- metric data metricName ;;
      thresholds <- get m "thresholds" ;;
      count_threshold_failures rt thresholds stats
    else Ok stats.

Lemma thresholds_loop_spec (l : obj) (s : obj) (c f : Z) :
  resolves ms l -> all_fields wf_metric l = true ->
  field s "thresholdCount" = vnum c ->
  field s "thresholdFailures" = vnum f ->
  exists s', foldM loop_body (map fst l) s = Ok s'
    /\ unchanged ["thresholdCount"; "thresholdFailures"] s s'
    /\ field s' "thresholdCount" = vnum (c + Z.of_nat (metrics_with_thresholds l))
    /\ field s' "thresholdFailures" = vnum (f + Z.of_nat (failed_thresholds l)).
Proof.
  revert s c f. induction l as [|[k m] l IH]; intros s c f Hres Hwf Hc Hf.
  - exists s. split; [reflexivity|]. split; [apply unchanged_refl|].
    rewrite Hc, Hf. unfold metrics_with_thresholds, failed_thresholds. simpl.
    now rewrite !Z.add_0_r.
  - simpl in Hwf. apply andb_prop in Hwf. destruct Hwf as [Hm Hl].
    pose proof (resolves_tail _ _ _ Hres) as Hres'.
    cbn [map fst foldM]. unfold loop_body at 1.
    rewrite (metric_ok o ms Hmetrics). rewrite (Hres k m) by now left.
    destruct m as [| | | | | |mo]; try discriminate.
    simpl in Hm. apply andb_prop in Hm. destruct Hm as [_ Hth].
    unfold metrics_with_thresholds, failed_thresholds.
    cbn [bind get filter map snd thresholds_of fold_right].
    unfold opt_field in Hth.
    destruct (assoc "thresholds" mo) as [th|] eqn:Eth.
    + assert (Efield : field mo "thresholds" = th) by (unfold field; now rewrite Eth).
      rewrite Efield.
      destruct th as [| | | | | |ts]; try discriminate.
      simpl in Hth. apply andb_prop in Hth. destruct Hth as [Hu Hts].
      cbn [truthy bind]. rewrite Hc, incr_integer.
      unfold count_threshold_failures. cbn [own_keys].
      destruct (count_threshold_failures_spec rt ts ts
                  (obj_set s "thresholdCount" (vnum (c + 1))) f
                  (resolves_self ts Hu) Hts) as (s1 & E1 & Hu1 & Hf1).
      { rewrite field_set_other by reflexivity. exact Hf. }
      rewrite E1. cbn [bind].
      destruct (IH s1 (c + 1)%Z (f + Z.of_nat (failed_expressions ts))%Z Hres' Hl)
        as (s' & E & Hu' & Hc' & Hf'); [|exact Hf1|].
      { rewrite Hu1 by reflexivity. apply field_set_same. }
      exists s'. split; [exact E|]. split; [|split].
      * intros key Hkey. rewrite Hu' by exact Hkey.
        simpl in Hkey. apply orb_false_elim in Hkey. destruct Hkey as [K1 K2].
        rewrite Hu1 by (simpl; now rewrite K2).
        apply field_set_other. exact K1.
      * rewrite Hc'. unfold metrics_with_thresholds. cbn [List.length]. f_equal. lia.
      * rewrite Hf'. unfold failed_thresholds. f_equal. lia.
    + assert (Efield : field mo "thresholds" = VUndef) by (unfold field; now rewrite Eth).
      rewrite Efield. cbn [truthy bind].
      destruct (IH s c f Hres' Hl Hc Hf) as (s' & E & Hu' & Hc' & Hf').
      exists s'. auto.
Qed.

Hypothesis Hunique : unique_keys ms = true.

Lemma stats_thresholds_spec (s : obj) (c f : Z) :
  field s "thresholdCount" = vnum c ->
  field s "thresholdFailures" = vnum f ->
  exists s', stats_thresholds rt data s = Ok s'
    /\ unchanged ["thresholdCount"; "thresholdFailures"] s s'
    /\ field s' "thresholdCount" = vnum (c + Z.of_nat (metrics_with_thresholds ms))
    /\ field s' "thresholdFailures" = vnum (f + Z.of_nat (failed_thresholds ms)).
Proof.
  intros Hc Hf. unfold stats_thresholds.
  assert (E : get data "metrics" = Ok (VObj ms)).
  { unfold data, get, field. now rewrite Hmetrics. }
  rewrite E. cbn [bind own_keys].
  apply (thresholds_loop_spec ms s c f (resolves_self ms Hunique) Hwfms Hc Hf).
Qed.

End SummaryThresholds.

(** ** The check loops *)

Lemma wf_check_inv (c : value) :
  wf_check c = true ->
  exists co, c = VObj co
    /\ is_str (field co "name") = true
    /\ (field co "passes" = VUndef \/ is_count (field co "passes") = true)
    /\ (field co "fails" = VUndef \/ is_count (field co "fails") = true).
Proof.
  destruct c as [| | | | | |co]; try discriminate. simpl. intros H.
  apply andb_prop in H. destruct H as [H Hf].
  apply andb_prop in H. destruct H as [Hn Hp].
  exists co. split; [reflexivity|]. split; [now apply req_field_holds|].
  split; now apply opt_field_cases.
Qed.

Lemma count_of_nonneg (v : value) :
  v = VUndef \/ is_count v = true -> (0 <= count_of v)%Z.
Proof.
  intros [->|E]; [simpl; lia|].
  destruct v as [| | |[q|]| | |]; try discriminate E.
  unfold is_count in E. apply andb_prop in E. destruct E as [E _].
  apply andb_prop in E. destruct E as [_ E]. apply Z.leb_le in E. exact E.
Qed.

Lemma count_of_safe (v : value) :
  v = VUndef \/ is_count v = true -> (count_of v <= max_safe_integer)%Z.
Proof.
  intros [->|E]; [discriminate|].
  destruct v as [| | |[q|]| | |]; try discriminate E.
  unfold is_count in E. apply andb_prop in E. destruct E as [_ E].
  apply Z.leb_le in E. exact E.
Qed.

Lemma sum_checks_nonneg (k : string) (cs : list value) :
  k = "passes" \/ k = "fails" ->
  forallb wf_check cs = true -> (0 <= sum_checks k cs)%Z.
Proof.
  intros Hk. unfold sum_checks. induction cs as [|c cs IH]; intros H; [simpl; lia|].
  cbn [forallb] in H. apply andb_prop in H. destruct H as [Hc Hcs].
  destruct (wf_check_inv c Hc) as (co & -> & _ & Hp & Hf).
  cbn [map fold_right check_field]. specialize (IH Hcs).
  destruct Hk as [-> | ->];
    [pose proof (count_of_nonneg _ Hp)|pose proof (count_of_nonneg _ Hf)]; lia.
Qed.

Lemma checks_of_wf (o : obj) :
  opt_field wf_checks o "checks" = true -> forallb wf_check (checks_of (VObj o)) = true.
Proof.
  intros H. apply opt_field_cases in H. unfold checks_of.
  destruct H as [->|H]; [reflexivity|].
  destruct (field o "checks"); try discriminate H. exact H.
Qed.

Lemma group_sums_nonneg (k : string) (gs : list value) :
  k = "passes" \/ k = "fails" ->
  forallb wf_group gs = true ->
  (0 <= fold_right Z.add 0%Z (map (fun g => sum_checks k (checks_of g)) gs))%Z.
Proof.
  intros Hk. induction gs as [|g gs IH]; intros H; [simpl; lia|].
  cbn [forallb] in H. apply andb_prop in H. destruct H as [Hg Hgs].
  assert (Hc : forallb wf_check (checks_of g) = true).
  { destruct g as [| | | | | |go]; try discriminate Hg. cbn [wf_group] in Hg.
    apply andb_prop in Hg. now apply checks_of_wf. }
  pose proof (sum_checks_nonneg k _ Hk Hc). specialize (IH Hgs).
  cbn [map fold_right]. lia.
Qed.

Section Checks.
Context (rt : Runtime).

Let count_body : value * value -> value -> result (value * value) :=
  fun (acc : value * value) (check : value) =>
    let '(passes, fails) := acc in
    p <- get check "passes" ;;
    let passes := js_add rt passes (parseInt rt (js_or p (vnum 0))) in
    f <- get check "fails" ;;
    let fails := js_add rt fails (parseInt rt (js_or f (vnum 0))) in
    Ok (passes, fails).

Lemma count_loop_spec (items : list value) (a b a' b' : Z) :
  forallb wf_check items = true ->
  (0 <= a)%Z -> (0 <= b)%Z -> counts_as a a' -> counts_as b b' ->
  exists p f,
    foldM count_body items (vnum a', vnum b') = Ok (vnum p, vnum f)
    /\ counts_as (a + sum_checks "passes" items) p
    /\ counts_as (b + sum_checks "fails" items) f.
Proof.
  revert a b a' b'. induction items as [|c items IH]; intros a b a' b' Hwf Ha Hb Ca Cb.
  - exists a', b'. simpl. rewrite !Z.add_0_r. auto.
  - simpl in Hwf. apply andb_prop in Hwf. destruct Hwf as [Hc Hl].
    destruct (wf_check_inv c Hc) as (co & -> & _ & Hp & Hf).
    cbn [foldM]. unfold count_body at 1. cbn [bind get].
    rewrite (parseInt_or_count rt _ Hp), (parseInt_or_count rt _ Hf).
    pose proof (count_of_nonneg _ Hp) as Np. pose proof (count_of_nonneg _ Hf) as Nf.
    destruct (js_add_counts rt a (count_of (field co "passes")) a' _ Ha Np Ca
                (counts_as_refl _ Np)) as (a1 & Ea & Ca1).
    destruct (js_add_counts rt b (count_of (field co "fails")) b' _ Hb Nf Cb
                (counts_as_refl _ Nf)) as (b1 & Eb & Cb1).
    rewrite Ea, Eb.
    destruct (IH (a + count_of (field co "passes"))%Z (b + count_of (field co "fails"))%Z
                a1 b1 Hl ltac:(lia) ltac:(lia) Ca1 Cb1) as (p & f & E & Cp & Cf).
    exists p, f. split; [exact E|].
    unfold sum_checks in *. cbn [map fold_right check_field].
    rewrite !Z.add_assoc. auto.
Qed.

Lemma countChecks_spec (items : list value) :
  forallb wf_check items = true ->
  exists p f,
    countChecks rt (VArr items) = Ok (vnum p, vnum f)
    /\ counts_as (sum_checks "passes" items) p
    /\ counts_as (sum_checks "fails" items) f.
Proof.
  intros H. unfold countChecks. cbn [iterate bind].
  apply (count_loop_spec items 0 0 0 0 H); try lia; apply counts_as_refl; lia.
Qed.

Lemma add_checks_spec (s : obj) (a b p f p' f' : Z) :
  (0 <= a)%Z -> (0 <= b)%Z -> (0 <= p)%Z -> (0 <= f)%Z ->
  tallied s a b -> counts_as p p' -> counts_as f f' ->
  let s' := add_checks rt s (vnum p', vnum f') in
  unchanged ["checkPasses"; "checkFailures"] s s'
  /\ tallied s' (a + p) (b + f).
Proof.
  intros Ha Hb Hp Hf [(a' & Ea & Ca) (b' & Eb & Cb)] Cp Cf. unfold add_checks. cbv zeta.
  rewrite field_set_other by reflexivity. rewrite Ea, Eb.
  destruct (js_add_counts rt a p a' p' Ha Hp Ca Cp) as (a1 & Ea1 & Ca1).
  destruct (js_add_counts rt b f b' f' Hb Hf Cb Cf) as (b1 & Eb1 & Cb1).
  rewrite Ea1, Eb1.
  split; [|split].
  - repeat (apply unchanged_set; [|reflexivity]). apply unchanged_refl.
  - exists a1. split; [|exact Ca1].
    rewrite field_set_other by reflexivity. apply field_set_same.
  - exists b1. split; [|exact Cb1]. apply field_set_same.
Qed.

(** The checks of one group (the root or a child), when it has any. *)
Lemma group_checks_spec (go : obj) (s : obj) (a b : Z) :
  opt_field wf_checks go "checks" = true ->
  (0 <= a)%Z -> (0 <= b)%Z -> tallied s a b ->
  exists s',
    (checks <- get (VObj go) "checks" ;;
     if truthy checks then
       checks <- get (VObj go) "checks" ;;
       counted <- countChecks rt checks ;;
       Ok (add_checks rt s counted)
     else Ok s) = Ok s'
    /\ unchanged ["checkPasses"; "checkFailures"] s s'
    /\ tallied s' (a + sum_checks "passes" (checks_of (VObj go)))
                  (b + sum_checks "fails" (checks_of (VObj go))).
Proof.
  intros Hwf Ha Hb Ht. pose proof (checks_of_wf go Hwf) as Hcs.
  unfold opt_field in Hwf. unfold checks_of in *. cbn [get bind].
  destruct (assoc "checks" go) as [cs|] eqn:Ecs.
  - assert (Ef : field go "checks" = cs) by (unfold field; now rewrite Ecs).
    rewrite Ef in *.
    destruct cs as [| | | | |items|]; try discriminate. simpl in Hwf.
    cbn [truthy bind].
    destruct (countChecks_spec items Hwf) as (p & f & E & Cp & Cf).
    rewrite E. cbn [bind].
    eexists. split; [reflexivity|].
    apply add_checks_spec; auto; apply sum_checks_nonneg; auto.
  - assert (Ef : field go "checks" = VUndef) by (unfold field; now rewrite Ecs).
    rewrite Ef.
    cbn [truthy]. exists s. split; [reflexivity|]. split; [apply unchanged_refl|].
    unfold sum_checks. simpl. now rewrite !Z.add_0_r.
Qed.

End Checks.

Section SummaryChecks.
Context (rt : Runtime) (o rg : obj).
Hypothesis Hroot : assoc "root_group" o = Some (VObj rg).
Hypothesis Hwfroot : wf_root (VObj rg) = true.

Let data : value := VObj o.

Lemma root_ok : get data "root_group" = Ok (VObj rg).
Proof. unfold data, get, field. now rewrite Hroot. Qed.

Lemma stats_root_checks_spec (s : obj) (a b : Z) :
  (0 <= a)%Z -> (0 <= b)%Z -> tallied s a b ->
  exists s', stats_root_checks rt data s = Ok s'
    /\ unchanged ["checkPasses"; "checkFailures"] s s'
    /\ tallied s' (a + sum_checks "passes" (checks_of (VObj rg)))
                  (b + sum_checks "fails" (checks_of (VObj rg))).
Proof.
  intros Ha Hb Ht. unfold stats_root_checks. rewrite root_ok. cbn [bind].
  simpl in Hwfroot. apply andb_prop in Hwfroot. destruct Hwfroot as [Hc _].
  apply (group_checks_spec rt rg s a b Hc Ha Hb Ht).
Qed.

Let group_body : obj -> value -> result obj :=
  fun (stats : obj) (group : value) =>
    checks <- get group "checks" ;;
    if truthy checks then
      checks <- get group "checks" ;;
      counted <- countChecks rt checks ;;
      Ok (add_checks rt stats counted)
    else Ok stats.

Lemma groups_loop_spec (gs : list value) (s : obj) (a b : Z) :
  forallb wf_group gs = true ->
  (0 <= a)%Z -> (0 <= b)%Z -> tallied s a b ->
  exists s', foldM group_body gs s = Ok s'
    /\ unchanged ["checkPasses"; "checkFailures"] s s'
    /\ tallied s'
         (a + fold_right Z.add 0%Z (map (fun g => sum_checks "passes" (checks_of g)) gs))
         (b + fold_right Z.add 0%Z (map (fun g => sum_checks "fails" (checks_of g)) gs)).
Proof.
  revert s a b. induction gs as [|g gs IH]; intros s a b Hwf Ha Hb Ht.
  - exists s. split; [reflexivity|]. split; [apply unchanged_refl|].
    simpl. now rewrite !Z.add_0_r.
  - simpl in Hwf. apply andb_prop in Hwf. destruct Hwf as [Hg Hl].
    destruct g as [| | | | | |go]; try discriminate.
    simpl in Hg. apply andb_prop in Hg. destruct Hg as [_ Hc].
    destruct (group_checks_spec rt go s a b Hc Ha Hb Ht) as (s1 & E1 & Hu1 & Ht1).
    cbn [foldM]. unfold group_body at 1. rewrite E1. cbn [bind].
    pose proof (sum_checks_nonneg "passes" _ (or_introl eq_refl) (checks_of_wf go Hc)) as Np.
    pose proof (sum_checks_nonneg "fails" _ (or_intror eq_refl) (checks_of_wf go Hc)) as Nf.
    destruct (IH s1 (a + sum_checks "passes" (checks_of (VObj go)))%Z
                (b + sum_checks "fails" (checks_of (VObj go)))%Z
                Hl ltac:(lia) ltac:(lia) Ht1) as (s' & E & Hu & Ht').
    exists s'. split; [exact E|]. split; [eapply unchanged_trans; eauto|].
    cbn [map fold_right]. rewrite !Z.add_assoc. exact Ht'.
Qed.

Lemma stats_group_checks_spec (s : obj) (a b : Z) :
  (0 <= a)%Z -> (0 <= b)%Z -> tallied s a b ->
  exists s', stats_group_checks rt data s = Ok s'
    /\ unchanged ["checkPasses"; "checkFailures"] s s'
    /\ tallied s'
         (a + fold_right Z.add 0%Z
                (map (fun g => sum_checks "passes" (checks_of g)) (groups_of (VObj rg))))
         (b + fold_right Z.add 0%Z
                (map (fun g => sum_checks "fails" (checks_of g)) (groups_of (VObj rg)))).
Proof.
  intros Ha Hb Ht. unfold stats_group_checks. rewrite root_ok. cbn [bind get].
  simpl in Hwfroot. apply andb_prop in Hwfroot. destruct Hwfroot as [_ Hg].
  unfold opt_field in Hg. unfold groups_of.
  destruct (assoc "groups" rg) as [gv|] eqn:Egs.
  - assert (Ef : field rg "groups" = gv) by (unfold field; now rewrite Egs).
    rewrite Ef.
    destruct gv as [| | | | |gs|]; try discriminate. simpl in Hg.
    cbn [js_or truthy iterate bind].
    apply (groups_loop_spec gs s a b Hg Ha Hb Ht).
  - assert (Ef : field rg "groups" = VUndef) by (unfold field; now rewrite Egs).
    rewrite Ef. cbn [js_or truthy iterate bind foldM].
    exists s. split; [reflexivity|]. split; [apply unchanged_refl|].
    simpl. now rewrite !Z.add_0_r.
Qed.

(** The two sums of the specification are not negative. *)
Lemma tally_nonneg (k : string) :
  k = "passes" \/ k = "fails" -> (0 <= tally k (VObj rg))%Z.
Proof.
  intros Hk. simpl in Hwfroot. apply andb_prop in Hwfroot. destruct Hwfroot as [Hc Hg].
  pose proof (sum_checks_nonneg k _ Hk (checks_of_wf rg Hc)) as N1.
  assert (Hgs : forallb wf_group (groups_of (VObj rg)) = true).
  { apply opt_field_cases in Hg. unfold groups_of.
    destruct Hg as [->|Hg]; [reflexivity|].
    destruct (field rg "groups"); try discriminate Hg. exact Hg. }
  pose proof (group_sums_nonneg k _ Hk Hgs) as N2.
  unfold tally. lia.
Qed.

End SummaryChecks.

(** ** [calculateStats] as a whole *)

Lemma wf_summary_inv (d : value) :
  wf_summary d = true ->
  exists o ms rg, d = VObj o
    /\ assoc "metrics" o = Some (VObj ms)
    /\ unique_keys ms = true /\ all_fields wf_metric ms = true
    /\ assoc "root_group" o = Some (VObj rg)
    /\ wf_root (VObj rg) = true.
Proof.
  destruct d as [| | | | | |o]; try discriminate. simpl. intros H.
  apply andb_prop in H. destruct H as [Hm Hr]. unfold req_field in Hm, Hr.
  destruct (assoc "metrics" o) as [m|] eqn:Em; [|discriminate].
  destruct (assoc "root_group" o) as [r|] eqn:Er; [|discriminate].
  destruct m as [| | | | | |ms]; try discriminate.
  destruct r as [| | | | | |rg]; try discriminate.
  simpl in Hm. apply andb_prop in Hm. destruct Hm as [Hu Hm].
  exists o, ms, rg. auto 10.
Qed.

Section Derived.
Context (rt : Runtime) (o ms rg : obj).
Hypothesis Hmetrics : assoc "metrics" o = Some (VObj ms).
Hypothesis Hunique : unique_keys ms = true.
Hypothesis Hwfms : all_fields wf_metric ms = true.
Hypothesis Hroot : assoc "root_group" o = Some (VObj rg).
Hypothesis Hwfroot : wf_root (VObj rg) = true.

Lemma calculateStats_derived :
  exists st, calculateStats rt (VObj o) = Ok st /\ derived rt ms (VObj rg) st.
Proof.
  unfold calculateStats.
  destruct (stats_http_reqs_spec o ms Hmetrics Hwfms initial_stats)
    as (s1 & E1 & U1 & T1).
  destruct (stats_http_req_failed_spec rt o ms Hmetrics Hwfms s1)
    as (s2 & E2 & U2 & N2 & Y2).
  destruct (stats_http_req_duration_spec rt o ms Hmetrics Hwfms s2)
    as (s3 & E3 & U3 & V3).
  destruct (stats_vus_spec rt o ms Hmetrics Hwfms s3) as (s4 & E4 & U4 & V4).
  destruct (stats_iterations_spec o ms Hmetrics Hwfms s4) as (s5 & E5 & U5 & V5).
  destruct (stats_data_spec rt o ms Hmetrics Hwfms "data_received" "dataReceived" s5)
    as (s6 & E6 & U6 & V6).
  destruct (stats_data_spec rt o ms Hmetrics Hwfms "data_sent" "dataSent" s6)
    as (s7 & E7 & U7 & V7).
  assert (K : forall k, field initial_stats k = vnum 0 ->
                existsb (String.eqb k)
                  ["totalRequests"; "failedRequests"; "successfulRequests"; "errorRate";
                   "successRate"; "avgResponseTime"; "p95ResponseTime"; "maxResponseTime";
                   "minResponseTime"; "maxVUs"; "avgVUs"; "iterations"; "dataReceived";
                   "dataSent"] = false ->
                field s7 k = vnum 0).
  { intros k Hk Hne. simpl in Hne.
    repeat (apply orb_false_elim in Hne; destruct Hne as [? Hne]).
    rewrite U7, U6, U5, U4, U3, U2, U1; auto; simpl;
      repeat (match goal with H : String.eqb _ _ = false |- _ => rewrite H; clear H end);
      reflexivity. }
  destruct (stats_thresholds_spec rt o ms Hmetrics Hwfms Hunique s7 0 0)
    as (s8 & E8 & U8 & C8 & F8); [now apply K|now apply K|].
  assert (T8 : tallied s8 0 0).
  { split; exists 0%Z; (split; [rewrite U8 by reflexivity; now apply K|]);
      apply counts_as_refl; lia. }
  destruct (stats_root_checks_spec rt o rg Hroot Hwfroot s8 0 0 ltac:(lia) ltac:(lia) T8)
    as (s9 & E9 & U9 & T9).
  assert (Hcs : forallb wf_check (checks_of (VObj rg)) = true).
  { pose proof Hwfroot as W. simpl in W. apply andb_prop in W. destruct W as [Hc _].
    now apply checks_of_wf. }
  pose proof (sum_checks_nonneg "passes" _ (or_introl eq_refl) Hcs) as Np.
  pose proof (sum_checks_nonneg "fails" _ (or_intror eq_refl) Hcs) as Nf.
  destruct (stats_group_checks_spec rt o rg Hroot Hwfroot s9
              (0 + sum_checks "passes" (checks_of (VObj rg)))%Z
              (0 + sum_checks "fails" (checks_of (VObj rg)))%Z
              ltac:(lia) ltac:(lia) T9)
    as (s10 & E10 & U10 & (p & P10 & Cp) & (f & Q10 & Cf)).
  pose proof (tally_nonneg rg Hwfroot "passes" (or_introl eq_refl)) as Tp.
  pose proof (tally_nonneg rg Hwfroot "fails" (or_intror eq_refl)) as Tf.
  change (counts_as (tally "passes" (VObj rg)) p) in Cp.
  change (counts_as (tally "fails" (VObj rg)) f) in Cf.
  destruct (js_add_counts rt _ _ p f Tp Tf Cp Cf) as (t & Et & Ct).
  rewrite E1; cbn [bind]. rewrite E2; cbn [bind]. rewrite E3; cbn [bind].
  rewrite E4; cbn [bind]. rewrite E5; cbn [bind]. rewrite E6; cbn [bind].
  rewrite E7; cbn [bind]. rewrite E8; cbn [bind]. rewrite E9; cbn [bind].
  rewrite E10; cbn [bind].
  eexists. split; [reflexivity|].
  assert (Last : forall k, String.eqb k "totalChecks" = false ->
                  field (stats_total_checks rt s10) k = field s10 k).
  { intros k Hk. unfold stats_total_checks. now apply field_set_other. }
  assert (Keep : forall k,
            existsb (String.eqb k)
              ["thresholdCount"; "thresholdFailures"; "checkPasses"; "checkFailures";
               "totalChecks"] = false ->
            field (stats_total_checks rt s10) k = field s7 k).
  { intros k Hne. simpl in Hne.
    repeat (apply orb_false_elim in Hne; destruct Hne as [? Hne]).
    rewrite Last by assumption.
    rewrite U10, U9, U8; auto; simpl;
      repeat (match goal with H : String.eqb _ _ = false |- _ => rewrite H; clear H end);
      reflexivity. }
  assert (I0 : forall k, field initial_stats k = vnum 0 ->
                 existsb (String.eqb k) ["totalRequests"] = false ->
                 field s1 k = vnum 0)
    by (intros k Hk Hne; now rewrite U1).
  unfold derived. cbv zeta.
  rewrite !Keep by reflexivity.
  repeat match goal with |- _ /\ _ => split end.
  - rewrite U7, U6, U5, U4, U3, U2 by reflexivity. exact T1.
  - intros Hf. rewrite !U7, !U6, !U5, !U4, !U3 by reflexivity. rewrite (N2 Hf).
    repeat split; apply U1; reflexivity.
  - intros Hf. destruct (Y2 Hf) as (A & B & C & D).
    rewrite !U7, !U6, !U5, !U4, !U3 by reflexivity.
    rewrite (U2 "totalRequests") by reflexivity. auto.
  - rewrite Last by reflexivity. rewrite U10, U9 by reflexivity. exact C8.
  - rewrite Last by reflexivity. rewrite U10, U9 by reflexivity. exact F8.
  - exists p. rewrite Last by reflexivity. auto.
  - exists f. rewrite Last by reflexivity. auto.
  - exists t. unfold stats_total_checks. rewrite field_set_same.
    rewrite P10, Q10, Et. auto.
  - rewrite Keep by reflexivity. rewrite U7, U6, U5, U4 by reflexivity. destruct V3 as (A & _).
    rewrite A, U2, U1 by reflexivity. reflexivity.
  - rewrite Keep by reflexivity. rewrite U7, U6, U5, U4 by reflexivity. destruct V3 as (_ & A & _).
    rewrite A, U2, U1 by reflexivity. reflexivity.
  - rewrite Keep by reflexivity. rewrite U7, U6, U5, U4 by reflexivity. destruct V3 as (_ & _ & A & _).
    rewrite A, U2, U1 by reflexivity. reflexivity.
  - rewrite Keep by reflexivity. rewrite U7, U6, U5, U4 by reflexivity. destruct V3 as (_ & _ & _ & A).
    rewrite A, U2, U1 by reflexivity. reflexivity.
  - rewrite Keep by reflexivity. rewrite U7, U6, U5 by reflexivity. destruct V4 as (A & _).
    rewrite A, U3, U2, U1 by reflexivity. reflexivity.
  - rewrite Keep by reflexivity. rewrite U7, U6, U5 by reflexivity. destruct V4 as (_ & A).
    rewrite A, U3, U2, U1 by reflexivity. reflexivity.
  - rewrite Keep by reflexivity. rewrite U7, U6 by reflexivity.
    rewrite V5, U4, U3, U2, U1 by reflexivity. reflexivity.
  - rewrite Keep by reflexivity. rewrite U7 by reflexivity.
    rewrite V6, U5, U4, U3, U2, U1 by reflexivity. reflexivity.
  - rewrite Keep by reflexivity. rewrite V7, U6, U5, U4, U3, U2, U1 by reflexivity. reflexivity.
  - rewrite Keep by reflexivity. rewrite U7, U6, U5, U4, U3, U2, U1 by reflexivity. reflexivity.
Qed.

End Derived.

(** ** Rounding and [toFixed] *)

Lemma round_half_up_comp (x y : Q) : x == y -> round_half_up x = round_half_up y.
Proof. intros H. unfold round_half_up. now rewrite H. Qed.

Lemma round_half_up_integer (z : Z) : round_half_up (inject_Z z) = z.
Proof.
  unfold round_half_up.
  pose proof (Qfloor_le (inject_Z z + (1 # 2))) as Hle.
  pose proof (Qlt_floor (inject_Z z + (1 # 2))) as Hlt.
  set (f := Qfloor (inject_Z z + (1 # 2))) in *.
  assert (H1 : inject_Z f < inject_Z (z + 1)) by (rewrite inject_Z_plus; change (inject_Z 1) with 1; lra).
  assert (H2 : inject_Z z < inject_Z (f + 1)) by lra.
  rewrite <- Zlt_Qlt in H1, H2. lia.
Qed.

Lemma round_half_up_le (x y : Q) : x <= y -> (round_half_up x <= round_half_up y)%Z.
Proof. intros H. unfold round_half_up. apply Qfloor_resp_le. lra. Qed.

Lemma round_half_up_nonneg (x : Q) : 0 <= x -> (0 <= round_half_up x)%Z.
Proof.
  intros H. unfold round_half_up.
  rewrite <- (Qfloor_Z 0). apply Qfloor_resp_le. change (inject_Z 0) with 0. lra.
Qed.

Lemma Qlt_bool_iff (x y : Q) : Qlt_bool x y = true <-> x < y.
Proof.
  unfold Qlt_bool. rewrite negb_true_iff. split.
  - intros H. apply Qnot_le_lt. intros Hle. apply Qle_bool_iff in Hle. congruence.
  - intros H. destruct (Qle_bool y x) eqn:E; [|reflexivity].
    apply Qle_bool_iff in E. lra.
Qed.

Lemma Qlt_bool_comp (x x' y y' : Q) : x == x' -> y == y' -> Qlt_bool x y = Qlt_bool x' y'.
Proof. intros Hx Hy. unfold Qlt_bool. now rewrite Hx, Hy. Qed.

Section ToFixed.
Context (rt : Runtime).

Lemma number_to_string_comp (x y : Q) :
  x == y -> number_to_string rt (Fin x) = number_to_string rt (Fin y).
Proof. intros H. unfold number_to_string. now rewrite (Qred_complete _ _ H). Qed.

Lemma to_fixed_comp (d : nat) (x y : Q) :
  x == y -> to_fixed rt d (Fin x) = to_fixed rt d (Fin y).
Proof.
  intros H. unfold to_fixed.
  rewrite (Qlt_bool_comp x y 0 0 H (Qeq_refl 0)).
  assert (Ha : Qabs x == Qabs y) by now rewrite H.
  rewrite (number_to_string_comp _ _ Ha).
  rewrite (round_half_up_comp (Qabs x * inject_Z (ten_pow d)) (Qabs y * inject_Z (ten_pow d)))
    by now rewrite Ha.
  assert (Hb : Qle_bool (inject_Z (ten_pow 21)) (Qabs x)
               = Qle_bool (inject_Z (ten_pow 21)) (Qabs y)) by now rewrite Ha.
  now rewrite Hb.
Qed.

Lemma two_digits_all : forallb two_digits_ok (map N.of_nat (seq 0 100)) = true.
Proof. vm_compute. reflexivity. Qed.

Lemma two_digits_spec (f : N) :
  (f < 100)%N ->
  String.length (two_digits f) = 2%nat
  /\ span_digits (two_digits f) = (two_digits f, "")
  /\ parse_nat (two_digits f) = Some f.
Proof.
  intros Hf.
  assert (Hin : In f (map N.of_nat (seq 0 100))).
  { apply in_map_iff. exists (N.to_nat f). split; [apply N2Nat.id|].
    apply in_seq. lia. }
  pose proof (proj1 (forallb_forall _ _) two_digits_all f Hin) as H.
  unfold two_digits_ok in H.
  apply andb_prop in H. destruct H as [H Hp].
  apply andb_prop in H. destruct H as [H Hs].
  apply andb_prop in H. destruct H as [Hl Hd].
  apply Nat.eqb_eq in Hl. apply String.eqb_eq in Hd, Hs.
  split; [exact Hl|]. split.
  - destruct (span_digits (two_digits f)) as [a b]. simpl in Hd, Hs. congruence.
  - destruct (parse_nat (two_digits f)); [|discriminate].
    apply N.eqb_eq in Hp. congruence.
Qed.

(** The digits of a non-negative scaled value, read back. *)
Lemma parse_fixed_digits (k : Z) (neg : bool) :
  (0 <= k)%Z ->
  parse_decimal ((if neg then "-" else "") ++ fixed_digits 2 k)
  = Some ((if neg then Qopp else fun q => q) (Qred (k # 100))).
Proof.
  intros Hk. unfold fixed_digits.
  assert (Hq : (0 <= k / ten_pow 2)%Z) by (apply Z.div_pos; [lia|reflexivity]).
  assert (Hr : (0 <= k mod ten_pow 2 < 100)%Z) by (apply Z.mod_pos_bound; reflexivity).
  rewrite !z_to_string_nonneg by lia.
  fold (two_digits (Z.to_N (k mod ten_pow 2))).
  destruct (two_digits_spec (Z.to_N (k mod ten_pow 2))) as (Hl & Hs & Hp); [lia|].
  set (ip := n_to_string (Z.to_N (k / ten_pow 2))).
  set (fp := two_digits (Z.to_N (k mod ten_pow 2))) in *.
  assert (Hspan : span_digits (ip ++ "." ++ fp) = (ip, "." ++ fp))
    by (apply span_digits_n_to_string; reflexivity).
  assert (Hvalue : (Z.of_N (Z.to_N (k / ten_pow 2)) * ten_pow 2
                    + Z.of_N (Z.to_N (k mod ten_pow 2)))%Z = k).
  { rewrite !Z2N.id by lia. pose proof (Z.div_mod k (ten_pow 2)).
    change (ten_pow 2) with 100%Z in *. lia. }
  destruct neg.
  - unfold parse_decimal.
    change (strip_minus ("-" ++ ip ++ "." ++ fp)) with (true, ip ++ "." ++ fp).
    cbv iota beta. rewrite Hspan.
    unfold ip at 1. rewrite parse_nat_n_to_string.
    cbn [append]. rewrite Hs, Hp, Hl, Hvalue. reflexivity.
  - destruct (n_to_string_head (Z.to_N (k / ten_pow 2))) as (c & s & E & Hc & _).
    fold ip in E.
    assert (Hstrip : strip_minus (ip ++ "." ++ fp) = (false, ip ++ "." ++ fp)).
    { rewrite E. simpl. apply (strip_minus_digit c _ Hc). }
    unfold parse_decimal. cbn [append] in *. rewrite Hstrip. rewrite Hspan.
    unfold ip at 1. rewrite parse_nat_n_to_string.
    rewrite Hs, Hp, Hl, Hvalue. reflexivity.
Qed.

Lemma fixed_string_not_special (k : Z) (neg : bool) :
  (0 <= k)%Z ->
  let s := (if neg then "-" else "") ++ fixed_digits 2 k in
  String.eqb s "" = false /\ String.eqb s "NaN" = false.
Proof.
  intros Hk s. subst s. unfold fixed_digits.
  assert (Hq : (0 <= k / ten_pow 2)%Z) by (apply Z.div_pos; [lia|reflexivity]).
  rewrite (z_to_string_nonneg (k / ten_pow 2)) by lia.
  destruct (n_to_string_head (Z.to_N (k / ten_pow 2))) as (c & s & E & Hc & _).
  rewrite E. destruct neg; cbn [append]; split; try reflexivity;
    destruct c as [[|] [|] [|] [|] [|] [|] [|] [|]]; try reflexivity; discriminate.
Qed.

(** [Number(x.toFixed(2))] below the exponent-notation range: the double
    nearest to the hundredths shown. *)
Lemma to_fixed_2_value (x : Q) :
  Qabs x < inject_Z (ten_pow 21) ->
  exists q, string_to_number rt (to_fixed rt 2 (Fin x)) = Fin (round64 q)
    /\ q == (if Qlt_bool x 0 then -1 else 1)
            * (inject_Z (round_half_up (Qabs x * 100)) / 100).
Proof.
  intros Hx. unfold to_fixed.
  destruct (Qle_bool (inject_Z (ten_pow 21)) (Qabs x)) eqn:E.
  { apply Qle_bool_iff in E. lra. }
  change (inject_Z (ten_pow 2)) with 100.
  set (k := round_half_up (Qabs x * 100)).
  assert (Hk : (0 <= k)%Z).
  { apply round_half_up_nonneg. pose proof (Qabs_nonneg x). nra. }
  unfold string_to_number.
  destruct (Qlt_bool x 0).
  - destruct (fixed_string_not_special k true Hk) as [H1 H2].
    rewrite H1, H2, (parse_fixed_digits k true Hk).
    eexists. split; [reflexivity|].
    rewrite (Qred_correct (k # 100)), (Qmake_Qdiv k 100).
    change (inject_Z (Z.pos 100)) with 100. field.
  - destruct (fixed_string_not_special k false Hk) as [H1 H2].
    rewrite H1, H2, (parse_fixed_digits k false Hk).
    eexists. split; [reflexivity|].
    rewrite (Qred_correct (k # 100)), (Qmake_Qdiv k 100).
    change (inject_Z (Z.pos 100)) with 100. field.
Qed.

End ToFixed.

(** ** Reading a summary *)

Lemma js_or_fin (q : Q) :
  exists q', js_or (VNum (Fin q)) (vnum 0) = VNum (Fin q') /\ q' == q.
Proof.
  unfold js_or, truthy. destruct (Qeq_bool q 0) eqn:E; simpl.
  - exists (inject_Z 0). split; [reflexivity|]. apply Qeq_bool_eq in E. now rewrite E.
  - exists q. split; reflexivity.
Qed.

Section Shape.
Context (o ms : obj).
Hypothesis Hmetrics : assoc "metrics" o = Some (VObj ms).
Hypothesis Hwfms : all_fields wf_metric ms = true.

Lemma metric_value_inv (name stat : string) (v : value) :
  metric_value (VObj o) name stat = Ok v ->
  truthy (field ms name) = true /\ stat_of (field ms name) stat = v.
Proof.
  destruct (metric_cases ms Hwfms name) as [E|(mo & vs & E & Ev & _)].
  - unfold metric_value. rewrite (metric_ok o ms Hmetrics), E. discriminate.
  - rewrite (metric_value_ok o ms Hmetrics _ _ _ _ E Ev). intros [= <-].
    rewrite E. unfold stat_of. rewrite Ev. auto.
Qed.

Lemma metric_absent (name : string) :
  metric (VObj o) name = Ok VUndef -> truthy (field ms name) = false.
Proof.
  rewrite (metric_ok o ms Hmetrics). now intros [= ->].
Qed.

End Shape.

Lemma metrics_nonempty_same (ms : obj) :
  (forall k m, In (k, m) ms -> thresholds_of m <> Some []) ->
  metrics_with_nonempty_thresholds ms = metrics_with_thresholds ms.
Proof.
  unfold metrics_with_nonempty_thresholds, metrics_with_thresholds.
  induction ms as [|[k m] ms IH]; intros H; [reflexivity|].
  assert (Hm := H k m (or_introl eq_refl)).
  assert (IH' := IH (fun k' m' Hin => H k' m' (or_intror Hin))).
  cbn [filter snd].
  destruct (thresholds_of m) as [[|t ts]|] eqn:Et; [now elim Hm| |];
    cbn [List.length]; rewrite IH'; reflexivity.
Qed.

(** *** Counts of requests *)

Lemma count_value (q : Q) :
  is_count (VNum (Fin q)) = true ->
  exists z, q == inject_Z z /\ (0 <= z <= max_safe_integer)%Z.
Proof.
  unfold is_count. intros H.
  apply andb_prop in H. destruct H as [H Hmax].
  apply andb_prop in H. destruct H as [Hden Hmin].
  apply Pos.eqb_eq in Hden. apply Z.leb_le in Hmin, Hmax.
  exists (Qnum (Qred q)). split; [|lia].
  rewrite <- (Qred_correct q) at 1. destruct (Qred q) as [a b].
  simpl in Hden. subst b. reflexivity.
Qed.

(** The failed requests of a rate between 0 and 1 and a count [z] up to
    2^53 - 1: a whole number between 0 and [z]. *)
Lemma failed_requests_range (r n : Q) (z : Z) :
  0 <= r <= 1 -> n == inject_Z z -> (0 <= z <= max_safe_integer)%Z ->
  (0 <= round_half_up (round64 (r * n)) <= z)%Z.
Proof.
  intros Hr Hn Hz.
  assert (Hz' : 0 <= inject_Z z) by (change 0 with (inject_Z 0); rewrite <- Zle_Qle; lia).
  destruct (round64_bounds (r * n) z) as [Lo Hi]; [rewrite Hn; nra|rewrite Hn; nra|lia|].
  split.
  - now apply round_half_up_nonneg.
  - rewrite <- (round_half_up_integer z). now apply round_half_up_le.
Qed.

(** [a - b] on whole numbers, while operands and result are counts. *)
Lemma num_sub_counts (x y : Q) (a b : Z) :
  x == inject_Z a -> y == inject_Z b -> (0 <= b <= a)%Z -> (a <= max_safe_integer)%Z ->
  num_sub (Fin x) (Fin y) = Fin (inject_Z (a - b)).
Proof.
  intros Hx Hy Hb Ha. unfold num_sub. f_equal.
  apply round64_integer; [lia|].
  rewrite Hx, Hy. unfold Z.sub. rewrite inject_Z_plus, inject_Z_opp. reflexivity.
Qed.

(** ** The claims about the derived statistics *)

(** C1, as the code has it.  With [http_req_failed.values.rate = r], a rate
    between 0 and 1, and [http_reqs.values.count = n], a count up to
    2^53 - 1, [failedRequests] is the product [r * n] of the two doubles
    rounded to the nearest integer, [successfulRequests] is [n] minus that,
    and the two add up to [totalRequests], which is [n]; when
    [http_req_failed] is absent both stay at their default 0. *)
Theorem request_counts (rt : Runtime) (data : value) :
  wf_summary data = true ->
  (forall r n : Q,
     metric_value data "http_req_failed" "rate" = Ok (VNum (Fin r)) ->
     metric_value data "http_reqs" "count" = Ok (VNum (Fin n)) ->
     0 <= r <= 1 -> is_count (VNum (Fin n)) = true ->
     exists st, calculateStats rt data = Ok st
       /\ field st "failedRequests" = vnum (round_half_up (round64 (r * n)))
       /\ is_number (field st "successfulRequests")
            (n - inject_Z (round_half_up (round64 (r * n))))
       /\ is_number (field st "totalRequests") n
       /\ is_number (js_add rt (field st "successfulRequests") (field st "failedRequests")) n)
  /\ (metric data "http_req_failed" = Ok VUndef ->
      exists st, calculateStats rt data = Ok st
        /\ field st "failedRequests" = vnum 0
        /\ field st "successfulRequests" = vnum 0).
Proof.
  intros Hwf.
  destruct (wf_summary_inv data Hwf) as (o & ms & rg & -> & Hm & Hu & Hms & Hr & Hrg).
  destruct (calculateStats_derived rt o ms rg Hm Hu Hms Hr Hrg)
    as (st & E & Ht & Hno & Hyes & _).
  split.
  - intros r n Hrate Hcount Hr01 Hn.
    destruct (count_value n Hn) as (z & Hnz & Hz).
    destruct (metric_value_inv o ms Hm Hms _ _ _ Hrate) as [Tf Sf].
    destruct (metric_value_inv o ms Hm Hms _ _ _ Hcount) as [Tr Sr].
    destruct (Hyes Tf) as (Hfailed & Hsucc & _).
    rewrite Tr, Sr in Ht. rewrite Sf in Hfailed.
    destruct (js_or_fin r) as (r' & Er & Hr').
    destruct (js_or_fin n) as (n' & En & Hn').
    rewrite Er in Hfailed. rewrite En in Ht. rewrite Ht in Hfailed, Hsucc.
    set (f := round_half_up (round64 (r * n))).
    assert (Hf : field st "failedRequests" = vnum f).
    { rewrite Hfailed. unfold js_round, js_mul, to_number, num_mul, math_round, vnum.
      do 3 f_equal. unfold f. f_equal. apply round64_comp. now rewrite Hr', Hn'. }
    pose proof (failed_requests_range r n z Hr01 Hnz Hz) as Hrange. fold f in Hrange.
    exists st. split; [exact E|]. split; [exact Hf|].
    rewrite Hsucc, Hf, Ht. unfold js_sub, vnum, to_number.
    rewrite (num_sub_counts n' (inject_Z f) z f) by (try reflexivity; try lia; now rewrite Hn').
    unfold js_add, to_number, num_add, is_number. cbn [concatenates orb].
    rewrite (round64_integer z (inject_Z (z - f) + inject_Z f))
      by (try lia; rewrite <- inject_Z_plus; now replace (z - f + f)%Z with z by lia).
    rewrite Hn', Hnz. unfold Z.sub.
    rewrite inject_Z_plus, inject_Z_opp. repeat split; reflexivity.
  - intros Habs. pose proof (metric_absent o ms Hm _ Habs) as Tf.
    destruct (Hno Tf) as (A & B & _). exists st. auto.
Qed.

(** The double of the rate 0.35 is a little below 0.35; its product with 10
    requests rounds to the double 3.5, and 4 are counted as failed. *)
Lemma request_counts_example :
  wf_summary (requests_summary (round64 (35 # 100)) 10) = true
  /\ 0 <= round64 (35 # 100) <= 1
  /\ exists st,
       calculateStats sample_runtime (requests_summary (round64 (35 # 100)) 10) = Ok st
       /\ field st "failedRequests" = vnum 4
       /\ is_number (field st "successfulRequests") 6
       /\ is_number (field st "totalRequests") 10
       /\ is_number (js_add sample_runtime (field st "successfulRequests")
                       (field st "failedRequests")) 10.
Proof.
  assert (Hr : 0 <= round64 (35 # 100) <= 1) by (split; vm_compute; discriminate).
  split; [reflexivity|]. split; [exact Hr|].
  exact (proj1 (request_counts sample_runtime (requests_summary (round64 (35 # 100)) 10)
                  eq_refl)
           (round64 (35 # 100)) 10 eq_refl eq_refl Hr eq_refl).
Defined.

(** C1 as stated fails beyond 2^53: with 2^53 + 2 requests and a rate of
    2^-53 one request is counted as failed and 2^53 as successful, and the
    two add up to 2^53 + 1, which in binary64 is 2^53. *)
Lemma request_counts_beyond_safe_integers :
  wf_summary (requests_summary (1 # 9007199254740992) 9007199254740994) = true
  /\ derived_field sample_runtime
       (requests_summary (1 # 9007199254740992) 9007199254740994) "totalRequests"
     = Ok (vnum 9007199254740994)
  /\ derived_field sample_runtime
       (requests_summary (1 # 9007199254740992) 9007199254740994) "failedRequests"
     = Ok (vnum 1)
  /\ derived_field sample_runtime
       (requests_summary (1 # 9007199254740992) 9007199254740994) "successfulRequests"
     = Ok (vnum 9007199254740992)
  /\ js_add sample_runtime (vnum 9007199254740992) (vnum 1) = vnum 9007199254740992
  /\ (9007199254740992 + 1 <> 9007199254740994)%Z.
Proof. repeat split. discriminate. Qed.

(** C3, as the code has it.  [thresholdCount] is the number of metrics that
    carry a thresholds mapping, whether or not the mapping has an entry (one
    per metric, not one per expression), and [thresholdFailures] is the number
    of threshold expressions whose [ok] flag is falsy; when no mapping is
    empty the count is that of the metrics with a non-empty mapping. *)
Theorem threshold_tally (rt : Runtime) (data : value) (ms : obj) :
  wf_summary data = true ->
  get data "metrics" = Ok (VObj ms) ->
  exists st, calculateStats rt data = Ok st
    /\ field st "thresholdCount" = vnum (Z.of_nat (metrics_with_thresholds ms))
    /\ field st "thresholdFailures" = vnum (Z.of_nat (failed_thresholds ms))
    /\ ((forall k m, In (k, m) ms -> thresholds_of m <> Some []) ->
        field st "thresholdCount" = vnum (Z.of_nat (metrics_with_nonempty_thresholds ms))).
Proof.
  intros Hwf Hget.
  destruct (wf_summary_inv data Hwf) as (o & ms' & rg & -> & Hm & Hu & Hms & Hr & Hrg).
  assert (ms' = ms) as ->.
  { unfold get, field in Hget. rewrite Hm in Hget. congruence. }
  destruct (calculateStats_derived rt o ms rg Hm Hu Hms Hr Hrg)
    as (st & E & _ & _ & _ & Hc & Hf & _).
  exists st. split; [exact E|]. split; [exact Hc|]. split; [exact Hf|].
  intros Hne. now rewrite (metrics_nonempty_same ms Hne).
Qed.

(** The scenario of the specification: two metrics with one threshold each,
    one [ok: true] and one [ok: false]. *)
Lemma threshold_tally_example :
  wf_summary sample_summary = true
  /\ get sample_summary "metrics" = Ok (VObj two_thresholds_metrics)
  /\ exists st, calculateStats sample_runtime sample_summary = Ok st
       /\ field st "thresholdCount" = vnum 2
       /\ field st "thresholdFailures" = vnum 1.
Proof.
  split; [reflexivity|]. split; [reflexivity|].
  destruct (threshold_tally sample_runtime sample_summary two_thresholds_metrics
              eq_refl eq_refl) as (st & E & Hc & Hf & _).
  exists st. split; [exact E|]. split; [exact Hc|exact Hf].
Defined.

(** C3 as stated fails: a metric whose thresholds mapping is empty is counted. *)
Lemma empty_thresholds_counted :
  wf_summary empty_thresholds_summary = true
  /\ metrics_with_nonempty_thresholds empty_thresholds_metrics = 0%nat
  /\ derived_field sample_runtime empty_thresholds_summary "thresholdCount" = Ok (vnum 1).
Proof. repeat split. Qed.

(** C4, as the code has it.  [checkPasses] and [checkFailures] are the sums
    of [passes] and [fails] over the root group's checks and the checks of
    each direct child group (nothing below is read), and [totalChecks] is
    their sum, as long as the two sums together stay within 2^53 - 1;
    [totalChecks] is [checkPasses + checkFailures] on every input for which
    the statistics are computed at all. *)
Theorem check_tally (rt : Runtime) (data : value) :
  (forall st, calculateStats rt data = Ok st ->
     field st "totalChecks"
     = js_add rt (field st "checkPasses") (field st "checkFailures"))
  /\ (forall root, wf_summary data = true -> get data "root_group" = Ok root ->
      (tally "passes" root + tally "fails" root <= max_safe_integer)%Z ->
      exists st, calculateStats rt data = Ok st
        /\ field st "checkPasses" = vnum (tally "passes" root)
        /\ field st "checkFailures" = vnum (tally "fails" root)
        /\ field st "totalChecks" = vnum (tally "passes" root + tally "fails" root)).
Proof.
  split.
  - intros st. unfold calculateStats.
    repeat match goal with
           | |- context [bind ?m _] =>
               match m with
               | bind _ _ => fail 1
               | _ => destruct m; cbn [bind]; [|discriminate]
               end
           end.
    intros [= <-]. unfold stats_total_checks.
    rewrite field_set_same, !field_set_other by reflexivity. reflexivity.
  - intros root Hwf Hget Hmax.
    destruct (wf_summary_inv data Hwf) as (o & ms & rg & -> & Hm & Hu & Hms & Hr & Hrg).
    assert (root = VObj rg) as ->.
    { unfold get, field in Hget. rewrite Hr in Hget. congruence. }
    destruct (calculateStats_derived rt o ms rg Hm Hu Hms Hr Hrg)
      as (st & E & _ & _ & _ & _ & _ & (p & Hp & Cp) & (f & Hf & Cf) & (t & Ht & Ct) & _).
    pose proof (tally_nonneg rg Hrg "passes" (or_introl eq_refl)) as Np.
    pose proof (tally_nonneg rg Hrg "fails" (or_intror eq_refl)) as Nf.
    rewrite (counts_as_exact _ _ Cp) in Hp by lia.
    rewrite (counts_as_exact _ _ Cf) in Hf by lia.
    rewrite (counts_as_exact _ _ Ct) in Ht by lia.
    exists st. auto.
Qed.

Lemma check_tally_example :
  wf_summary sample_summary = true
  /\ get sample_summary "root_group" = Ok check_group_root
  /\ (tally "passes" check_group_root + tally "fails" check_group_root
      <= max_safe_integer)%Z
  /\ exists st, calculateStats sample_runtime sample_summary = Ok st
       /\ field st "checkPasses" = vnum 4
       /\ field st "checkFailures" = vnum 1
       /\ field st "totalChecks" = vnum 5.
Proof.
  assert (Hb : (tally "passes" check_group_root + tally "fails" check_group_root
                <= max_safe_integer)%Z) by (vm_compute; discriminate).
  split; [reflexivity|]. split; [reflexivity|]. split; [exact Hb|].
  exact (proj2 (check_tally sample_runtime sample_summary) check_group_root
           eq_refl eq_refl Hb).
Defined.

(** C4 as stated fails beyond 2^53: of two checks with 2^53 - 1 and 2
    passes, whose sum is 2^53 + 1, the code counts 2^53. *)
Lemma tally_beyond_safe_integers :
  wf_summary large_tally_summary = true
  /\ get large_tally_summary "root_group" = Ok large_tally_root
  /\ tally "passes" large_tally_root = 9007199254740993%Z
  /\ derived_field sample_runtime large_tally_summary "checkPasses"
     = Ok (vnum 9007199254740992)
  /\ derived_field sample_runtime large_tally_summary "totalChecks"
     = Ok (vnum 9007199254740992).
Proof. repeat split. Qed.

(** What lies below a child group is not read: the nested group's checks
    (7 passes, 2 fails) are not in the tally. *)
Lemma nested_groups_ignored :
  wf_summary nested_summary = true
  /\ derived_field sample_runtime nested_summary "checkPasses" = Ok (vnum 1)
  /\ derived_field sample_runtime nested_summary "checkFailures" = Ok (vnum 0)
  /\ derived_field sample_runtime nested_summary "totalChecks" = Ok (vnum 1).
Proof. repeat split. Qed.

(** ** Rates *)

(** Below 128 two neighbouring doubles are at most 2^-46 apart, so rounding
    moves a number by at most 2^-47. *)
Lemma round64_percent (x : Q) (b : Z) :
  0 <= x -> x <= inject_Z b -> (b <= 127)%Z ->
  0 <= round64 x /\ round64 x <= inject_Z b
  /\ x - (1 # 140737488355328) <= round64 x /\ round64 x <= x + (1 # 140737488355328).
Proof.
  intros H0 H1 Hb.
  destruct (round64_bounds x b H0 H1) as [A B]; [unfold max_safe_integer; lia|].
  assert (Hb' : inject_Z b <= 127).
  { change 127 with (inject_Z 127). now rewrite <- Zle_Qle. }
  destruct (round64_close x 6 H0 ltac:(lia)) as [C D].
  { change (inject_Z (2 ^ (6 + 1))) with 128. lra. }
  change (1 # Z.to_pos (2 ^ (53 - 6))) with (1 # 140737488355328) in C, D.
  auto.
Qed.

Section Rates.
Context (rt : Runtime).

(** [toFixed(2)] on a number that is not negative, below the range of the
    exponent notation. *)
Lemma to_fixed_2_nonneg (x : Q) :
  0 <= x -> x < inject_Z (ten_pow 21) ->
  to_fixed rt 2 (Fin x) = fixed_digits 2 (round_half_up (x * 100)).
Proof.
  intros H0 H1. unfold to_fixed.
  assert (Hs : Qlt_bool x 0 = false).
  { destruct (Qlt_bool x 0) eqn:E; [|reflexivity]. apply Qlt_bool_iff in E. lra. }
  rewrite Hs. cbv zeta.
  assert (Hb : Qle_bool (inject_Z (ten_pow 21)) (Qabs x) = false).
  { destruct (Qle_bool (inject_Z (ten_pow 21)) (Qabs x)) eqn:E; [|reflexivity].
    apply Qle_bool_iff in E. rewrite Qabs_pos in E by exact H0. lra. }
  rewrite Hb. cbn [append]. f_equal. apply round_half_up_comp.
  rewrite Qabs_pos by exact H0. reflexivity.
Qed.

(** A number between 0 and 100 within a quarter of a hundredth of [m]
    hundredths prints as them. *)
Lemma to_fixed_2_near (y : Q) (m : Z) :
  0 <= y -> y <= 101 ->
  inject_Z m - (1 # 4) <= y * 100 -> y * 100 <= inject_Z m + (1 # 4) ->
  to_fixed rt 2 (Fin y) = fixed_digits 2 m.
Proof.
  intros H0 H1 Lo Hi. rewrite to_fixed_2_nonneg.
  - f_equal. now apply round_half_up_near.
  - exact H0.
  - change (inject_Z (ten_pow 21)) with (1000000000000000000000 # 1). lra.
Qed.

(** The text of [m] hundredths is read as the double nearest to them. *)
Lemma hundredths_read (m : Z) :
  (0 <= m <= 10000)%Z ->
  exists e, string_to_number rt (fixed_digits 2 m) = Fin e
    /\ 0 <= e /\ e <= 100
    /\ inject_Z m * (1 # 100) - (1 # 140737488355328) <= e
    /\ e <= inject_Z m * (1 # 100) + (1 # 140737488355328)
    /\ (m = 0%Z -> e == 0).
Proof.
  intros [Hm0 Hm1].
  destruct (fixed_string_not_special m false Hm0) as [H1 H2].
  pose proof (parse_fixed_digits m false Hm0) as P.
  cbn [append] in H1, H2, P.
  unfold string_to_number. rewrite H1, H2, P.
  exists (round64 (Qred (m # 100))). split; [reflexivity|].
  assert (Em : Qred (m # 100) == inject_Z m * (1 # 100)).
  { rewrite Qred_correct, (Qmake_Qdiv m 100). change (inject_Z (Z.pos 100)) with 100. field. }
  assert (A : 0 <= inject_Z m) by (change 0 with (inject_Z 0); rewrite <- Zle_Qle; lia).
  assert (B : inject_Z m <= 10000).
  { change 10000 with (inject_Z 10000). rewrite <- Zle_Qle. lia. }
  destruct (round64_percent (Qred (m # 100)) 100) as (C & D & E & F);
    [rewrite Em; lra|rewrite Em; change (inject_Z 100) with 100; lra|lia|].
  change (inject_Z 100) with 100 in D.
  repeat split; try assumption; try lra.
  intros ->. reflexivity.
Qed.

(** The two texts for a product [x] between 0 and 100: [k] hundredths, the
    complement [10000 - k], and a sum that prints as 100.00. *)
Lemma percent_texts (x : Q) :
  0 <= x -> x <= 100 ->
  exists (k : Z) (e s : Q),
    k = round_half_up (x * 100) /\ (0 <= k <= 10000)%Z
    /\ to_fixed rt 2 (Fin x) = fixed_digits 2 k
    /\ string_to_number rt (fixed_digits 2 k) = Fin e
    /\ (0 < e <-> (1 <= k)%Z)
    /\ to_fixed rt 2 (num_sub (Fin 100) (Fin e)) = fixed_digits 2 (10000 - k)
    /\ string_to_number rt (fixed_digits 2 (10000 - k)) = Fin s
    /\ to_fixed rt 2 (num_add (Fin e) (Fin s)) = "100.00".
Proof.
  intros H0 H1.
  set (k := round_half_up (x * 100)).
  assert (Hk0 : (0 <= k)%Z) by (apply round_half_up_nonneg; lra).
  assert (Hk1 : (k <= 10000)%Z).
  { rewrite <- (round_half_up_integer 10000). apply round_half_up_le.
    change (inject_Z 10000) with 10000. lra. }
  assert (A : 0 <= inject_Z k) by (change 0 with (inject_Z 0); rewrite <- Zle_Qle; lia).
  assert (B : inject_Z k <= 10000).
  { change 10000 with (inject_Z 10000). rewrite <- Zle_Qle. lia. }
  destruct (hundredths_read k (conj Hk0 Hk1)) as (e & Ee & He0 & He1 & He2 & He3 & Hez).
  destruct (hundredths_read (10000 - k) ltac:(lia)) as (s & Es & Hs0 & Hs1 & Hs2 & Hs3 & _).
  assert (Ek : inject_Z (10000 - k) == 10000 - inject_Z k).
  { unfold Z.sub. rewrite inject_Z_plus, inject_Z_opp. reflexivity. }
  rewrite Ek in Hs2, Hs3.
  destruct (round64_percent (100 - e) 100) as (D0 & D1 & D2 & D3);
    [lra|change (inject_Z 100) with 100; lra|lia|].
  destruct (round64_percent (e + s) 101) as (T0 & T1 & T2 & T3);
    [lra|change (inject_Z 101) with 101; lra|lia|].
  change (inject_Z 100) with 100 in D1. change (inject_Z 101) with 101 in T1.
  exists k, e, s. split; [reflexivity|]. split; [lia|]. split; [|split; [exact Ee|split]].
  - apply to_fixed_2_nonneg; [exact H0|].
    change (inject_Z (ten_pow 21)) with (1000000000000000000000 # 1). lra.
  - split; intros H.
    + destruct (Z.eq_dec k 0) as [Z0|N0]; [|lia].
      specialize (Hez Z0). lra.
    + assert (K1 : 1 <= inject_Z k).
      { change 1 with (inject_Z 1). rewrite <- Zle_Qle. lia. }
      lra.
  - split; [|split; [exact Es|]].
    + unfold num_sub. apply to_fixed_2_near; [exact D0|lra| |]; rewrite Ek; lra.
    + unfold num_add.
      change "100.00" with (fixed_digits 2 10000).
      apply to_fixed_2_near; [exact T0|exact T1| |];
        change (inject_Z 10000) with 10000; lra.
Qed.

End Rates.

(** The two rate fields as the code fills them. *)
Lemma rates_formatted (rt : Runtime) (data : value) (r : Q) :
  wf_summary data = true ->
  metric_value data "http_req_failed" "rate" = Ok (VNum (Fin r)) ->
  exists st, calculateStats rt data = Ok st
    /\ field st "errorRate" = VStr (to_fixed rt 2 (Fin (round64 (r * 100))))
    /\ field st "successRate"
       = VStr (to_fixed rt 2 (num_sub (Fin 100) (to_number rt (field st "errorRate")))).
Proof.
  intros Hwf Hrate.
  destruct (wf_summary_inv data Hwf) as (o & ms & rg & -> & Hm & Hu & Hms & Hr & Hrg).
  destruct (calculateStats_derived rt o ms rg Hm Hu Hms Hr Hrg)
    as (st & E & _ & _ & Hyes & _).
  destruct (metric_value_inv o ms Hm Hms _ _ _ Hrate) as [Tf Sf].
  destruct (Hyes Tf) as (_ & _ & He & Hs). rewrite Sf in He.
  destruct (js_or_fin r) as (r' & Er & Hr'). rewrite Er in He.
  assert (He' : field st "errorRate" = VStr (to_fixed rt 2 (Fin (round64 (r * 100))))).
  { rewrite He. do 3 f_equal. unfold js_mul, to_number, vnum, num_mul.
    f_equal. apply round64_comp. rewrite Hr'. reflexivity. }
  exists st. split; [exact E|]. split; [exact He'|].
  rewrite Hs. reflexivity.
Qed.

(** The product [r * 100] of a rate between 0 and 1 lies between 0 and 100. *)
Lemma percent_range (r : Q) :
  0 <= r <= 1 -> 0 <= round64 (r * 100) /\ round64 (r * 100) <= 100.
Proof.
  intros Hr. apply (round64_bounds (r * 100) 100); [lra| |discriminate].
  change (inject_Z 100) with 100. lra.
Qed.

(** C6, as the code has it.  With [http_req_failed.values.rate = r], a rate
    between 0 and 1, [errorRate] is the product [r * 100] of the two doubles
    formatted to two decimals, [successRate] is 100 minus the number read
    back from that text, formatted to two decimals, and the two add up to
    what renders as exactly 100.00. *)
Theorem error_and_success_rate (rt : Runtime) (data : value) (r : Q) :
  wf_summary data = true ->
  metric_value data "http_req_failed" "rate" = Ok (VNum (Fin r)) ->
  0 <= r <= 1 ->
  exists st, calculateStats rt data = Ok st
    /\ field st "errorRate" = VStr (to_fixed rt 2 (Fin (round64 (r * 100))))
    /\ field st "successRate"
       = VStr (to_fixed rt 2 (num_sub (Fin 100) (to_number rt (field st "errorRate"))))
    /\ to_fixed rt 2 (num_add (to_number rt (field st "errorRate"))
                              (to_number rt (field st "successRate")))
       = "100.00".
Proof.
  intros Hwf Hrate Hr.
  destruct (rates_formatted rt data r Hwf Hrate) as (st & E & He & Hs).
  exists st. split; [exact E|]. split; [exact He|]. split; [exact Hs|].
  destruct (percent_range r Hr) as [X0 X1].
  destruct (percent_texts rt (round64 (r * 100)) X0 X1)
    as (k & e & s & _ & _ & Tk & Ee & _ & Ts & Es & Sum).
  rewrite Hs, He. cbn [to_number]. rewrite Tk, Ee, Ts, Es. exact Sum.
Qed.

(** The double of the rate 0.00065 is a little below 0.00065, and its
    product with 100 rounds to a double a little above 0.065: the error rate
    shows as 0.07 and the success rate as 99.93. *)
Lemma error_and_success_rate_example :
  wf_summary (rate_only_summary (round64 (13 # 20000))) = true
  /\ 0 <= round64 (13 # 20000) <= 1
  /\ exists st,
       calculateStats sample_runtime (rate_only_summary (round64 (13 # 20000))) = Ok st
       /\ field st "errorRate" = VStr "0.07"
       /\ field st "successRate" = VStr "99.93"
       /\ to_fixed sample_runtime 2
            (num_add (to_number sample_runtime (field st "errorRate"))
                     (to_number sample_runtime (field st "successRate")))
          = "100.00".
Proof.
  assert (Hr : 0 <= round64 (13 # 20000) <= 1) by (split; vm_compute; discriminate).
  split; [reflexivity|]. split; [exact Hr|].
  destruct (error_and_success_rate sample_runtime
              (rate_only_summary (round64 (13 # 20000))) (round64 (13 # 20000))
              eq_refl eq_refl Hr)
    as (st & E & He & Hs & Hsum).
  exists st. split; [exact E|]. split; [exact He|]. split; [|exact Hsum].
  rewrite Hs, He. reflexivity.
Defined.

(** C6 as stated fails for a rate that is no proportion: with a rate of
    10^15 the error rate is 10^17, of which the double 100 - 10^17 keeps
    -99999999999999904, and the two add up to 96. *)
Lemma rate_out_of_range_sum :
  wf_summary (rate_only_summary (inject_Z (10 ^ 15))) = true
  /\ metric_value (rate_only_summary (inject_Z (10 ^ 15))) "http_req_failed" "rate"
     = Ok (VNum (Fin (inject_Z (10 ^ 15))))
  /\ derived_field sample_runtime (rate_only_summary (inject_Z (10 ^ 15))) "errorRate"
     = Ok (VStr "100000000000000000.00")
  /\ derived_field sample_runtime (rate_only_summary (inject_Z (10 ^ 15))) "successRate"
     = Ok (VStr "-99999999999999904.00")
  /\ to_fixed sample_runtime 2
       (num_add (to_number sample_runtime (VStr "100000000000000000.00"))
                (to_number sample_runtime (VStr "-99999999999999904.00")))
     = "96.00".
Proof. repeat split. Qed.

(** The success rate comes from the rounded error rate, not from the rate: a
    rate of 0.125% shows as 0.13 and 99.87, where 100 - 0.125 would show as
    99.88. *)
Lemma success_rate_from_rounded_error_rate :
  derived_field sample_runtime (rate_only_summary (round64 (1 # 800))) "errorRate"
  = Ok (VStr "0.13")
  /\ derived_field sample_runtime (rate_only_summary (round64 (1 # 800))) "successRate"
     = Ok (VStr "99.87")
  /\ to_fixed sample_runtime 2 (Fin (100 - (1 # 8))) = "99.88".
Proof. repeat split. Qed.





(** ** Escaping *)

Lemma str_app_nil (s : string) : s ++ "" = s.
Proof. induction s; simpl; congruence. Qed.

Lemma str_app_assoc (a b c : string) : (a ++ b) ++ c = a ++ b ++ c.
Proof. induction a; simpl; congruence. Qed.

Lemma concat_cons (x : string) (xs : list string) :
  String.concat "" (x :: xs) = x ++ String.concat "" xs.
Proof. destruct xs; simpl; [now rewrite str_app_nil|reflexivity]. Qed.

Lemma escape_cons (c : ascii) (s : string) :
  escape (String c s) = entity c ++ escape s.
Proof. unfold escape. cbn [list_ascii_of_string map]. apply concat_cons. Qed.

Lemma escape_app (s1 s2 : string) : escape (s1 ++ s2) = escape s1 ++ escape s2.
Proof.
  induction s1 as [|c s1 IH]; [reflexivity|].
  cbn [append]. rewrite !escape_cons, IH. now rewrite str_app_assoc.
Qed.

Lemma entity_other (c : ascii) : html_special c = false -> entity c = String c "".
Proof.
  unfold html_special, entity. intros H.
  repeat (apply orb_false_elim in H; destruct H as [H ?]).
  repeat match goal with E : Ascii.eqb _ _ = false |- _ => rewrite E; clear E end.
  reflexivity.
Qed.

Lemma entity_lookup (rt : Runtime) (c : ascii) :
  html_special c = true ->
  to_string rt (field escape_map (String c "")) = entity c.
Proof.
  unfold html_special, entity. intros H.
  destruct (Ascii.eqb_spec c "&") as [E|E]; [subst c; reflexivity|clear E].
  destruct (Ascii.eqb_spec c "<") as [E|E]; [subst c; reflexivity|clear E].
  destruct (Ascii.eqb_spec c ">") as [E|E]; [subst c; reflexivity|clear E].
  destruct (Ascii.eqb_spec c "034") as [E|E]; [subst c; reflexivity|clear E].
  destruct (Ascii.eqb_spec c "'") as [E|E]; [subst c; reflexivity|clear E].
  discriminate.
Qed.

Lemma replace_class_escape (rt : Runtime) (s : string) :
  replace_class html_special (fun m => to_string rt (field escape_map m)) s = escape s.
Proof.
  induction s as [|c s IH]; [reflexivity|].
  cbn [replace_class]. rewrite IH, escape_cons. f_equal.
  destruct (html_special c) eqn:E;
    [now apply entity_lookup|symmetry; now apply entity_other].
Qed.

(** C9.  [escapeHtml] turns its argument into a string and rewrites that
    string character by character: [&], [<], [>], the double quote and the
    apostrophe become their entities and every other character stays where
    it is. *)
Theorem escapeHtml_characters (rt : Runtime) (text : value) :
  escapeHtml rt text = escape (to_string rt text)
  /\ (forall s1 c s2, to_string rt text = s1 ++ String c s2 ->
      escapeHtml rt text = escape s1 ++ entity c ++ escape s2)
  /\ entity "&" = "&amp;" /\ entity "<" = "&lt;" /\ entity ">" = "&gt;"
  /\ entity "034" = "&quot;" /\ entity "'" = "&#039;"
  /\ (forall c, In c ["&"; "<"; ">"; "034"; "'"]%char \/ entity c = String c "").
Proof.
  assert (H : escapeHtml rt text = escape (to_string rt text))
    by apply replace_class_escape.
  split; [exact H|]. split.
  - intros s1 c s2 E. rewrite H, E, escape_app, escape_cons. reflexivity.
  - repeat (split; [reflexivity|]).
    intros c. destruct (html_special c) eqn:E; [left|right; now apply entity_other].
    unfold html_special in E.
    repeat (apply orb_prop in E; destruct E as [E|E]);
      apply Ascii.eqb_eq in E; subst c; simpl; auto 10.
Qed.

(** A number is accepted and comes out as its digits. *)
Lemma escapeHtml_number : escapeHtml sample_runtime (vnum 42) = "42".
Proof. reflexivity. Qed.

Lemma escapeHtml_markup :
  escapeHtml sample_runtime (VStr "<a href='x'>T&C</a>")
  = "&lt;a href=&#039;x&#039;&gt;T&amp;C&lt;/a&gt;".
Proof. reflexivity. Qed.

(** ** Substrings *)

Lemma prefix_app (a b : string) : String.prefix a (a ++ b) = true.
Proof.
  induction a as [|c a IH]; simpl; [now destruct b|].
  destruct (ascii_dec c c); [exact IH|congruence].
Qed.

Lemma prefix_app_l (n a b : string) :
  String.prefix n a = true -> String.prefix n (a ++ b) = true.
Proof.
  revert a. induction n as [|c n IH]; intros a; [now destruct (a ++ b)|].
  destruct a as [|c' a]; [discriminate|]. cbn [append String.prefix].
  destruct (ascii_dec c c'); [apply IH|discriminate].
Qed.

Lemma occurs_app_l (needle a b : string) :
  occurs needle a = true -> occurs needle (a ++ b) = true.
Proof.
  induction a as [|c a IH]; cbn [append].
  - destruct needle; [now destruct b|discriminate].
  - cbn [occurs]. intros H. apply orb_prop in H. destruct H as [H|H].
    + pose proof (prefix_app_l _ (String c a) b H) as P. cbn [append] in P.
      now rewrite P.
    + rewrite (IH H). apply orb_true_r.
Qed.

Lemma occurs_app_r (needle a b : string) :
  occurs needle b = true -> occurs needle (a ++ b) = true.
Proof.
  intros H. induction a as [|c a IH]; cbn [append]; [exact H|].
  cbn [occurs]. rewrite IH. apply orb_true_r.
Qed.

Lemma occurs_app (needle before after : string) :
  occurs needle (before ++ needle ++ after) = true.
Proof.
  induction before as [|c before IH]; cbn [append].
  - destruct (needle ++ after) eqn:E; unfold occurs; fold occurs;
      rewrite <- E, prefix_app; reflexivity.
  - cbn [occurs]. rewrite IH. apply orb_true_r.
Qed.

(** ** The builders never throw on a well-formed summary *)

Lemma foldM_total {A S : Type} (body : S -> A -> result S) (good : A -> Prop)
  (xs : list A) :
  (forall x, In x xs -> good x) ->
  (forall acc x, good x -> exists acc', body acc x = Ok acc') ->
  forall acc, exists r, foldM body xs acc = Ok r.
Proof.
  intros Hgood Hbody. induction xs as [|x xs IH]; intros acc.
  - now exists acc.
  - destruct (Hbody acc x (Hgood x (or_introl eq_refl))) as [acc' E].
    cbn [foldM]. rewrite E. cbn [bind].
    apply IH. intros y Hy. apply Hgood. now right.
Qed.

Lemma get_total (v : value) (k : string) :
  nullish v = false -> exists r, get v k = Ok r.
Proof.
  destruct v; try discriminate; intros _; cbn [get]; eauto.
  - destruct (String.eqb k "length"); [eauto|]. destruct (parse_index k); eauto.
  - destruct (String.eqb k "length"); [eauto|]. destruct (parse_index k); eauto.
Qed.

Lemma truthy_not_nullish (v : value) : truthy v = true -> nullish v = false.
Proof. destruct v; auto; discriminate. Qed.

Lemma js_or_not_nullish (a b : value) : nullish b = false -> nullish (js_or a b) = false.
Proof.
  intros Hb. unfold js_or. destruct (truthy a) eqn:E; [now apply truthy_not_nullish|auto].
Qed.

Lemma key_field (p : value -> bool) (o : obj) (k : string) :
  all_fields p o = true -> In k (map fst o) -> p (field o k) = true.
Proof.
  intros Hall Hin. unfold field.
  destruct (assoc k o) as [v|] eqn:E; [eapply all_fields_assoc; eauto|].
  exfalso. induction o as [|[k' v'] o IH]; [exact Hin|].
  simpl in E, Hin, Hall. apply andb_prop in Hall.
  destruct (String.eqb_spec k k') as [->|Hne]; [discriminate|].
  destruct Hin as [->|Hin]; [now elim Hne|]. apply IH; tauto.
Qed.

(** Runs a loop that is known not to throw. *)
Ltac run_loop lemma :=
  match goal with
  | |- context [foldM _ _ ?a] =>
      let r := fresh "r" in
      let E := fresh "E" in
      destruct (lemma a) as [r E]; rewrite E; cbn [bind]
  end.

Section Render.
Context (rt : Runtime) (o ms rg : obj).
Hypothesis Hmetrics : assoc "metrics" o = Some (VObj ms).
Hypothesis Hwfms : all_fields wf_metric ms = true.
Hypothesis Hroot : assoc "root_group" o = Some (VObj rg).
Hypothesis Hwfroot : wf_root (VObj rg) = true.

Let data : value := VObj o.

Lemma metric_cell_ok (vs : obj) (stat : string) :
  all_fields is_num vs = true ->
  exists s, metric_cell rt (VObj vs) stat = Ok s.
Proof.
  intros Hn. unfold metric_cell. cbn [get bind].
  destruct (js_or_num (field vs stat) (field_cases _ _ _ Hn)) as [n ->].
  cbn [call_toFixed bind]. eauto.
Qed.

Lemma metrics_row_ok (html name : string) :
  exists html', metrics_row rt data html name = Ok html'.
Proof.
  unfold metrics_row. rewrite (metric_ok o ms Hmetrics). cbn [bind].
  destruct (metric_cases ms Hwfms name) as [E|(mo & vs & E & Ev & Hn & _)]; rewrite E.
  - cbn [truthy]. eauto.
  - cbn [truthy bind get]. rewrite Ev. cbn [bind].
    destruct (metric_cell_ok vs "avg" Hn) as [c1 ->]. cbn [bind].
    destruct (metric_cell_ok vs "min" Hn) as [c2 ->]. cbn [bind].
    destruct (metric_cell_ok vs "med" Hn) as [c3 ->]. cbn [bind].
    destruct (metric_cell_ok vs "max" Hn) as [c4 ->]. cbn [bind].
    destruct (metric_cell_ok vs "p(90)" Hn) as [c5 ->]. cbn [bind].
    destruct (metric_cell_ok vs "p(95)" Hn) as [c6 ->]. cbn [bind].
    eauto.
Qed.

Lemma metrics_rows_ok (html : string) :
  exists html', foldM (metrics_row rt data) standardMetrics html = Ok html'.
Proof.
  apply (foldM_total _ (fun _ => True)); [easy|].
  intros acc x _. apply metrics_row_ok.
Qed.

Lemma generateMetricsTable_ok : exists html, generateMetricsTable rt data = Ok html.
Proof.
  unfold generateMetricsTable. cbv zeta. run_loop metrics_rows_ok. eauto.
Qed.

Lemma check_item_ok (html : string) (check : value) :
  wf_check check = true -> exists html', check_item rt html check = Ok html'.
Proof.
  intros Hc. destruct (wf_check_inv check Hc) as (co & -> & _).
  unfold check_item. cbn [get bind].
  destruct (js_gt_num rt (field co "fails") 0); cbn [bind]; eauto.
Qed.

Lemma group_check_item_ok (html : string) (check : value) :
  wf_check check = true -> exists html', group_check_item rt html check = Ok html'.
Proof.
  intros Hc. unfold group_check_item.
  destruct (wf_check_inv check Hc) as (co & -> & _). cbn [get bind].
  now apply check_item_ok.
Qed.

Lemma checks_loop_ok (body : string -> value -> result string) (items : list value)
  (html : string) :
  (forall acc c, wf_check c = true -> exists acc', body acc c = Ok acc') ->
  forallb wf_check items = true ->
  exists html', foldM body items html = Ok html'.
Proof.
  intros Hbody Hwf.
  apply (foldM_total body (fun c => wf_check c = true)); [|exact Hbody].
  intros c Hin. exact (proj1 (forallb_forall _ _) Hwf c Hin).
Qed.

Lemma group_block_ok (html : string) (group : value) :
  wf_group group = true -> exists html', group_block rt html group = Ok html'.
Proof.
  destruct group as [| | | | | |go]; try discriminate. cbn [wf_group]. intros H.
  apply andb_prop in H. destruct H as [_ Hc].
  unfold group_block, and_then. cbn [get bind]. unfold opt_field in Hc.
  destruct (assoc "checks" go) as [cs|] eqn:Ecs.
  - assert (Ef : field go "checks" = cs) by (unfold field; now rewrite Ecs).
    rewrite Ef. destruct cs as [| | | | |items|]; try discriminate.
    cbn [truthy get bind]. rewrite String.eqb_refl. cbn [bind].
    destruct (js_gt_num rt (vnum (Z.of_nat (List.length items))) 0).
    + cbn [bind iterate].
      run_loop (fun a => checks_loop_ok (group_check_item rt) items a
                           group_check_item_ok Hc).
      eauto.
    + cbn [bind]. eauto.
  - assert (Ef : field go "checks" = VUndef) by (unfold field; now rewrite Ecs).
    rewrite Ef. cbn [truthy bind]. eauto.
Qed.

Lemma groups_loop_ok (gs : list value) (html : string) :
  forallb wf_group gs = true ->
  exists html', foldM (group_block rt) gs html = Ok html'.
Proof.
  intros Hwf. apply (foldM_total _ (fun g => wf_group g = true)).
  - intros g Hin. exact (proj1 (forallb_forall _ _) Hwf g Hin).
  - intros acc g Hg. now apply group_block_ok.
Qed.

Lemma generateChecksSection_ok : exists html, generateChecksSection rt data = Ok html.
Proof.
  unfold generateChecksSection, and_then. cbv zeta. unfold data.
  rewrite (root_ok o rg Hroot). cbn [bind get].
  cbn [wf_root] in Hwfroot. apply andb_prop in Hwfroot. destruct Hwfroot as [Hc Hg].
  unfold opt_field in Hc, Hg.
  assert (Hgroups : exists html1,
             (nonempty <- (if truthy (field rg "groups")
                           then len <- get (field rg "groups") "length" ;;
                                Ok (js_gt_num rt len 0)
                           else Ok false) ;;
              if nonempty
              then items <- iterate (field rg "groups") ;;
                   foldM (group_block rt) items ""
              else Ok "") = Ok html1).
  { destruct (assoc "groups" rg) as [gv|] eqn:Egs.
    - assert (Ef : field rg "groups" = gv) by (unfold field; now rewrite Egs).
      rewrite Ef. destruct gv as [| | | | |gs|]; try discriminate.
      cbn [truthy get bind]. rewrite String.eqb_refl. cbn [bind].
      destruct (js_gt_num rt (vnum (Z.of_nat (List.length gs))) 0); [|eauto].
      cbn [iterate bind]. now apply groups_loop_ok.
    - assert (Ef : field rg "groups" = VUndef) by (unfold field; now rewrite Egs).
      rewrite Ef. cbn [truthy bind]. eauto. }
  destruct Hgroups as [html1 E1].
  match goal with
  | |- context [bind ?m _] =>
      match m with
      | (if truthy (field rg "groups") then _ else _) => idtac
      end
  end.
  destruct (if truthy (field rg "groups")
            then len <- get (field rg "groups") "length" ;; Ok (js_gt_num rt len 0)
            else Ok false) as [nonempty|e] eqn:En; [|discriminate].
  cbn [bind] in E1 |- *.
  assert (Ehtml : (if nonempty
                   then items <- iterate (field rg "groups") ;;
                        foldM (group_block rt) items ""
                   else Ok "") = Ok html1) by (destruct nonempty; exact E1).
  clear E1.
  destruct nonempty; rewrite Ehtml; cbn [bind].
  all: destruct (assoc "checks" rg) as [cv|] eqn:Ecs;
    [ assert (Ef : field rg "checks" = cv) by (unfold field; now rewrite Ecs);
      rewrite Ef; destruct cv as [| | | | |cs|]; try discriminate;
      cbn [truthy get bind]; rewrite String.eqb_refl; cbn [bind];
      destruct (js_gt_num rt (vnum (Z.of_nat (List.length cs))) 0);
      cbn [iterate bind];
      [ run_loop (fun a => checks_loop_ok (check_item rt) cs a check_item_ok Hc)
      | ];
      match goal with |- context [if ?b then _ else _] => destruct b end; eauto
    | assert (Ef : field rg "checks" = VUndef) by (unfold field; now rewrite Ecs);
      rewrite Ef; cbn [truthy bind];
      match goal with |- context [if ?b then _ else _] => destruct b end; eauto ].
Qed.

(** The thresholds section. *)
Lemma threshold_item_ok (name : string) (ts : obj) (st : thresholds_state)
  (k : string) :
  all_fields wf_threshold ts = true -> In k (map fst ts) ->
  exists st', threshold_item rt name (VObj ts) st k = Ok st'.
Proof.
  intros Hts Hin. unfold threshold_item. cbn [get bind].
  destruct (wf_threshold_inv _ (key_field _ _ _ Hts Hin)) as (to & b & -> & Hok).
  cbn [get bind]. eauto.
Qed.

Lemma thresholds_of_metric_ok (st : thresholds_state) (name : string) :
  In name (map fst ms) ->
  exists st', thresholds_of_metric rt data st name = Ok st'.
Proof.
  intros Hin. unfold thresholds_of_metric. rewrite (metric_ok o ms Hmetrics).
  destruct (wf_metric_inv _ (key_field _ _ _ Hwfms Hin)) as (mo & vs & -> & _ & _ & Ht).
  cbn [bind get]. unfold opt_field in Ht.
  destruct (assoc "thresholds" mo) as [tv|] eqn:Et.
  - assert (Ef : field mo "thresholds" = tv) by (unfold field; now rewrite Et).
    rewrite Ef. destruct tv as [| | | | | |ts]; try discriminate.
    cbn [wf_thresholds] in Ht. apply andb_prop in Ht. destruct Ht as [_ Hts].
    cbn [truthy bind own_keys].
    apply (foldM_total _ (fun k => In k (map fst ts))); [auto|].
    intros acc k Hk. now apply threshold_item_ok.
  - assert (Ef : field mo "thresholds" = VUndef) by (unfold field; now rewrite Et).
    rewrite Ef. cbn [truthy]. eauto.
Qed.

Lemma generateThresholdsSection_ok :
  exists html, generateThresholdsSection rt data = Ok html.
Proof.
  unfold generateThresholdsSection. cbv zeta.
  assert (E : get data "metrics" = Ok (VObj ms)).
  { unfold data, get, field. now rewrite Hmetrics. }
  rewrite E. cbn [bind own_keys].
  match goal with
  | |- context [foldM ?b ?xs ?a] =>
      destruct (foldM_total b (fun k => In k (map fst ms)) xs (fun _ H => H)
                  (fun acc0 k Hk => thresholds_of_metric_ok acc0 k Hk) a) as [r Er]
  end.
  rewrite Er. cbn [bind]. eauto.
Qed.

End Render.

Section Assembly.
Context (rt : Runtime).

Lemma generateTestInfoSection_ok (additionalInfo : value) :
  nullish additionalInfo = false ->
  exists html, generateTestInfoSection rt additionalInfo = Ok html.
Proof.
  intros Hn. unfold generateTestInfoSection. cbv zeta.
  match goal with
  | |- context [foldM ?b ?xs ?a] =>
      destruct (foldM_total b (fun _ => True) xs (fun _ _ => I)
                  (fun acc0 k _ =>
                     match get_total additionalInfo k Hn with
                     | ex_intro _ v Ev =>
                         ex_intro (fun r => b acc0 k = Ok r) _
                           (f_equal (fun g => bind g _) Ev)
                     end) a) as [r Er]
  end.
  rewrite Er. cbn [bind]. eauto.
Qed.

End Assembly.

(** ** The document *)

Lemma strict_eq_num_zero (v : value) : strict_eq_num v 0 = true <-> is_number v 0.
Proof.
  destruct v as [| | |[q|]| | |]; simpl; try (split; [discriminate|tauto]).
  apply Qeq_bool_iff.
Qed.

Lemma testStatus_zero (st : obj) :
  testStatus st = true
  <-> is_number (field st "failedRequests") 0
      /\ is_number (field st "checkFailures") 0
      /\ is_number (field st "thresholdFailures") 0.
Proof.
  unfold testStatus. rewrite !andb_true_iff, !strict_eq_num_zero. tauto.
Qed.

Lemma header_status_banner (rt : Runtime) (subtitle httpMethod : value) (b : bool) :
  header_status rt subtitle httpMethod b
  = banner_prefix rt subtitle httpMethod ++ status_banner b ++ banner_suffix subtitle.
Proof.
  unfold header_status, banner_prefix, banner_suffix.
  destruct (truthy subtitle); rewrite !concat_cons, ?str_app_assoc; cbn [String.concat];
    now rewrite ?str_app_assoc.
Qed.

Section Document.
Context (rt : Runtime) (o ms rg : obj).
Hypothesis Hmetrics : assoc "metrics" o = Some (VObj ms).
Hypothesis Hunique : unique_keys ms = true.
Hypothesis Hwfms : all_fields wf_metric ms = true.
Hypothesis Hroot : assoc "root_group" o = Some (VObj rg).
Hypothesis Hwfroot : wf_root (VObj rg) = true.

Lemma generateModernHTML_ok (title subtitle httpMethod additionalInfo : value)
  (st : obj) :
  nullish (field st "totalRequests") = false ->
  nullish (field st "successfulRequests") = false ->
  nullish additionalInfo = false ->
  exists doc rest,
    generateModernHTML rt (VObj o) title subtitle httpMethod additionalInfo st = Ok doc
    /\ doc = page_01 ++ escapeHtml rt title ++ page_02
             ++ status_gradient (testStatus st) ++ page_03
             ++ escapeHtml rt title ++ page_04
             ++ banner_prefix rt subtitle httpMethod
             ++ status_banner (testStatus st)
             ++ banner_suffix subtitle ++ rest.
Proof.
  intros Ht Hs Ha. unfold generateModernHTML. cbv zeta.
  assert (E1 : exists s, call_toLocaleString rt (field st "totalRequests") = Ok s)
    by (destruct (field st "totalRequests"); try discriminate; cbn; eauto).
  assert (E2 : exists s, call_toLocaleString rt (field st "successfulRequests") = Ok s)
    by (destruct (field st "successfulRequests"); try discriminate; cbn; eauto).
  assert (E3 : object_keys additionalInfo = Ok (own_keys additionalInfo))
    by (destruct additionalInfo; try discriminate; reflexivity).
  destruct E1 as [s1 ->]. destruct E2 as [s2 ->]. rewrite E3. cbn [bind].
  destruct (generateMetricsTable_ok rt o ms Hmetrics Hwfms) as [h1 ->].
  destruct (generateChecksSection_ok rt o rg Hroot Hwfroot) as [h2 ->].
  destruct (generateThresholdsSection_ok rt o ms Hmetrics Hwfms) as [h3 ->].
  cbn [bind].
  destruct (generateTestInfoSection_ok rt additionalInfo Ha) as [h4 E4].
  assert (E5 : exists panel,
             (if js_gt_num rt (vnum (Z.of_nat (List.length (own_keys additionalInfo)))) 0
              then info <- generateTestInfoSection rt additionalInfo ;;
                   Ok (String.concat "" [testinfo_panel_01; info; testinfo_panel_02])
              else Ok "") = Ok panel).
  { destruct (js_gt_num rt _ 0); [rewrite E4; cbn [bind]|]; eauto. }
  destruct E5 as [panel ->]. cbn [bind].
  eexists. eexists. split; [reflexivity|].
  rewrite header_status_banner.
  repeat rewrite concat_cons. rewrite ?str_app_assoc. reflexivity.
Qed.

End Document.

Lemma derived_not_nullish (rt : Runtime) (ms : obj) (root : value) (st : obj) :
  derived rt ms root st ->
  nullish (field st "totalRequests") = false
  /\ nullish (field st "successfulRequests") = false.
Proof.
  intros (Ht & Hno & Hyes & _). split.
  - rewrite Ht. destruct (truthy (field ms "http_reqs")); [|reflexivity].
    now apply js_or_not_nullish.
  - destruct (truthy (field ms "http_req_failed")) eqn:E.
    + destruct (Hyes eq_refl) as (_ & -> & _). reflexivity.
    + destruct (Hno eq_refl) as (_ & -> & _). reflexivity.
Qed.

Lemma options_get (options : value) (k : string) (d : value) :
  wf_options options = true ->
  exists v, get (match options with VUndef => VObj [] | _ => options end) k = Ok v
            /\ option_or options k d = js_or v d.
Proof.
  intros Hw. unfold option_or.
  destruct (get_total (match options with VUndef => VObj [] | _ => options end) k)
    as [v E]; [destruct options; try reflexivity; discriminate|].
  exists v. now rewrite E.
Qed.

(** [htmlReport] on a well-formed summary: the statistics, the document and
    where the verdict shows in it. *)
Lemma htmlReport_wf (rt : Runtime) (data options : value) :
  wf_summary data = true -> wf_options options = true ->
  exists st doc rest,
    calculateStats rt data = Ok st
    /\ htmlReport rt data options = Ok doc
    /\ doc = page_01 ++ escapeHtml rt (option_or options "title" (VStr (default_title rt)))
             ++ page_02 ++ status_gradient (testStatus st) ++ page_03
             ++ escapeHtml rt (option_or options "title" (VStr (default_title rt)))
             ++ page_04
             ++ banner_prefix rt (option_or options "subtitle" (VStr ""))
                  (option_or options "httpMethod" (VStr ""))
             ++ status_banner (testStatus st)
             ++ banner_suffix (option_or options "subtitle" (VStr "")) ++ rest.
Proof.
  intros Hwf Hopt.
  destruct (wf_summary_inv data Hwf) as (o & ms & rg & -> & Hm & Hu & Hms & Hr & Hrg).
  destruct (calculateStats_derived rt o ms rg Hm Hu Hms Hr Hrg) as (st & E & Hd).
  destruct (derived_not_nullish rt ms _ st Hd) as [Ht Hs].
  destruct (options_get options "title" (VStr (default_title rt)) Hopt) as (t & Et & Ot).
  destruct (options_get options "subtitle" (VStr "") Hopt) as (s & Es & Os).
  destruct (options_get options "httpMethod" (VStr "") Hopt) as (m & Em & Om).
  destruct (options_get options "additionalInfo" (VObj []) Hopt) as (a & Ea & Oa).
  destruct (options_get options "debug" (VBool false) Hopt) as (d & Ed & _).
  destruct (generateModernHTML_ok rt o ms rg Hm Hms Hr Hrg
              (js_or t (VStr (default_title rt))) (js_or s (VStr ""))
              (js_or m (VStr "")) (js_or a (VObj [])) st Ht Hs
              (js_or_not_nullish a (VObj []) eq_refl)) as (doc & rest & Edoc & Hdoc).
  exists st, doc, rest. split; [exact E|]. split.
  - unfold htmlReport. cbv zeta. rewrite Et, Es, Em, Ea, Ed. cbn [bind].
    rewrite E. cbn [bind]. exact Edoc.
  - now rewrite Ot, Os, Om.
Qed.

(** C2.  The document carries the PASS gradient and the PASS banner exactly
    when [failedRequests], [checkFailures] and [thresholdFailures] are all
    zero; otherwise it carries the FAIL gradient and the FAIL banner, at the
    same two places. *)
Theorem verdict_presentation (rt : Runtime) (data options : value) :
  wf_summary data = true -> wf_options options = true ->
  exists st doc rest,
    calculateStats rt data = Ok st
    /\ htmlReport rt data options = Ok doc
    /\ doc = page_01 ++ escapeHtml rt (option_or options "title" (VStr (default_title rt)))
             ++ page_02 ++ status_gradient (testStatus st) ++ page_03
             ++ escapeHtml rt (option_or options "title" (VStr (default_title rt)))
             ++ page_04
             ++ banner_prefix rt (option_or options "subtitle" (VStr ""))
                  (option_or options "httpMethod" (VStr ""))
             ++ status_banner (testStatus st)
             ++ banner_suffix (option_or options "subtitle" (VStr "")) ++ rest
    /\ (testStatus st = true
        <-> is_number (field st "failedRequests") 0
            /\ is_number (field st "checkFailures") 0
            /\ is_number (field st "thresholdFailures") 0)
    /\ status_gradient true <> status_gradient false
    /\ status_banner true <> status_banner false.
Proof.
  intros Hwf Hopt.
  destruct (htmlReport_wf rt data options Hwf Hopt) as (st & doc & rest & E & Ed & Hdoc).
  exists st, doc, rest. split; [exact E|]. split; [exact Ed|]. split; [exact Hdoc|].
  split; [apply testStatus_zero|]. split; discriminate.
Qed.

(** A summary with nothing in it passes. *)
Lemma verdict_presentation_example :
  wf_summary empty_summary = true /\ wf_options VUndef = true
  /\ exists st doc rest,
       calculateStats sample_runtime empty_summary = Ok st
       /\ htmlReport sample_runtime empty_summary VUndef = Ok doc
       /\ doc = page_01 ++ "2025-01-02 03:04" ++ page_02
                ++ status_gradient true ++ page_03 ++ "2025-01-02 03:04" ++ page_04
                ++ subtitle_absent_01 ++ status_banner true ++ subtitle_absent_02 ++ rest.
Proof.
  split; [reflexivity|]. split; [reflexivity|].
  destruct (verdict_presentation sample_runtime empty_summary VUndef eq_refl eq_refl)
    as (st & doc & rest & E & Ed & Hdoc & _).
  exists st, doc, rest. split; [exact E|]. split; [exact Ed|].
  rewrite Hdoc. clear - E. vm_compute in E. injection E as <-. reflexivity.
Defined.

(** ** Faults *)







(** ** Two places where the code departs from its own discipline *)

(** A statistic whose metric is missing from the summary keeps its default,
    the number 0. *)
Lemma absent_metric_defaults (rt : Runtime) (data : value) :
  wf_summary data = true ->
  exists st, calculateStats rt data = Ok st
    /\ (metric data "http_reqs" = Ok VUndef -> field st "totalRequests" = vnum 0)
    /\ (metric data "http_req_failed" = Ok VUndef ->
        field st "failedRequests" = vnum 0 /\ field st "successfulRequests" = vnum 0
        /\ field st "errorRate" = vnum 0 /\ field st "successRate" = vnum 0)
    /\ (metric data "http_req_duration" = Ok VUndef ->
        field st "avgResponseTime" = vnum 0 /\ field st "p95ResponseTime" = vnum 0
        /\ field st "maxResponseTime" = vnum 0 /\ field st "minResponseTime" = vnum 0)
    /\ (metric data "vus" = Ok VUndef ->
        field st "maxVUs" = vnum 0 /\ field st "avgVUs" = vnum 0)
    /\ (metric data "iterations" = Ok VUndef -> field st "iterations" = vnum 0)
    /\ (metric data "data_received" = Ok VUndef -> field st "dataReceived" = vnum 0)
    /\ (metric data "data_sent" = Ok VUndef -> field st "dataSent" = vnum 0)
    /\ field st "testDuration" = vnum 0.
Proof.
  intros Hwf.
  destruct (wf_summary_inv data Hwf) as (o & ms & rg & -> & Hm & Hu & Hms & Hr & Hrg).
  destruct (calculateStats_derived rt o ms rg Hm Hu Hms Hr Hrg)
    as (st & E & Ht & Hno & _ & _ & _ & _ & _ & _ & Hd & Hv & Hi & Hr' & Hs & Hz).
  cbv zeta in Hd, Hv, Hi, Hr', Hs. unfold from_metric in Hd, Hv, Hi, Hr', Hs.
  exists st. split; [exact E|].
  repeat match goal with |- _ /\ _ => split end; try exact Hz;
    intros Habs; apply (metric_absent o ms Hm) in Habs.
  - now rewrite Habs in Ht.
  - exact (Hno Habs).
  - now rewrite Habs in Hd.
  - now rewrite Habs in Hv.
  - now rewrite Habs in Hi.
  - now rewrite Habs in Hr'.
  - now rewrite Habs in Hs.
Qed.

(** A metric that is present but lacks the statistic that is read: where the
    read is guarded with [|| 0] the statistic is zero, formatted as the block
    formats it; the two byte counters divide [undefined] and print NaN. *)
Lemma absent_statistic (rt : Runtime) (data : value) :
  wf_summary data = true ->
  exists st, calculateStats rt data = Ok st
    /\ (metric_value data "http_reqs" "count" = Ok VUndef ->
        field st "totalRequests" = vnum 0)
    /\ (metric_value data "http_req_failed" "rate" = Ok VUndef ->
        field st "errorRate" = VStr "0.00" /\ field st "successRate" = VStr "100.00")
    /\ (metric_value data "http_req_duration" "avg" = Ok VUndef ->
        field st "avgResponseTime" = VStr "0.00")
    /\ (metric_value data "http_req_duration" "p(95)" = Ok VUndef ->
        field st "p95ResponseTime" = VStr "0.00")
    /\ (metric_value data "http_req_duration" "max" = Ok VUndef ->
        field st "maxResponseTime" = VStr "0.00")
    /\ (metric_value data "http_req_duration" "min" = Ok VUndef ->
        field st "minResponseTime" = VStr "0.00")
    /\ (metric_value data "vus" "max" = Ok VUndef -> field st "maxVUs" = vnum 0)
    /\ (metric_value data "vus" "avg" = Ok VUndef -> field st "avgVUs" = VStr "0")
    /\ (metric_value data "iterations" "count" = Ok VUndef ->
        field st "iterations" = vnum 0)
    /\ (metric_value data "data_received" "count" = Ok VUndef ->
        field st "dataReceived" = VStr "NaN")
    /\ (metric_value data "data_sent" "count" = Ok VUndef ->
        field st "dataSent" = VStr "NaN").
Proof.
  intros Hwf.
  destruct (wf_summary_inv data Hwf) as (o & ms & rg & -> & Hm & Hu & Hms & Hr & Hrg).
  destruct (calculateStats_derived rt o ms rg Hm Hu Hms Hr Hrg)
    as (st & E & Ht & _ & Hyes & _ & _ & _ & _ & _ & Hd & Hv & Hi & Hr' & Hs & _).
  cbv zeta in Hd, Hv, Hi, Hr', Hs. unfold from_metric in Hd, Hv, Hi, Hr', Hs.
  destruct Hd as (Hd1 & Hd2 & Hd3 & Hd4). destruct Hv as (Hv1 & Hv2).
  exists st. split; [exact E|].
  repeat match goal with |- _ /\ _ => split end;
    intros Habs; destruct (metric_value_inv o ms Hm Hms _ _ _ Habs) as [T S].
  - now rewrite T, S in Ht.
  - destruct (Hyes T) as (_ & _ & He & Hsr). rewrite S in He.
    assert (He' : field st "errorRate" = VStr "0.00") by exact He.
    rewrite He' in Hsr. split; [exact He'|exact Hsr].
  - now rewrite T, S in Hd1.
  - now rewrite T, S in Hd2.
  - now rewrite T, S in Hd3.
  - now rewrite T, S in Hd4.
  - now rewrite T, S in Hv1.
  - now rewrite T, S in Hv2.
  - now rewrite T, S in Hi.
  - now rewrite T, S in Hr'.
  - now rewrite T, S in Hs.
Qed.

(** C7: a byte counter without [count] yields the text NaN, not the default
    0; every other block guards its reads with [|| 0]. *)
Theorem missing_count_is_not_zero (rt : Runtime) :
  wf_summary no_count_summary = true
  /\ derived_field rt no_count_summary "dataReceived" = Ok (VStr "NaN")
  /\ derived_field rt no_count_summary "dataSent" = Ok (vnum 0).
Proof. repeat split. Qed.

(** Whenever a subtitle is shown, the text of a truthy [httpMethod] is in the
    document as it was given. *)
Lemma http_method_reaches_document (rt : Runtime) (data options : value) :
  wf_summary data = true -> wf_options options = true ->
  truthy (option_or options "subtitle" (VStr "")) = true ->
  truthy (option_or options "httpMethod" (VStr "")) = true ->
  exists doc,
    htmlReport rt data options = Ok doc
    /\ occurs (to_string rt (option_or options "httpMethod" (VStr ""))) doc = true.
Proof.
  intros Hwf Hopt Hs Hm.
  destruct (htmlReport_wf rt data options Hwf Hopt) as (st & doc & rest & _ & E & ->).
  eexists. split; [exact E|].
  do 7 apply occurs_app_r. apply occurs_app_l.
  unfold banner_prefix. rewrite Hs.
  apply occurs_app_r, occurs_app_l.
  unfold method_badge. rewrite Hm. apply occurs_app.
Qed.

(** C5: [httpMethod] reaches the document as it is, while the escaped form
    of the same text is nowhere in it. *)
Theorem http_method_not_escaped :
  report_contains sample_runtime sample_summary script_options script_method = Ok true
  /\ report_contains sample_runtime sample_summary script_options (escape script_method)
     = Ok false
  /\ escape script_method = "&lt;script&gt;alert(1)&lt;/script&gt;".
Proof.
  split; [vm_compute; reflexivity|]. split; [vm_compute; reflexivity|reflexivity].
Qed.

(** ** The rates in binary64 *)

(** The double of 12.5 and of 0.13, and what they stand for. *)
Lemma hundredths_values :
  float_value (hundredths 1250) = Some (25 # 2)
  /\ float_value (hundredths 13) = Some (1170935903116329 # 9007199254740992).
Proof. split; vm_compute; reflexivity. Qed.

Lemma count_from_In (n : nat) (a k : Z) :
  (a <= k < a + Z.of_nat n)%Z -> In k (count_from a n).
Proof.
  revert a. induction n as [|n IH]; intros a H; [lia|].
  cbn [count_from]. destruct (Z.eq_dec a k) as [E|E]; [now left|].
  right. apply IH. lia.
Qed.

(** [round64] against the doubles of the kernel: the operations of the
    report on every fifth rate from 0.0000 to 1.0000, and four single
    operations. *)
Lemma round64_chain_checked : forallb round64_chain every_fifth = true.
Proof. vm_compute. reflexivity. Qed.

Lemma round64_agrees (k : Z) : (0 <= k <= 2000)%Z -> round64_chain (5 * k) = true.
Proof.
  intros H. apply (proj1 (forallb_forall _ _) round64_chain_checked).
  unfold every_fifth. apply in_map. apply count_from_In. lia.
Qed.

Lemma round64_cases_checked :
  round64_cases = true
  /\ float_value (rate_double 3500) = Some (round64 (35 # 100))
  /\ float_value (PrimFloat.div (float_of_Z 13) (float_of_Z 20000))
     = Some (round64 (13 # 20000)).
Proof. repeat split; vm_compute; reflexivity. Qed.

Lemma binary64_chain_checked : forallb binary64_chain (upto 10000) = true.
Proof. vm_compute. reflexivity. Qed.

(** For every error rate from 0.00 to 100.00 the chain of the report gives
    in binary64 the same three texts as on the exact values. *)
Lemma binary64_rates_agree (k : Z) :
  (0 <= k <= 10000)%Z -> binary64_chain k = true.
Proof.
  intros H. apply (proj1 (forallb_forall _ _) binary64_chain_checked).
  apply count_from_In. lia.
Qed.

(** ** What the escaper guarantees *)

Lemma html_special_cases (c : ascii) :
  html_special c = true ->
  c = "&"%char \/ c = "<"%char \/ c = ">"%char \/ c = "034"%char \/ c = "'"%char.
Proof.
  unfold html_special. intros H.
  repeat (apply orb_prop in H; destruct H as [H|H]);
    apply Ascii.eqb_eq in H; auto 10.
Qed.

Lemma list_ascii_app (a b : string) :
  list_ascii_of_string (a ++ b)
  = (list_ascii_of_string a ++ list_ascii_of_string b)%list.
Proof. induction a as [|c a IH]; simpl; [reflexivity|now rewrite IH]. Qed.

Lemma markup_free_app (a b : string) :
  markup_free (a ++ b) = markup_free a && markup_free b.
Proof. unfold markup_free. now rewrite list_ascii_app, forallb_app. Qed.

Lemma plain_text_app (a b : string) :
  plain_text (a ++ b) = plain_text a && plain_text b.
Proof. unfold plain_text. now rewrite list_ascii_app, forallb_app. Qed.

Lemma markup_free_entity (c : ascii) : markup_free (entity c) = true.
Proof.
  destruct (html_special c) eqn:E.
  - destruct (html_special_cases c E) as [->|[->|[->|[->| ->]]]]; reflexivity.
  - rewrite (entity_other c E). unfold markup_free. cbn [list_ascii_of_string forallb].
    unfold html_special in E.
    repeat (apply orb_false_elim in E; destruct E as [E ?]).
    repeat match goal with H : Ascii.eqb _ _ = false |- _ => rewrite H; clear H end.
    reflexivity.
Qed.

Lemma markup_free_escape (s : string) : markup_free (escape s) = true.
Proof.
  induction s as [|c s IH]; [reflexivity|].
  now rewrite escape_cons, markup_free_app, markup_free_entity, IH.
Qed.

(** Whatever it is given, [escapeHtml] returns a text in which [<], [>], the
    double quote and the apostrophe do not occur. *)
Theorem escapeHtml_markup_free (rt : Runtime) (text : value) :
  markup_free (escapeHtml rt text) = true.
Proof.
  unfold escapeHtml. rewrite replace_class_escape. apply markup_free_escape.
Qed.

Lemma plain_text_entity (c : ascii) : plain_text (entity c) = negb (html_special c).
Proof.
  destruct (html_special c) eqn:E.
  - destruct (html_special_cases c E) as [->|[->|[->|[->| ->]]]]; reflexivity.
  - rewrite (entity_other c E). unfold plain_text. cbn [list_ascii_of_string forallb].
    now rewrite E.
Qed.

Lemma escape_plain (s : string) : plain_text s = true -> escape s = s.
Proof.
  induction s as [|c s IH]; [reflexivity|].
  unfold plain_text. cbn [list_ascii_of_string forallb]. intros H.
  apply andb_prop in H. destruct H as [Hc Hs]. apply negb_true_iff in Hc.
  rewrite escape_cons, (entity_other c Hc), (IH Hs). reflexivity.
Qed.

Lemma plain_text_escape (s : string) : plain_text (escape s) = plain_text s.
Proof.
  induction s as [|c s IH]; [reflexivity|].
  rewrite escape_cons, plain_text_app, plain_text_entity, IH. reflexivity.
Qed.

Lemma string_length_app (a b : string) :
  String.length (a ++ b) = (String.length a + String.length b)%nat.
Proof. induction a as [|c a IH]; simpl; [reflexivity|now rewrite IH]. Qed.

Lemma length_entity (c : ascii) :
  (1 <= String.length (entity c))%nat
  /\ (String.length (entity c) = 1%nat -> html_special c = false).
Proof.
  destruct (html_special c) eqn:E.
  - destruct (html_special_cases c E) as [->|[->|[->|[->| ->]]]]; simpl; split; lia.
  - rewrite (entity_other c E). simpl. split; [lia|reflexivity].
Qed.

Lemma length_escape (s : string) :
  (String.length s <= String.length (escape s))%nat
  /\ (String.length (escape s) = String.length s -> plain_text s = true).
Proof.
  induction s as [|c s [IH1 IH2]]; [split; [simpl; lia|reflexivity]|].
  rewrite escape_cons, string_length_app. destruct (length_entity c) as [H1 H2].
  cbn [String.length]. split; [lia|].
  intros H. unfold plain_text. cbn [list_ascii_of_string forallb].
  fold (plain_text s). rewrite H2, IH2 by lia. reflexivity.
Qed.

(** A text is returned as it is exactly when none of the five characters
    occurs in it, and escaping twice is the same as escaping once exactly for
    those texts: a second pass rewrites the ampersands of the first. *)
Theorem escapeHtml_fixed_points (rt : Runtime) (s : string) :
  (escapeHtml rt (VStr s) = s <-> plain_text s = true)
  /\ (escapeHtml rt (VStr (escapeHtml rt (VStr s))) = escapeHtml rt (VStr s)
      <-> plain_text s = true).
Proof.
  unfold escapeHtml. cbn [to_string]. rewrite !replace_class_escape.
  split; split.
  - intros H. apply (proj2 (length_escape s)). now rewrite H.
  - apply escape_plain.
  - intros H. rewrite <- plain_text_escape.
    apply (proj2 (length_escape (escape s))). now rewrite H.
  - intros H. now rewrite !(escape_plain s H).
Qed.

Lemma entity_nonempty (c : ascii) (x : string) : entity c ++ x <> "".
Proof.
  destruct (length_entity c) as [H _]. intros E.
  apply (f_equal String.length) in E. rewrite string_length_app in E. simpl in E. lia.
Qed.

Lemma entity_head (c c' : ascii) (x y : string) :
  entity c ++ x = entity c' ++ y -> c = c' /\ x = y.
Proof.
  destruct (html_special c) eqn:E; destruct (html_special c') eqn:E'.
  - destruct (html_special_cases c E) as [->|[->|[->|[->| ->]]]];
      destruct (html_special_cases c' E') as [->|[->|[->|[->| ->]]]];
      cbn; intros H; try discriminate H; injection H; auto.
  - rewrite (entity_other c' E').
    destruct (html_special_cases c E) as [->|[->|[->|[->| ->]]]];
      cbn; intros H; injection H; intros; subst c'; discriminate E'.
  - rewrite (entity_other c E).
    destruct (html_special_cases c' E') as [->|[->|[->|[->| ->]]]];
      cbn; intros H; injection H; intros; subst c; discriminate E.
  - rewrite (entity_other c E), (entity_other c' E'). cbn. intros H.
    injection H; auto.
Qed.

Lemma escape_injective (s1 s2 : string) : escape s1 = escape s2 -> s1 = s2.
Proof.
  revert s2. induction s1 as [|c s1 IH]; intros [|c' s2].
  - reflexivity.
  - rewrite escape_cons. intros H. symmetry in H. now apply entity_nonempty in H.
  - rewrite escape_cons. intros H. now apply entity_nonempty in H.
  - rewrite !escape_cons. intros H. apply entity_head in H. destruct H as [-> H].
    f_equal. now apply IH.
Qed.

(** Two different texts are never escaped to the same text: what was a
    character and what was already an entity stay apart. *)
Theorem escapeHtml_keeps_texts_apart (rt : Runtime) (s1 s2 : string) :
  s1 <> s2 -> escapeHtml rt (VStr s1) <> escapeHtml rt (VStr s2).
Proof.
  intros H E. apply H. unfold escapeHtml in E. cbn [to_string] in E.
  rewrite !replace_class_escape in E. now apply escape_injective.
Qed.

Lemma escapeHtml_keeps_texts_apart_example :
  "<" <> "&lt;"
  /\ escapeHtml sample_runtime (VStr "<") <> escapeHtml sample_runtime (VStr "&lt;").
Proof.
  assert (H : "<" <> "&lt;") by discriminate.
  split; [exact H|]. exact (escapeHtml_keeps_texts_apart sample_runtime "<" "&lt;" H).
Defined.

(** ** The options of [htmlReport] *)

Lemma get_primitive (v : value) (k : string) :
  match v with VBool _ | VNum _ | VStr _ | VArr _ => True | _ => False end ->
  String.eqb k "length" = false -> parse_index k = None ->
  get v k = Ok VUndef.
Proof.
  intros Hv Hl Hi. destruct v; try contradiction; cbn [get]; try reflexivity;
    now rewrite Hl, Hi.
Qed.

Lemma htmlReport_primitive_options (rt : Runtime) (data options : value) :
  match options with VBool _ | VNum _ | VStr _ | VArr _ => True | _ => False end ->
  htmlReport rt data options = htmlReport rt data VUndef.
Proof.
  intros Hv. unfold htmlReport.
  replace (match options with VUndef => VObj [] | _ => options end) with options
    by (destruct options; try contradiction; reflexivity).
  cbv zeta.
  rewrite !(get_primitive options) by (exact Hv || reflexivity).
  reflexivity.
Qed.

(** [null] for the options makes [htmlReport] throw at its first read, for
    every summary; a boolean, a number, a string or an array for the options
    is the same as no options at all. *)
Theorem htmlReport_options_not_an_object (rt : Runtime) (data : value) :
  htmlReport rt data VNull = Throw (NullAccess "title")
  /\ (forall b, htmlReport rt data (VBool b) = htmlReport rt data VUndef)
  /\ (forall n, htmlReport rt data (VNum n) = htmlReport rt data VUndef)
  /\ (forall s, htmlReport rt data (VStr s) = htmlReport rt data VUndef)
  /\ (forall items, htmlReport rt data (VArr items) = htmlReport rt data VUndef).
Proof.
  split; [reflexivity|].
  repeat split; intros; now apply htmlReport_primitive_options.
Qed.

(** Two option objects that agree on [title], [subtitle], [httpMethod] and
    [additionalInfo] up to falsy values give the same result: a falsy option
    counts as a missing one, and [debug] and every other key play no part in
    what is returned. *)
Theorem htmlReport_options_normalised (rt : Runtime) (data : value) (o1 o2 : obj) :
  (forall k d, In k ["title"; "subtitle"; "httpMethod"; "additionalInfo"] ->
               js_or (field o1 k) d = js_or (field o2 k) d) ->
  htmlReport rt data (VObj o1) = htmlReport rt data (VObj o2).
Proof.
  intros H. unfold htmlReport. cbv zeta. cbn [get bind].
  change (if truthy (field o1 "title") then field o1 "title" else VStr (default_title rt))
    with (js_or (field o1 "title") (VStr (default_title rt))).
  change (if truthy (field o2 "title") then field o2 "title" else VStr (default_title rt))
    with (js_or (field o2 "title") (VStr (default_title rt))).
  rewrite (H "title"), (H "subtitle"), (H "httpMethod"), (H "additionalInfo")
    by (simpl; auto).
  reflexivity.
Qed.

Lemma htmlReport_options_normalised_example :
  (forall k d, In k ["title"; "subtitle"; "httpMethod"; "additionalInfo"] ->
               js_or (field [("title", VStr ""); ("subtitle", vnum 0);
                             ("debug", VBool true); ("colour", VStr "red")] k) d
               = js_or (field [("httpMethod", VNull)] k) d)
  /\ htmlReport sample_runtime sample_summary
       (VObj [("title", VStr ""); ("subtitle", vnum 0);
              ("debug", VBool true); ("colour", VStr "red")])
     = htmlReport sample_runtime sample_summary (VObj [("httpMethod", VNull)]).
Proof.
  assert (H : forall k d, In k ["title"; "subtitle"; "httpMethod"; "additionalInfo"] ->
              js_or (field [("title", VStr ""); ("subtitle", vnum 0);
                            ("debug", VBool true); ("colour", VStr "red")] k) d
              = js_or (field [("httpMethod", VNull)] k) d).
  { intros k d [<-|[<-|[<-|[<-|[]]]]]; reflexivity. }
  split; [exact H|].
  exact (htmlReport_options_normalised sample_runtime sample_summary _ _ H).
Defined.

Lemma generateModernHTML_no_subtitle (rt : Runtime)
  (data title subtitle m1 m2 info : value) (st : obj) :
  truthy subtitle = false ->
  generateModernHTML rt data title subtitle m1 info st
  = generateModernHTML rt data title subtitle m2 info st.
Proof.
  intros H. unfold generateModernHTML, header_status. now rewrite H.
Qed.

(** Without a subtitle the HTTP method is not shown: whatever [httpMethod]
    is set to, the result is that of the same options without it. *)
Theorem htmlReport_method_needs_subtitle (rt : Runtime) (data : value) (o : obj)
  (m : value) :
  truthy (field o "subtitle") = false ->
  htmlReport rt data (VObj (obj_set o "httpMethod" m)) = htmlReport rt data (VObj o).
Proof.
  intros H. unfold htmlReport. cbv zeta. cbn [get bind].
  rewrite field_set_same. rewrite !field_set_other by reflexivity.
  destruct (calculateStats rt data) as [st|e]; cbn [bind]; [|reflexivity].
  apply generateModernHTML_no_subtitle. unfold js_or. now rewrite H.
Qed.

Lemma htmlReport_method_needs_subtitle_example :
  truthy (field [("title", VStr "run")] "subtitle") = false
  /\ htmlReport sample_runtime sample_summary
       (VObj (obj_set [("title", VStr "run")] "httpMethod" (VStr "POST")))
     = htmlReport sample_runtime sample_summary (VObj [("title", VStr "run")]).
Proof.
  split; [reflexivity|].
  exact (htmlReport_method_needs_subtitle sample_runtime sample_summary
           [("title", VStr "run")] (VStr "POST") eq_refl).
Defined.

(** *** The default title *)

Lemma substring_0_length (s : string) : String.substring 0 (String.length s) s = s.
Proof. induction s as [|c s IH]; simpl; [reflexivity|now rewrite IH]. Qed.

Lemma substring_0_app (a b : string) :
  String.substring 0 (String.length a) (a ++ b) = a.
Proof.
  induction a as [|c a IH]; simpl; [now destruct b|now rewrite IH].
Qed.

Lemma substring_skip_app (a b : string) (m : nat) :
  String.substring (String.length a) m (a ++ b) = String.substring 0 m b.
Proof.
  induction a as [|c a IH]; simpl; [reflexivity|exact IH].
Qed.

Lemma substring_from_app (a b : string) :
  substring_from (a ++ b) (Z.of_nat (String.length a)) = b.
Proof.
  unfold substring_from. rewrite Z.max_r by lia. rewrite Nat2Z.id.
  rewrite substring_skip_app, string_length_app.
  replace (String.length a + String.length b - String.length a)%nat
    with (String.length b) by lia.
  apply substring_0_length.
Qed.

(** The first occurrence of a one-character pattern. *)
Lemma index_char_app (c : ascii) (a b : string) :
  String.index 0 (String c "") a = None ->
  String.index 0 (String c "") (a ++ String c b) = Some (String.length a).
Proof.
  induction a as [|x a IH]; intros H.
  - cbn [append String.length]. cbn [String.index].
    change (String.prefix (String c "") (String c b))
      with (if ascii_dec c c then String.prefix "" b else false).
    destruct (ascii_dec c c); [|congruence]. now destruct b.
  - cbn [append String.length]. cbn [String.index] in *.
    change (String.prefix (String c "") (String x (a ++ String c b)))
      with (if ascii_dec c x then String.prefix "" (a ++ String c b) else false).
    change (String.prefix (String c "") (String x a))
      with (if ascii_dec c x then String.prefix "" a else false) in H.
    destruct (ascii_dec c x).
    + exfalso. destruct a; discriminate H.
    + destruct (String.index 0 (String c "") a); [discriminate H|].
      now rewrite IH.
Qed.

(** With no [title] option the report is titled with the current UTC time
    to the minute: the first sixteen characters of the ISO timestamp, its [T]
    replaced by a space. *)
Theorem default_title_minute (rt : Runtime) (day minute rest : string) :
  date_now_iso rt = day ++ "T" ++ minute ++ rest ->
  String.length day = 10%nat -> String.length minute = 5%nat ->
  String.index 0 "T" day = None ->
  default_title rt = day ++ " " ++ minute.
Proof.
  intros E Hd Hm Hn. unfold default_title, slice_to. rewrite E.
  assert (Hs : String.substring 0 16 (day ++ "T" ++ minute ++ rest)
               = day ++ "T" ++ minute).
  { replace (day ++ "T" ++ minute ++ rest) with ((day ++ "T" ++ minute) ++ rest)
      by (rewrite !str_app_assoc; reflexivity).
    replace 16%nat with (String.length (day ++ "T" ++ minute))
      by (rewrite !string_length_app, Hd, Hm; reflexivity).
    apply substring_0_app. }
  rewrite Hs. unfold replace_first.
  change (day ++ "T" ++ minute) with (day ++ String "T" minute).
  rewrite (index_char_app "T" day minute Hn).
  rewrite substring_0_app.
  replace (day ++ String "T" minute) with ((day ++ "T") ++ minute)
    by (rewrite str_app_assoc; reflexivity).
  replace (String.length day + String.length "T")%nat
    with (String.length (day ++ "T")) by (rewrite string_length_app; reflexivity).
  now rewrite substring_from_app.
Qed.

Lemma default_title_minute_example :
  date_now_iso sample_runtime = "2025-01-02" ++ "T" ++ "03:04" ++ ":05.678Z"
  /\ default_title sample_runtime = "2025-01-02 03:04".
Proof.
  split; [reflexivity|].
  exact (default_title_minute sample_runtime "2025-01-02" "03:04" ":05.678Z"
           eq_refl eq_refl eq_refl eq_refl).
Defined.

(** ** Ranges of the derived statistics *)

Lemma js_or_vnum (z : Z) : js_or (vnum z) (vnum 0) = vnum z.
Proof.
  unfold js_or, truthy, vnum. destruct (Qeq_bool (inject_Z z) 0) eqn:E; [|reflexivity].
  apply Qeq_bool_eq in E. unfold Qeq in E. simpl in E.
  assert (z = 0%Z) by lia. now subst z.
Qed.

(** With a failure rate between 0 and 1 and a request count [z] up to
    2^53 - 1, the failed requests are the product of the two doubles rounded
    to the nearest integer, a whole number between 0 and [z], and the
    successful requests are the rest. *)
Theorem request_counts_bounded (rt : Runtime) (data : value) (r : Q) (z : Z) :
  wf_summary data = true ->
  metric_value data "http_req_failed" "rate" = Ok (VNum (Fin r)) ->
  metric_value data "http_reqs" "count" = Ok (vnum z) ->
  0 <= r <= 1 -> (0 <= z <= max_safe_integer)%Z ->
  exists st f,
    calculateStats rt data = Ok st
    /\ f = round_half_up (round64 (r * inject_Z z))
    /\ field st "totalRequests" = vnum z
    /\ field st "failedRequests" = vnum f
    /\ field st "successfulRequests" = vnum (z - f)
    /\ (0 <= f <= z)%Z.
Proof.
  intros Hwf Hrate Hcount Hr Hz.
  destruct (wf_summary_inv data Hwf) as (o & ms & rg & -> & Hm & Hu & Hms & Hro & Hrg).
  destruct (calculateStats_derived rt o ms rg Hm Hu Hms Hro Hrg)
    as (st & E & Ht & _ & Hyes & _).
  destruct (metric_value_inv o ms Hm Hms _ _ _ Hrate) as [Tf Sf].
  destruct (metric_value_inv o ms Hm Hms _ _ _ Hcount) as [Tr Sr].
  destruct (Hyes Tf) as (Hfailed & Hsucc & _).
  rewrite Tr, Sr, js_or_vnum in Ht. rewrite Sf in Hfailed.
  destruct (js_or_fin r) as (r' & Er & Hr').
  rewrite Er, Ht in Hfailed. rewrite Ht in Hsucc.
  set (f := round_half_up (round64 (r * inject_Z z))).
  assert (Hf : field st "failedRequests" = vnum f).
  { rewrite Hfailed. unfold js_round, js_mul, to_number, num_mul, math_round, vnum.
    do 3 f_equal. unfold f. f_equal. apply round64_comp. now rewrite Hr'. }
  pose proof (failed_requests_range r (inject_Z z) z Hr (Qeq_refl _) Hz) as Hrange.
  fold f in Hrange.
  exists st, f. split; [exact E|]. split; [reflexivity|]. split; [exact Ht|].
  split; [exact Hf|]. split; [|exact Hrange].
  rewrite Hsucc, Hf. unfold js_sub, vnum, to_number. f_equal.
  apply (num_sub_counts _ _ z f); try reflexivity; lia.
Qed.

(** Of 10 requests at the rate 0.35, whose product with 10 rounds to the
    double 3.5, 4 are counted as failed and 6 as successful. *)
Lemma request_counts_bounded_example :
  wf_summary (requests_summary (round64 (35 # 100)) 10) = true
  /\ 0 <= round64 (35 # 100) <= 1
  /\ exists st f,
       calculateStats sample_runtime (requests_summary (round64 (35 # 100)) 10) = Ok st
       /\ f = 4%Z
       /\ field st "totalRequests" = vnum 10
       /\ field st "failedRequests" = vnum f
       /\ field st "successfulRequests" = vnum (10 - f)
       /\ (0 <= f <= 10)%Z.
Proof.
  assert (Hr : 0 <= round64 (35 # 100) <= 1) by (split; vm_compute; discriminate).
  split; [reflexivity|]. split; [exact Hr|].
  apply (request_counts_bounded sample_runtime (requests_summary (round64 (35 # 100)) 10)
           (round64 (35 # 100)) 10 eq_refl eq_refl eq_refl Hr).
  split; discriminate.
Defined.

(** With a failure rate between 0 and 1 the two percentages are complementary
    hundredths between 0.00 and 100.00: [errorRate] shows [k] hundredths and
    [successRate] shows [10000 - k], for some [k] from 0 to 10000. *)
Theorem rates_within_range (rt : Runtime) (data : value) (r : Q) :
  wf_summary data = true ->
  metric_value data "http_req_failed" "rate" = Ok (VNum (Fin r)) ->
  0 <= r <= 1 ->
  exists st k,
    calculateStats rt data = Ok st
    /\ (0 <= k <= 10000)%Z
    /\ field st "errorRate" = VStr (fixed_digits 2 k)
    /\ field st "successRate" = VStr (fixed_digits 2 (10000 - k)).
Proof.
  intros Hwf Hrate Hr.
  destruct (rates_formatted rt data r Hwf Hrate) as (st & E & He & Hs).
  destruct (percent_range r Hr) as [X0 X1].
  destruct (percent_texts rt (round64 (r * 100)) X0 X1)
    as (k & e & s & _ & Hk & Tk & Ee & _ & Ts & _).
  exists st, k. split; [exact E|]. split; [exact Hk|].
  rewrite Hs, He. cbn [to_number]. rewrite Tk, Ee, Ts. split; reflexivity.
Qed.

Lemma rates_within_range_example :
  wf_summary sample_summary = true
  /\ 0 <= 1 # 8 <= 1
  /\ exists st k,
       calculateStats sample_runtime sample_summary = Ok st
       /\ (0 <= k <= 10000)%Z
       /\ field st "errorRate" = VStr (fixed_digits 2 k)
       /\ field st "successRate" = VStr (fixed_digits 2 (10000 - k)).
Proof.
  assert (Hr : 0 <= 1 # 8 <= 1) by (split; discriminate).
  split; [reflexivity|]. split; [exact Hr|].
  exact (rates_within_range sample_runtime sample_summary (1 # 8) eq_refl eq_refl Hr).
Defined.

(** *** Bytes to megabytes *)

Lemma Qfloor_between (q : Q) (m : Z) :
  inject_Z m <= q -> q < inject_Z m + 1 -> Qfloor q = m.
Proof.
  intros Lo Hi.
  pose proof (Qfloor_le q) as Hf. pose proof (Qlt_floor q) as Hc.
  rewrite inject_Z_plus in Hc. change (inject_Z 1) with 1 in Hc.
  assert (A : (Qfloor q < m + 1)%Z).
  { rewrite Zlt_Qlt, inject_Z_plus. change (inject_Z 1) with 1. lra. }
  assert (B : (m < Qfloor q + 1)%Z).
  { rewrite Zlt_Qlt, inject_Z_plus. change (inject_Z 1) with 1. lra. }
  lia.
Qed.

(** A count of bytes up to 2^53 - 1 makes fewer than 2^34 megabytes, where
    two neighbouring doubles are at most 2^-19 apart: the quotient moves by
    less than a millionth when it is rounded, which keeps it on its side of
    the half-way point between two hundredths. *)
Lemma megabytes_hundredths (z : Z) :
  (0 <= z <= max_safe_integer)%Z -> (z mod 10000 <> 5000)%Z ->
  0 <= round64 (inject_Z z / inject_Z 1000000)
  /\ round64 (inject_Z z / inject_Z 1000000) <= inject_Z max_safe_integer
  /\ round_half_up (round64 (inject_Z z / inject_Z 1000000) * 100)
     = ((z + 5000) / 10000)%Z.
Proof.
  intros Hz Hmod.
  assert (H0 : 0 <= inject_Z z) by (change 0 with (inject_Z 0); rewrite <- Zle_Qle; lia).
  assert (H1 : inject_Z z <= inject_Z max_safe_integer) by (rewrite <- Zle_Qle; lia).
  assert (Hmax : inject_Z max_safe_integer == 9007199254740991) by reflexivity.
  assert (Hd : inject_Z z / inject_Z 1000000 == inject_Z z * (1 # 1000000)).
  { change (inject_Z 1000000) with 1000000. field. }
  set (x := inject_Z z / inject_Z 1000000) in *.
  destruct (round64_bounds x max_safe_integer) as [A B]; [lra|lra|lia|].
  destruct (round64_close x 33) as [C D]; [lra|lia| |].
  { change (inject_Z (2 ^ (33 + 1))) with 17179869184. lra. }
  change (1 # Z.to_pos (2 ^ (53 - 33))) with (1 # 1048576) in C, D.
  split; [exact A|]. split; [exact B|].
  set (m := ((z + 5000) / 10000)%Z).
  pose proof (Z.div_mod (z + 5000) 10000 ltac:(lia)) as Hdm. fold m in Hdm.
  pose proof (Z.mod_pos_bound (z + 5000) 10000 ltac:(lia)) as Hc.
  set (c := ((z + 5000) mod 10000)%Z) in *.
  assert (Hc0 : c <> 0%Z).
  { intros Hc0. apply Hmod. unfold c in Hc0.
    pose proof (Z.div_mod z 10000 ltac:(lia)) as Hz1.
    pose proof (Z.mod_pos_bound z 10000 ltac:(lia)) as Hz2. lia. }
  assert (Ez : inject_Z z == 10000 * inject_Z m + inject_Z c - 5000).
  { assert (Ez' : inject_Z (z + 5000) = inject_Z (10000 * m + c)) by (f_equal; exact Hdm).
    rewrite !inject_Z_plus, inject_Z_mult in Ez'.
    change (inject_Z 5000) with 5000 in Ez'. change (inject_Z 10000) with 10000 in Ez'.
    rewrite <- Ez'. ring. }
  assert (Hc1 : 1 <= inject_Z c).
  { change 1 with (inject_Z 1). rewrite <- Zle_Qle. lia. }
  assert (Hc2 : inject_Z c <= 9999).
  { change 9999 with (inject_Z 9999). rewrite <- Zle_Qle. lia. }
  unfold round_half_up. apply Qfloor_between; lra.
Qed.

Lemma megabytes_text (rt : Runtime) (z : Z) :
  (0 <= z <= max_safe_integer)%Z -> (z mod 10000 <> 5000)%Z ->
  formatted rt 2 (js_div_by rt (vnum z) 1000000)
  = VStr (fixed_digits 2 ((z + 5000) / 10000)).
Proof.
  intros Hz Hmod. unfold formatted, js_div_by, vnum, to_number, num_div_by.
  destruct (megabytes_hundredths z Hz Hmod) as (A & B & C).
  rewrite to_fixed_2_nonneg.
  - now rewrite C.
  - exact A.
  - assert (Hmax : inject_Z max_safe_integer == 9007199254740991) by reflexivity.
    change (inject_Z (ten_pow 21)) with (1000000000000000000000 # 1). lra.
Qed.

(** A byte count [z] is shown in decimal megabytes (10^6 bytes) with two
    decimals, rounded to the nearest hundredth: the text of
    [(z + 5000) / 10000] hundredths, for a count that does not lie half-way
    between two hundredths.  Fewer than 5000 bytes show as 0.00. *)
Theorem megabytes_shown (rt : Runtime) (data : value) :
  wf_summary data = true ->
  exists st,
    calculateStats rt data = Ok st
    /\ (forall z, metric_value data "data_received" "count" = Ok (vnum z) ->
                  (0 <= z <= max_safe_integer)%Z -> (z mod 10000 <> 5000)%Z ->
                  field st "dataReceived" = VStr (fixed_digits 2 ((z + 5000) / 10000))
                  /\ ((z < 5000)%Z -> field st "dataReceived" = VStr "0.00"))
    /\ (forall z, metric_value data "data_sent" "count" = Ok (vnum z) ->
                  (0 <= z <= max_safe_integer)%Z -> (z mod 10000 <> 5000)%Z ->
                  field st "dataSent" = VStr (fixed_digits 2 ((z + 5000) / 10000))
                  /\ ((z < 5000)%Z -> field st "dataSent" = VStr "0.00")).
Proof.
  intros Hwf.
  destruct (wf_summary_inv data Hwf) as (o & ms & rg & -> & Hm & Hu & Hms & Hro & Hrg).
  destruct (calculateStats_derived rt o ms rg Hm Hu Hms Hro Hrg)
    as (st & E & _ & _ & _ & _ & _ & _ & _ & _ & _ & _ & _ & Hr & Hs & _).
  cbv zeta in Hr, Hs. unfold from_metric in Hr, Hs.
  exists st. split; [exact E|].
  split; intros z Hc Hz Hmod; destruct (metric_value_inv o ms Hm Hms _ _ _ Hc) as [T S].
  - rewrite T, S, (megabytes_text rt z Hz Hmod) in Hr. split; [exact Hr|].
    intros Hsmall. rewrite Hr, Z.div_small by lia. reflexivity.
  - rewrite T, S, (megabytes_text rt z Hz Hmod) in Hs. split; [exact Hs|].
    intros Hsmall. rewrite Hs, Z.div_small by lia. reflexivity.
Qed.

Lemma megabytes_shown_example :
  wf_summary transfer_summary = true
  /\ exists st,
       calculateStats sample_runtime transfer_summary = Ok st
       /\ field st "dataReceived" = VStr "1.23"
       /\ field st "dataSent" = VStr "0.00".
Proof.
  split; [reflexivity|].
  destruct (megabytes_shown sample_runtime transfer_summary eq_refl) as (st & E & Hr & Hs).
  exists st. split; [exact E|]. split.
  - apply (Hr 1234567%Z eq_refl); [split; discriminate|discriminate].
  - apply (Hs 4999%Z eq_refl); [split; discriminate|discriminate|reflexivity].
Defined.

(** ** Checks that cannot be iterated *)

(** With well-formed metrics the blocks that read them return, and what is
    left of [calculateStats] is the reading of the root group. *)
Lemma calculateStats_after_metrics (rt : Runtime) (o : obj) :
  req_field wf_metrics o "metrics" = true ->
  exists s,
    calculateStats rt (VObj o)
    = (stats <- stats_root_checks rt (VObj o) s ;;
       stats <- stats_group_checks rt (VObj o) stats ;;
       Ok (stats_total_checks rt stats)).
Proof.
  intros Hm. unfold req_field in Hm.
  destruct (assoc "metrics" o) as [mv|] eqn:Em; [|discriminate].
  destruct mv as [| | | | | |ms]; try discriminate.
  cbn [wf_metrics] in Hm. apply andb_prop in Hm. destruct Hm as [Hu Hms].
  unfold calculateStats.
  destruct (stats_http_reqs_spec o ms Em Hms initial_stats) as (s1 & E1 & U1 & _).
  destruct (stats_http_req_failed_spec rt o ms Em Hms s1) as (s2 & E2 & U2 & _).
  destruct (stats_http_req_duration_spec rt o ms Em Hms s2) as (s3 & E3 & U3 & _).
  destruct (stats_vus_spec rt o ms Em Hms s3) as (s4 & E4 & U4 & _).
  destruct (stats_iterations_spec o ms Em Hms s4) as (s5 & E5 & U5 & _).
  destruct (stats_data_spec rt o ms Em Hms "data_received" "dataReceived" s5)
    as (s6 & E6 & U6 & _).
  destruct (stats_data_spec rt o ms Em Hms "data_sent" "dataSent" s6)
    as (s7 & E7 & U7 & _).
  destruct (stats_thresholds_spec rt o ms Em Hms Hu s7 0 0) as (s8 & E8 & _).
  { rewrite U7, U6, U5, U4, U3, U2, U1 by reflexivity. reflexivity. }
  { rewrite U7, U6, U5, U4, U3, U2, U1 by reflexivity. reflexivity. }
  exists s8.
  rewrite E1; cbn [bind]. rewrite E2; cbn [bind]. rewrite E3; cbn [bind].
  rewrite E4; cbn [bind]. rewrite E5; cbn [bind]. rewrite E6; cbn [bind].
  rewrite E7; cbn [bind]. rewrite E8; cbn [bind]. reflexivity.
Qed.

(** [root_group.checks] and [root_group.groups] are looped over with
    [for .. of]: when one of them is truthy and neither an array nor a
    string, [calculateStats] throws, whatever the metrics say. *)
Theorem checks_must_be_iterable (rt : Runtime) (o rg : obj) :
  req_field wf_metrics o "metrics" = true ->
  assoc "root_group" o = Some (VObj rg) ->
  (truthy (field rg "checks") = true ->
   iterate (field rg "checks") = Throw NotIterable ->
   calculateStats rt (VObj o) = Throw NotIterable)
  /\ (truthy (field rg "checks") = false ->
      truthy (field rg "groups") = true ->
      iterate (field rg "groups") = Throw NotIterable ->
      calculateStats rt (VObj o) = Throw NotIterable).
Proof.
  intros Hm Hr. destruct (calculateStats_after_metrics rt o Hm) as [s ->].
  assert (Eroot : get (VObj o) "root_group" = Ok (VObj rg))
    by (unfold get, field; now rewrite Hr).
  split.
  - intros Ht Hi. unfold stats_root_checks. rewrite Eroot. cbn [bind get].
    rewrite Ht. unfold countChecks. rewrite Hi. reflexivity.
  - intros Hc Ht Hi. unfold stats_root_checks. rewrite Eroot. cbn [bind get].
    rewrite Hc. cbn [bind]. unfold stats_group_checks. rewrite Eroot. cbn [bind get].
    unfold js_or. rewrite Ht, Hi. reflexivity.
Qed.

Lemma checks_must_be_iterable_example :
  calculateStats sample_runtime checks_object_summary = Throw NotIterable
  /\ calculateStats sample_runtime groups_number_summary = Throw NotIterable.
Proof.
  split.
  - exact (proj1 (checks_must_be_iterable sample_runtime
                    [("metrics", record []); ("root_group", record [("checks", record [])])]
                    [("checks", record [])] eq_refl eq_refl) eq_refl eq_refl).
  - exact (proj2 (checks_must_be_iterable sample_runtime
                    [("metrics", record []); ("root_group", record [("groups", vnum 3)])]
                    [("groups", vnum 3)] eq_refl eq_refl) eq_refl eq_refl eq_refl).
Defined.

(** ** The verdict, read off the summary *)

Lemma failed_expressions_zero (ts : obj) :
  all_fields wf_threshold ts = true ->
  (failed_expressions ts = 0%nat
   <-> forallb (fun t => match snd t with
                         | VObj t' => truthy (field t' "ok")
                         | _ => false
                         end) ts = true).
Proof.
  unfold failed_expressions, all_fields.
  induction ts as [|[k t] ts IH]; intros H; [split; reflexivity|].
  cbn [forallb snd] in H. apply andb_prop in H. destruct H as [Ht Hts].
  destruct (wf_threshold_inv t Ht) as (to & b & -> & Hb).
  cbn [filter forallb snd]. rewrite Hb. cbn [truthy].
  destruct b; cbn [negb andb List.length].
  - now apply IH.
  - split; discriminate.
Qed.

Lemma failed_thresholds_zero (ms : obj) :
  all_fields wf_metric ms = true ->
  (failed_thresholds ms = 0%nat <-> all_thresholds_ok ms = true).
Proof.
  unfold failed_thresholds, all_thresholds_ok, all_fields.
  induction ms as [|[k m] ms IH]; intros H; [split; reflexivity|].
  cbn [forallb snd] in H. apply andb_prop in H. destruct H as [Hm Hms].
  specialize (IH Hms).
  cbn [map fold_right forallb snd].
  destruct (wf_metric_inv m Hm) as (mo & vs & -> & _ & _ & Hth).
  destruct (thresholds_of (VObj mo)) as [ts|] eqn:Et; [|cbn [Nat.add andb]; exact IH].
  assert (Hts : all_fields wf_threshold ts = true).
  { unfold thresholds_of in Et. unfold opt_field in Hth.
    destruct (assoc "thresholds" mo) as [[| | | | | |ts']|]; try discriminate Et.
    injection Et as ->. cbn [wf_thresholds] in Hth. apply andb_prop in Hth. tauto. }
  pose proof (failed_expressions_zero ts Hts) as Hz.
  rewrite andb_true_iff, <- Hz, <- IH. lia.
Qed.

Lemma check_field_nonneg (c : value) :
  wf_check c = true -> (0 <= check_field "fails" c)%Z.
Proof.
  intros H. destruct (wf_check_inv c H) as (co & -> & _ & _ & [E|E]);
    unfold check_field; [rewrite E; simpl; lia|].
  destruct (field co "fails") as [| | |[q|]| | |]; try discriminate E.
  unfold is_count in E. apply andb_prop in E. destruct E as [E _].
  apply andb_prop in E. destruct E as [_ E]. simpl. lia.
Qed.

Lemma sum_checks_zero (cs : list value) :
  forallb wf_check cs = true ->
  (0 <= sum_checks "fails" cs)%Z
  /\ (sum_checks "fails" cs = 0%Z
      <-> forallb (fun c => Z.eqb (check_field "fails" c) 0) cs = true).
Proof.
  unfold sum_checks. induction cs as [|c cs IH]; intros H.
  - split; [simpl; lia|split; reflexivity].
  - cbn [forallb] in H. apply andb_prop in H. destruct H as [Hc Hcs].
    destruct (IH Hcs) as [H0 Hz]. pose proof (check_field_nonneg c Hc) as Hc0.
    cbn [map fold_right forallb]. split; [lia|].
    rewrite andb_true_iff, Z.eqb_eq, <- Hz. lia.
Qed.

Lemma group_sums_zero (gs : list value) :
  forallb wf_group gs = true ->
  (0 <= fold_right Z.add 0%Z (map (fun g => sum_checks "fails" (checks_of g)) gs))%Z
  /\ (fold_right Z.add 0%Z (map (fun g => sum_checks "fails" (checks_of g)) gs) = 0%Z
      <-> forallb (fun c => Z.eqb (check_field "fails" c) 0) (flat_map checks_of gs)
          = true).
Proof.
  induction gs as [|g gs IH]; intros H.
  - split; [simpl; lia|split; reflexivity].
  - cbn [forallb] in H. apply andb_prop in H. destruct H as [Hg Hgs].
    destruct (IH Hgs) as [H0 Hz].
    assert (Hc : forallb wf_check (checks_of g) = true).
    { destruct g as [| | | | | |go]; try discriminate Hg. cbn [wf_group] in Hg.
      apply andb_prop in Hg. now apply checks_of_wf. }
    destruct (sum_checks_zero _ Hc) as [Hs0 Hsz].
    cbn [map fold_right flat_map]. split; [lia|].
    rewrite forallb_app, andb_true_iff, <- Hz, <- Hsz. lia.
Qed.

Lemma tally_fails_zero (rg : obj) :
  wf_root (VObj rg) = true ->
  (tally "fails" (VObj rg) = 0%Z <-> all_checks_pass (VObj rg) = true).
Proof.
  intros H. cbn [wf_root] in H. apply andb_prop in H. destruct H as [Hc Hg].
  destruct (sum_checks_zero _ (checks_of_wf rg Hc)) as [Hs0 Hsz].
  assert (Hgs : forallb wf_group (groups_of (VObj rg)) = true).
  { apply opt_field_cases in Hg. unfold groups_of.
    destruct Hg as [->|Hg]; [reflexivity|].
    destruct (field rg "groups"); try discriminate Hg. exact Hg. }
  destruct (group_sums_zero _ Hgs) as [Hg0 Hgz].
  unfold tally, all_checks_pass.
  rewrite forallb_app, andb_true_iff, <- Hsz, <- Hgz. lia.
Qed.

Lemma strict_eq_vnum (z : Z) : strict_eq_num (vnum z) 0 = true <-> z = 0%Z.
Proof.
  unfold strict_eq_num, vnum, num_eqb. rewrite Qeq_bool_iff.
  unfold Qeq. simpl. lia.
Qed.

(** The verdict is PASS exactly when [failedRequests] is zero, no check of
    the root group or of a direct child group has a failure, and every
    threshold expression of every metric is ok. *)
Theorem verdict_from_summary (rt : Runtime) (data : value) (ms : obj) (root : value) :
  wf_summary data = true ->
  get data "metrics" = Ok (VObj ms) ->
  get data "root_group" = Ok root ->
  exists st,
    calculateStats rt data = Ok st
    /\ (testStatus st = true
        <-> strict_eq_num (field st "failedRequests") 0 = true
            /\ all_checks_pass root = true
            /\ all_thresholds_ok ms = true).
Proof.
  intros Hwf Hgm Hgr.
  destruct (wf_summary_inv data Hwf) as (o & ms' & rg & -> & Hm & Hu & Hms & Hr & Hrg).
  assert (ms' = ms) as -> by (unfold get, field in Hgm; rewrite Hm in Hgm; congruence).
  assert (root = VObj rg) as -> by (unfold get, field in Hgr; rewrite Hr in Hgr; congruence).
  destruct (calculateStats_derived rt o ms rg Hm Hu Hms Hr Hrg)
    as (st & E & _ & _ & _ & _ & Hf & _ & (f & Hc & _ & Cf & _) & _).
  exists st. split; [exact E|].
  unfold testStatus. rewrite !andb_true_iff, Hf, Hc, !strict_eq_vnum.
  rewrite Cf, (tally_fails_zero rg Hrg), <- (failed_thresholds_zero ms Hms).
  intuition lia.
Qed.

Lemma verdict_from_summary_example :
  wf_summary transfer_summary = true
  /\ exists st,
       calculateStats sample_runtime transfer_summary = Ok st
       /\ (testStatus st = true
           <-> strict_eq_num (field st "failedRequests") 0 = true
               /\ all_checks_pass (record []) = true
               /\ all_thresholds_ok
                    [ ("data_received",
                       record [("values", record [("count", vnum 1234567)])]);
                      ("data_sent",
                       record [("values", record [("count", vnum 4999)])]) ] = true).
Proof.
  split; [reflexivity|].
  exact (verdict_from_summary sample_runtime transfer_summary _ _ eq_refl eq_refl eq_refl).
Defined.

(** ** The sections of the report *)

Lemma foldM_ext {A S : Type} (f g : S -> A -> result S) (xs : list A) :
  (forall s x, In x xs -> f s x = g s x) ->
  forall a, foldM f xs a = foldM g xs a.
Proof.
  induction xs as [|x xs IH]; intros H a; [reflexivity|].
  cbn [foldM]. rewrite (H a x (or_introl eq_refl)).
  destruct (g a x) as [a'|e]; cbn [bind]; [|reflexivity].
  apply IH. intros s y Hy. apply H. now right.
Qed.

(** *** The metrics table *)

(** The table reads the eight standard metrics and nothing else: two
    summaries that agree on them get the same table (or the same fault),
    whatever else they hold. *)
Theorem generateMetricsTable_standard_only (rt : Runtime) (d1 d2 : value) :
  (forall name, In name standardMetrics -> metric d1 name = metric d2 name) ->
  generateMetricsTable rt d1 = generateMetricsTable rt d2.
Proof.
  intros H. unfold generateMetricsTable. cbv zeta.
  rewrite (foldM_ext (metrics_row rt d1) (metrics_row rt d2)); [reflexivity|].
  intros s name Hin. unfold metrics_row. now rewrite (H name Hin).
Qed.

Lemma generateMetricsTable_standard_only_example :
  (forall name, In name standardMetrics ->
                metric transfer_summary name = metric metrics_only_summary name)
  /\ generateMetricsTable sample_runtime transfer_summary
     = generateMetricsTable sample_runtime metrics_only_summary.
Proof.
  assert (H : forall name, In name standardMetrics ->
                metric transfer_summary name = metric metrics_only_summary name).
  { intros name Hin. repeat (destruct Hin as [<-|Hin]; [reflexivity|]). destruct Hin. }
  split; [exact H|].
  exact (generateMetricsTable_standard_only sample_runtime _ _ H).
Defined.

(** *** The additional information *)

Lemma info_rows (rt : Runtime) (o l : obj) (html : string) :
  resolves o l ->
  foldM (info_row rt (VObj o)) (map fst l) html
  = Ok (html ++ String.concat "" (map (fun kv => info_row_text rt (fst kv) (snd kv)) l)).
Proof.
  revert html. induction l as [|[k v] l IH]; intros html Hres.
  - cbn. now rewrite str_app_nil.
  - cbn [map fst snd foldM]. unfold info_row at 1. cbv zeta. cbn [get bind].
    rewrite (Hres k v) by now left.
    rewrite (IH _ (resolves_tail _ _ _ Hres)). f_equal.
    rewrite concat_cons. unfold info_row_text. now rewrite !str_app_assoc.
Qed.

(** The table of additional information has one row per key, in the order
    of the keys; in each row the key and the value, turned into a string, go
    through [escapeHtml].  No value makes the section throw. *)
Theorem generateTestInfoSection_rows (rt : Runtime) (o : obj) :
  unique_keys o = true ->
  generateTestInfoSection rt (VObj o)
  = Ok (info_heading
        ++ String.concat "" (map (fun kv => info_row_text rt (fst kv) (snd kv)) o)
        ++ "</table>" ++ "</div>").
Proof.
  intros Hu. unfold generateTestInfoSection. cbv zeta. cbn [own_keys].
  rewrite (info_rows rt o o _ (resolves_self o Hu)). cbn [bind]. f_equal.
  unfold info_heading. now rewrite !str_app_assoc.
Qed.

Lemma generateTestInfoSection_rows_example :
  unique_keys sample_info = true
  /\ generateTestInfoSection sample_runtime (VObj sample_info)
     = Ok (info_heading
           ++ info_row_text sample_runtime "environment" (VStr "<staging>")
           ++ info_row_text sample_runtime "virtual users" (vnum 50)
           ++ "</table></div>").
Proof.
  split; [reflexivity|].
  exact (generateTestInfoSection_rows sample_runtime sample_info eq_refl).
Defined.

(** *** The checks *)

Lemma js_gt_num_length (rt : Runtime) (n : nat) :
  js_gt_num rt (vnum (Z.of_nat n)) 0 = negb (Nat.eqb n 0).
Proof.
  unfold js_gt_num, to_number, vnum, num_gtb. destruct n as [|n]; [reflexivity|].
  cbn [Nat.eqb negb]. apply Qlt_bool_iff. rewrite <- Zlt_Qlt. lia.
Qed.

Lemma foldM_appends {A : Type} (body : string -> A -> result string) (xs : list A) :
  (forall h x r, body h x = Ok r -> exists t, r = h ++ t) ->
  forall h r, foldM body xs h = Ok r -> exists t, r = h ++ t.
Proof.
  intros Hbody. induction xs as [|x xs IH]; intros h r.
  - cbn. intros [= <-]. exists "". now rewrite str_app_nil.
  - cbn [foldM]. destruct (body h x) as [h'|e] eqn:E; cbn [bind]; [|discriminate].
    intros Hr. destruct (Hbody h x h' E) as [t1 ->].
    destruct (IH _ _ Hr) as [t2 ->]. exists (t1 ++ t2). now rewrite str_app_assoc.
Qed.

Lemma check_item_appends (rt : Runtime) (h : string) (c : value) (r : string) :
  check_item rt h c = Ok r -> exists t, r = h ++ t.
Proof.
  unfold check_item. cbv zeta.
  destruct (get c "name") as [name|]; cbn [bind]; [|discriminate].
  destruct (get c "passes") as [passes|]; cbn [bind]; [|discriminate].
  destruct (get c "fails") as [fails|]; cbn [bind]; [|discriminate].
  destruct (js_gt_num rt fails 0); cbn [bind]; intros [= <-];
    rewrite !str_app_assoc; eexists; reflexivity.
Qed.

Lemma group_check_item_appends (rt : Runtime) (h : string) (c : value) (r : string) :
  group_check_item rt h c = Ok r -> exists t, r = h ++ t.
Proof.
  unfold group_check_item.
  destruct (get c "fails"); cbn [bind]; [apply check_item_appends|discriminate].
Qed.

(** A group block starts with a container and a heading. *)
Lemma group_block_appends (rt : Runtime) (h : string) (g : value) (r : string) :
  group_block rt h g = Ok r ->
  exists t, r = h ++ ("<div class=" ++ dq ++ "chart-container" ++ dq ++ ">")
                ++ ("<h3 class=" ++ dq ++ "chart-title" ++ dq ++ "><i class=" ++ dq ++ "fas fa-layer-group" ++ dq ++ "></i> Group: ")
                ++ t.
Proof.
  unfold group_block. cbv zeta.
  destruct (get g "name") as [name|]; cbn [bind]; [|discriminate].
  destruct (get g "checks") as [checks|]; cbn [bind]; [|discriminate].
  destruct (and_then _ _) as [[|]|]; cbn [bind]; try discriminate.
  - destruct (iterate checks) as [items|]; cbn [bind]; [|discriminate].
    destruct (foldM _ _ _) as [h'|] eqn:E; cbn [bind]; [|discriminate].
    intros [= <-].
    destruct (foldM_appends _ items (group_check_item_appends rt) _ _ E) as [t ->].
    rewrite !str_app_assoc. eexists. reflexivity.
  - intros [= <-]. rewrite !str_app_assoc. eexists. reflexivity.
Qed.

Lemma group_blocks_appends (rt : Runtime) (gs : list value) (h r : string) :
  foldM (group_block rt) gs h = Ok r -> exists t, r = h ++ t.
Proof.
  apply foldM_appends. intros h' g r' E.
  destruct (group_block_appends rt h' g r' E) as [t ->]. eexists. reflexivity.
Qed.

Section ChecksSection.
Context (rt : Runtime) (o rg : obj).
Hypothesis Hroot : assoc "root_group" o = Some (VObj rg).
Hypothesis Hwfroot : wf_root (VObj rg) = true.

(** The section on a well-formed root group, with the guards resolved. *)
Lemma generateChecksSection_shape :
  generateChecksSection rt (VObj o)
  = (html1 <- match groups_of (VObj rg) with
              | [] => Ok ""
              | gs => foldM (group_block rt) gs ""
              end ;;
     html2 <- match checks_of (VObj rg) with
              | [] => Ok html1
              | cs =>
                  h <- foldM (check_item rt) cs
                         ((html1 ++ ("<div class=" ++ dq ++ "chart-container" ++ dq ++ ">"))
                          ++ ("<h3 class=" ++ dq ++ "chart-title" ++ dq ++ "><i class=" ++ dq ++ "fas fa-list-check" ++ dq ++ "></i> Other Checks</h3>")) ;;
                  Ok (h ++ "</div>")
              end ;;
     if String.eqb html2 "" then Ok no_checks_message else Ok html2).
Proof.
  unfold generateChecksSection, and_then. cbv zeta.
  rewrite (root_ok o rg Hroot). cbn [bind get].
  cbn [wf_root] in Hwfroot. apply andb_prop in Hwfroot. destruct Hwfroot as [Hc Hg].
  apply opt_field_cases in Hc, Hg. unfold groups_of, checks_of.
  assert (Eg : field rg "groups" = VUndef \/ exists gs, field rg "groups" = VArr gs).
  { destruct Hg as [->|Hg]; [now left|right].
    destruct (field rg "groups"); try discriminate Hg. eauto. }
  assert (Ec : field rg "checks" = VUndef \/ exists cs, field rg "checks" = VArr cs).
  { destruct Hc as [->|Hc]; [now left|right].
    destruct (field rg "checks"); try discriminate Hc. eauto. }
  clear Hc Hg.
  destruct Eg as [->|[gs ->]]; destruct Ec as [->|[cs ->]];
    cbn [truthy bind get iterate]; rewrite ?String.eqb_refl; cbn [bind];
    rewrite ?js_gt_num_length.
  - reflexivity.
  - destruct cs as [|c cs]; cbn [List.length Nat.eqb negb bind]; [reflexivity|].
    destruct (foldM _ _ _); cbn [bind truthy]; [|reflexivity].
    now destruct (String.eqb _ "").
  - destruct gs as [|g gs]; cbn [List.length Nat.eqb negb bind]; [reflexivity|].
    destruct (foldM _ _ _); cbn [bind truthy]; [|reflexivity].
    now destruct (String.eqb _ "").
  - destruct gs as [|g gs]; cbn [List.length Nat.eqb negb bind].
    + destruct cs as [|c cs]; cbn [List.length Nat.eqb negb bind]; [reflexivity|].
      destruct (foldM _ _ _); cbn [bind truthy]; [|reflexivity].
      now destruct (String.eqb _ "").
    + destruct (foldM (group_block rt) _ _); cbn [bind]; [|reflexivity].
      destruct cs as [|c cs]; cbn [List.length Nat.eqb negb bind truthy].
      * now destruct (String.eqb _ "").
      * destruct (foldM _ _ _); cbn [bind truthy]; [|reflexivity].
        now destruct (String.eqb _ "").
Qed.

End ChecksSection.

(** What starts with a container and a heading is neither empty nor the
    message. *)
Ltac not_the_message E :=
  match type of E with
  | context [String.eqb ?x ""] =>
      let N1 := fresh "N" in
      let N2 := fresh "N" in
      assert (N1 : x <> "") by (let H := fresh in intros H; vm_compute in H; discriminate H);
      assert (N2 : x <> no_checks_message)
        by (let H := fresh in intros H; vm_compute in H; discriminate H);
      apply String.eqb_neq in N1; rewrite N1 in E;
      injection E as <-; split; [intros H; now elim N2|]
  end.

(** On a well-formed summary the section is the text "No checks configured
    for this test" exactly when the root group has no child group and no
    check of its own. *)
Theorem checks_section_message (rt : Runtime) (data root : value) :
  wf_summary data = true ->
  get data "root_group" = Ok root ->
  exists html,
    generateChecksSection rt data = Ok html
    /\ (html = no_checks_message <-> groups_of root = [] /\ checks_of root = []).
Proof.
  intros Hwf Hgr.
  destruct (wf_summary_inv data Hwf) as (o & ms & rg & -> & Hm & Hu & Hms & Hr & Hrg).
  assert (root = VObj rg) as -> by (unfold get, field in Hgr; rewrite Hr in Hgr; congruence).
  destruct (generateChecksSection_ok rt o rg Hr Hrg) as [html E].
  exists html. split; [exact E|].
  rewrite (generateChecksSection_shape rt o rg Hr Hrg) in E.
  destruct (groups_of (VObj rg)) as [|g gs] eqn:Egs.
  - cbn [bind] in E. destruct (checks_of (VObj rg)) as [|c cs] eqn:Ecs.
    + cbn [bind] in E. injection E as <-. tauto.
    + destruct (foldM _ _ _) as [h|] eqn:Ef; cbn [bind] in E; [|discriminate].
      destruct (foldM_appends _ _ (check_item_appends rt) _ _ Ef) as [t ->].
      not_the_message E. intros [_ H]; discriminate H.
  - destruct (foldM (group_block rt) _ _) as [h1|] eqn:Ef; cbn [bind] in E; [|discriminate].
    cbn [foldM] in Ef.
    destruct (group_block rt "" g) as [h0|] eqn:Eg; cbn [bind] in Ef; [|discriminate].
    destruct (group_block_appends rt "" g h0 Eg) as [t0 ->].
    destruct (group_blocks_appends rt gs _ _ Ef) as [t1 ->].
    destruct (checks_of (VObj rg)) as [|c cs] eqn:Ecs.
    + cbn [bind] in E. not_the_message E. intros [H _]; discriminate H.
    + destruct (foldM (check_item rt) _ _) as [h|] eqn:Ec; cbn [bind] in E; [|discriminate].
      destruct (foldM_appends _ _ (check_item_appends rt) _ _ Ec) as [t ->].
      not_the_message E. intros [H _]; discriminate H.
Qed.

Lemma checks_section_message_example :
  wf_summary one_check_summary = true
  /\ exists html,
       generateChecksSection sample_runtime one_check_summary = Ok html
       /\ (html = no_checks_message
           <-> @nil value = []
               /\ [record [("name", VStr "status is 200"); ("passes", vnum 3);
                           ("fails", vnum 0)]] = []).
Proof.
  split; [reflexivity|].
  exact (checks_section_message sample_runtime one_check_summary _ eq_refl eq_refl).
Defined.

(** *** The thresholds *)

Section ThresholdCards.
Context (rt : Runtime).

Lemma threshold_item_spec (name : string) (ts : obj) (st : thresholds_state)
  (k : string) (to : obj) (b : bool) :
  field ts k = VObj to -> field to "ok" = VBool b ->
  exists st',
    threshold_item rt name (VObj ts) st k = Ok st'
    /\ (exists t, ts_html st' = ts_html st ++ t)
    /\ ts_hasThresholds st' = ts_hasThresholds st
    /\ ts_passedCount st'
       = (if b then incr rt (ts_passedCount st) else ts_passedCount st)
    /\ ts_failedCount st'
       = (if b then ts_failedCount st else incr rt (ts_failedCount st)).
Proof.
  intros Ek Eok. unfold threshold_item. cbv zeta. cbn [get bind].
  rewrite Ek. cbn [get bind]. rewrite Eok. cbn [truthy].
  eexists. split; [reflexivity|]. cbn [ts_html ts_hasThresholds ts_passedCount ts_failedCount].
  split; [|auto]. destruct b; rewrite !str_app_assoc; eexists; reflexivity.
Qed.

Lemma threshold_items_spec (name : string) (ts l : obj) (st : thresholds_state)
  (p f : Z) :
  resolves ts l -> all_fields wf_threshold l = true ->
  ts_passedCount st = vnum p -> ts_failedCount st = vnum f ->
  exists st',
    foldM (threshold_item rt name (VObj ts)) (map fst l) st = Ok st'
    /\ (exists t, ts_html st' = ts_html st ++ t)
    /\ ts_hasThresholds st' = ts_hasThresholds st
    /\ ts_passedCount st' = vnum (p + Z.of_nat (passed_expressions l))
    /\ ts_failedCount st' = vnum (f + Z.of_nat (failed_expressions l)).
Proof.
  revert st p f. induction l as [|[k t] l IH]; intros st p f Hres Hwf Hp Hf.
  - exists st. split; [reflexivity|]. split; [exists ""; now rewrite str_app_nil|].
    split; [reflexivity|]. unfold passed_expressions, failed_expressions. simpl.
    now rewrite !Z.add_0_r.
  - simpl in Hwf. apply andb_prop in Hwf. destruct Hwf as [Ht Hl].
    destruct (wf_threshold_inv t Ht) as (to & b & -> & Hok).
    destruct (threshold_item_spec name ts st k to b (Hres k _ (or_introl eq_refl)) Hok)
      as (st1 & E1 & [t1 Hh1] & Hhas1 & Hp1 & Hf1).
    cbn [map fst foldM]. rewrite E1. cbn [bind].
    rewrite Hp, Hf, !incr_integer in *.
    destruct (IH st1 (if b then p + 1 else p)%Z (if b then f else f + 1)%Z
                (resolves_tail _ _ _ Hres) Hl)
      as (st' & E & [t Hh] & Hhas & Hp' & Hf').
    { rewrite Hp1. now destruct b. }
    { rewrite Hf1. now destruct b. }
    exists st'. split; [exact E|]. split.
    { exists (t1 ++ t). now rewrite Hh, Hh1, str_app_assoc. }
    split; [congruence|].
    unfold passed_expressions, failed_expressions in *. cbn [filter snd].
    rewrite Hok. cbn [truthy]. rewrite Hp', Hf'.
    destruct b; cbn [negb List.length]; split; f_equal; lia.
Qed.

End ThresholdCards.

Section ThresholdsSection.
Context (rt : Runtime) (o ms : obj).
Hypothesis Hmetrics : assoc "metrics" o = Some (VObj ms).
Hypothesis Hwfms : all_fields wf_metric ms = true.

Lemma thresholds_of_metrics_spec (l : obj) (st : thresholds_state) (p f : Z) :
  resolves ms l -> all_fields wf_metric l = true ->
  ts_passedCount st = vnum p -> ts_failedCount st = vnum f ->
  exists st',
    foldM (thresholds_of_metric rt (VObj o)) (map fst l) st = Ok st'
    /\ (exists t, ts_html st' = ts_html st ++ t)
    /\ ts_hasThresholds st'
       = (ts_hasThresholds st || negb (Nat.eqb (metrics_with_thresholds l) 0))
    /\ ts_passedCount st' = vnum (p + Z.of_nat (passed_thresholds l))
    /\ ts_failedCount st' = vnum (f + Z.of_nat (failed_thresholds l))
    /\ (metrics_with_thresholds l = 0%nat -> st' = st).
Proof.
  revert st p f. induction l as [|[k m] l IH]; intros st p f Hres Hwf Hp Hf.
  - exists st. split; [reflexivity|]. split; [exists ""; now rewrite str_app_nil|].
    unfold metrics_with_thresholds, passed_thresholds, failed_thresholds. simpl.
    rewrite orb_false_r, !Z.add_0_r. auto.
  - simpl in Hwf. apply andb_prop in Hwf. destruct Hwf as [Hm Hl].
    pose proof (resolves_tail _ _ _ Hres) as Hres'.
    cbn [map fst foldM]. unfold thresholds_of_metric at 1.
    rewrite (metric_ok o ms Hmetrics). rewrite (Hres k m) by now left.
    destruct (wf_metric_inv m Hm) as (mo & vs & -> & _ & _ & Hth).
    cbn [bind get].
    unfold metrics_with_thresholds, passed_thresholds, failed_thresholds.
    cbn [filter map snd fold_right].
    unfold opt_field in Hth.
    destruct (assoc "thresholds" mo) as [th|] eqn:Eth.
    + assert (Efield : field mo "thresholds" = th) by (unfold field; now rewrite Eth).
      rewrite Efield.
      destruct th as [| | | | | |ts]; try discriminate.
      simpl in Hth. apply andb_prop in Hth. destruct Hth as [Hu Hts].
      assert (Et : thresholds_of (VObj mo) = Some ts)
        by (unfold thresholds_of; now rewrite Eth).
      rewrite !Et.
      cbn [truthy bind own_keys].
      destruct (threshold_items_spec rt k ts ts
                  {| ts_html := ts_html st; ts_hasThresholds := true;
                     ts_passedCount := ts_passedCount st;
                     ts_failedCount := ts_failedCount st |} p f
                  (resolves_self ts Hu) Hts Hp Hf)
        as (st1 & E1 & [t1 Hh1] & Hhas1 & Hp1 & Hf1).
      rewrite E1. cbn [bind]. cbn [ts_html ts_hasThresholds] in Hh1, Hhas1.
      destruct (IH st1 _ _ Hres' Hl Hp1 Hf1) as (st' & E & [t Hh] & Hhas & Hp' & Hf' & _).
      exists st'. split; [exact E|]. split.
      { exists (t1 ++ t). now rewrite Hh, Hh1, str_app_assoc. }
      split.
      { rewrite Hhas, Hhas1. cbn [List.length Nat.eqb negb]. now rewrite orb_true_r. }
      unfold passed_thresholds, failed_thresholds in Hp', Hf'.
      split; [rewrite Hp'; f_equal; lia|]. split; [rewrite Hf'; f_equal; lia|].
      cbn [List.length]. discriminate.
    + assert (Efield : field mo "thresholds" = VUndef) by (unfold field; now rewrite Eth).
      assert (Et : thresholds_of (VObj mo) = None)
        by (unfold thresholds_of; now rewrite Eth).
      rewrite !Et. cbn [Nat.add].
      rewrite Efield. cbn [truthy bind].
      destruct (IH st p f Hres' Hl Hp Hf) as (st' & E & Hh & Hhas & Hp' & Hf' & Hsame).
      exists st'. split; [exact E|]. split; [exact Hh|]. split; [exact Hhas|].
      split; [exact Hp'|]. split; [exact Hf'|exact Hsame].
Qed.

End ThresholdsSection.

(** The first [</h3>] of what the loop has written is the one of the
    heading, whatever the cards hold. *)
Lemma heading_cut (cards : string) :
  substring_from (thresholds_heading ++ cards)
    (index_of (thresholds_heading ++ cards) "</h3>" + 5) = cards.
Proof.
  assert (E : (index_of (thresholds_heading ++ cards) "</h3>" + 5
               = Z.of_nat (String.length thresholds_heading))%Z)
    by (destruct cards; vm_compute; reflexivity).
  rewrite E. apply substring_from_app.
Qed.

(** When no metric carries a thresholds mapping the section is the heading
    followed by the text "No thresholds configured for this test". *)
Theorem thresholds_section_none (rt : Runtime) (data : value) (ms : obj) :
  wf_summary data = true ->
  get data "metrics" = Ok (VObj ms) ->
  metrics_with_thresholds ms = 0%nat ->
  generateThresholdsSection rt data
  = Ok (thresholds_heading ++ no_thresholds_message ++ "</div>").
Proof.
  intros Hwf Hgm Hnone.
  destruct (wf_summary_inv data Hwf) as (o & ms' & rg & -> & Hm & Hu & Hms & Hr & Hrg).
  assert (ms' = ms) as -> by (unfold get, field in Hgm; rewrite Hm in Hgm; congruence).
  unfold generateThresholdsSection. cbv zeta. rewrite Hgm. cbn [bind own_keys].
  destruct (thresholds_of_metrics_spec rt o ms Hm ms
              {| ts_html := thresholds_heading; ts_hasThresholds := false;
                 ts_passedCount := vnum 0; ts_failedCount := vnum 0 |} 0 0
              (resolves_self ms Hu) Hms eq_refl eq_refl)
    as (st & E & _ & _ & _ & _ & Hsame).
  unfold thresholds_heading in E. rewrite E. cbn [bind].
  rewrite (Hsame Hnone). cbn [ts_html ts_hasThresholds negb].
  unfold thresholds_heading. now rewrite !str_app_assoc.
Qed.

Lemma thresholds_section_none_example :
  wf_summary transfer_summary = true
  /\ generateThresholdsSection sample_runtime transfer_summary
     = Ok (thresholds_heading ++ no_thresholds_message ++ "</div>").
Proof.
  split; [reflexivity|].
  exact (thresholds_section_none sample_runtime transfer_summary _ eq_refl eq_refl eq_refl).
Defined.

(** When some metric carries a thresholds mapping, the heading of the loop
    is replaced by the two summary cards and every card the loop has written
    is kept, whatever the names of the metrics and of the expressions are.
    The cards count the expressions whose [ok] is truthy and those whose [ok]
    is falsy; the second count is the [thresholdFailures] of the
    statistics. *)
Theorem thresholds_section_summary (rt : Runtime) (data : value) (ms : obj) :
  wf_summary data = true ->
  get data "metrics" = Ok (VObj ms) ->
  metrics_with_thresholds ms <> 0%nat ->
  exists st cards stats,
    thresholds_loop rt data = Ok st
    /\ ts_html st = thresholds_heading ++ cards
    /\ generateThresholdsSection rt data
       = Ok (thresholds_summary_01
             ++ to_string rt (vnum (Z.of_nat (passed_thresholds ms)))
             ++ thresholds_summary_02
             ++ to_string rt (vnum (Z.of_nat (failed_thresholds ms)))
             ++ thresholds_summary_03 ++ cards ++ "</div>")
    /\ calculateStats rt data = Ok stats
    /\ field stats "thresholdFailures" = vnum (Z.of_nat (failed_thresholds ms)).
Proof.
  intros Hwf Hgm Hsome.
  destruct (wf_summary_inv data Hwf) as (o & ms' & rg & -> & Hm & Hu & Hms & Hr & Hrg).
  assert (ms' = ms) as -> by (unfold get, field in Hgm; rewrite Hm in Hgm; congruence).
  destruct (calculateStats_derived rt o ms rg Hm Hu Hms Hr Hrg)
    as (stats & Es & _ & _ & _ & _ & Hf & _).
  destruct (thresholds_of_metrics_spec rt o ms Hm ms
              {| ts_html := thresholds_heading; ts_hasThresholds := false;
                 ts_passedCount := vnum 0; ts_failedCount := vnum 0 |} 0 0
              (resolves_self ms Hu) Hms eq_refl eq_refl)
    as (st & E & [cards Hh] & Hhas & Hp & Hfc & _).
  cbn [ts_html ts_hasThresholds orb] in Hh, Hhas.
  exists st, cards, stats.
  split; [unfold thresholds_loop; rewrite Hgm; exact E|]. split; [exact Hh|].
  split; [|split; [exact Es|exact Hf]].
  unfold generateThresholdsSection. cbv zeta. rewrite Hgm. cbn [bind own_keys].
  unfold thresholds_heading in E. rewrite E. cbn [bind].
  rewrite Hhas, Hh, Hp, Hfc, heading_cut.
  destruct (metrics_with_thresholds ms) as [|n]; [now elim Hsome|].
  cbn [Nat.eqb negb]. rewrite !concat_cons. cbn [String.concat].
  rewrite !str_app_assoc. reflexivity.
Qed.

Lemma thresholds_section_summary_example :
  wf_summary sample_summary = true
  /\ metrics_with_thresholds two_thresholds_metrics <> 0%nat
  /\ exists st cards stats,
       thresholds_loop sample_runtime sample_summary = Ok st
       /\ ts_html st = thresholds_heading ++ cards
       /\ generateThresholdsSection sample_runtime sample_summary
          = Ok (thresholds_summary_01 ++ "1" ++ thresholds_summary_02 ++ "1"
                ++ thresholds_summary_03 ++ cards ++ "</div>")
       /\ calculateStats sample_runtime sample_summary = Ok stats
       /\ field stats "thresholdFailures" = vnum 1.
Proof.
  assert (H : metrics_with_thresholds two_thresholds_metrics <> 0%nat) by discriminate.
  split; [reflexivity|]. split; [exact H|].
  exact (thresholds_section_summary sample_runtime sample_summary two_thresholds_metrics
           eq_refl eq_refl H).
Defined.

(** ** Counts given as text *)

(** The digits of [n] are read as the double nearest to [n]. *)
Lemma parseInt_digits (rt : Runtime) (n : N) :
  exists m, parseInt rt (js_or (VStr (n_to_string n)) (vnum 0)) = vnum m
            /\ counts_as (Z.of_N n) m.
Proof.
  destruct (n_to_string_head n) as (c & s & E & _).
  destruct (round64_natural (Z.of_N n) ltac:(lia)) as (m & Em & M0 & Mz & Me).
  exists m. split; [|unfold counts_as; auto].
  unfold js_or, parseInt. rewrite E. cbn [truthy String.eqb negb to_string].
  rewrite <- E. unfold vnum. f_equal. now rewrite parse_int_string_digits, Em.
Qed.

Section TextCounts.
Context (rt : Runtime).

Let count_body : value * value -> value -> result (value * value) :=
  fun (acc : value * value) (check : value) =>
    let '(passes, fails) := acc in
    p <- get check "passes" ;;
    let passes := js_add rt passes (parseInt rt (js_or p (vnum 0))) in
    f <- get check "fails" ;;
    let fails := js_add rt fails (parseInt rt (js_or f (vnum 0))) in
    Ok (passes, fails).

Lemma count_text_checks (counts : list (N * N)) (a b a' b' : Z) :
  (0 <= a)%Z -> (0 <= b)%Z -> counts_as a a' -> counts_as b b' ->
  exists p f,
    foldM count_body (map text_check counts) (vnum a', vnum b') = Ok (vnum p, vnum f)
    /\ counts_as (a + fold_right Z.add 0%Z (map (fun c => Z.of_N (fst c)) counts)) p
    /\ counts_as (b + fold_right Z.add 0%Z (map (fun c => Z.of_N (snd c)) counts)) f.
Proof.
  revert a b a' b'. induction counts as [|[p f] counts IH]; intros a b a' b' Ha Hb Ca Cb.
  - exists a', b'. simpl. rewrite !Z.add_0_r. auto.
  - cbn [map foldM]. unfold count_body at 1.
    change (text_check (p, f))
      with (VObj [("name", VStr "check"); ("passes", VStr (n_to_string p));
                  ("fails", VStr (n_to_string f))]).
    cbn [get bind].
    change (field [("name", VStr "check"); ("passes", VStr (n_to_string p));
                   ("fails", VStr (n_to_string f))] "passes")
      with (VStr (n_to_string p)).
    change (field [("name", VStr "check"); ("passes", VStr (n_to_string p));
                   ("fails", VStr (n_to_string f))] "fails")
      with (VStr (n_to_string f)).
    destruct (parseInt_digits rt p) as (p' & Ep & Cp).
    destruct (parseInt_digits rt f) as (f' & Ef & Cf).
    rewrite Ep, Ef.
    destruct (js_add_counts rt a (Z.of_N p) a' p' Ha ltac:(lia) Ca Cp) as (a1 & Ea & Ca1).
    destruct (js_add_counts rt b (Z.of_N f) b' f' Hb ltac:(lia) Cb Cf) as (b1 & Eb & Cb1).
    rewrite Ea, Eb.
    destruct (IH (a + Z.of_N p)%Z (b + Z.of_N f)%Z a1 b1 ltac:(lia) ltac:(lia) Ca1 Cb1)
      as (p1 & f1 & E & Cp1 & Cf1).
    exists p1, f1. split; [exact E|].
    cbn [map fold_right fst snd]. rewrite !Z.add_assoc. auto.
Qed.

End TextCounts.

(** [countChecks] reads the counts with [parseInt]: checks whose [passes] and
    [fails] are decimal digit strings are tallied as the numbers they spell,
    as long as each of the two sums stays within 2^53 - 1. *)
Theorem countChecks_reads_digit_strings (rt : Runtime) (counts : list (N * N)) :
  (fold_right Z.add 0 (map (fun c => Z.of_N (fst c)) counts) <= max_safe_integer)%Z ->
  (fold_right Z.add 0 (map (fun c => Z.of_N (snd c)) counts) <= max_safe_integer)%Z ->
  countChecks rt (VArr (map text_check counts))
  = Ok (vnum (fold_right Z.add 0%Z (map (fun c => Z.of_N (fst c)) counts)),
        vnum (fold_right Z.add 0%Z (map (fun c => Z.of_N (snd c)) counts))).
Proof.
  intros Hp Hf. unfold countChecks. cbn [iterate bind].
  destruct (count_text_checks rt counts 0 0 0 0 ltac:(lia) ltac:(lia)
              (counts_as_refl 0 ltac:(lia)) (counts_as_refl 0 ltac:(lia)))
    as (p & f & E & Cp & Cf).
  rewrite (counts_as_exact _ _ Cp Hp) in E. rewrite (counts_as_exact _ _ Cf Hf) in E.
  exact E.
Qed.

(** Two checks with the counts "3"/"0" and "12"/"1": 15 passes, 1 fail. *)
Lemma countChecks_reads_digit_strings_example :
  (3 + 12 <= max_safe_integer)%Z /\ (0 + 1 <= max_safe_integer)%Z
  /\ countChecks sample_runtime (VArr (map text_check [(3, 0); (12, 1)]%N))
     = Ok (vnum 15, vnum 1).
Proof.
  assert (Hp : (3 + 12 <= max_safe_integer)%Z) by (vm_compute; discriminate).
  assert (Hf : (0 + 1 <= max_safe_integer)%Z) by (vm_compute; discriminate).
  split; [exact Hp|]. split; [exact Hf|].
  apply (countChecks_reads_digit_strings sample_runtime [(3, 0); (12, 1)]%N);
    vm_compute; discriminate.
Defined.

(** ** The name of the report file *)

Lemma split_char_nonempty (sep : ascii) (s : string) : split_char sep s <> [].
Proof.
  destruct s as [|c s]; cbn [split_char]; [discriminate|].
  destruct (Ascii.eqb c sep); [discriminate|].
  destruct (split_char sep s); discriminate.
Qed.

Lemma join_split_colon (s : string) :
  String.concat "-" (split_char ":" s) = hyphenated s.
Proof.
  unfold hyphenated. induction s as [|c s IH]; [reflexivity|].
  cbn [split_char list_ascii_of_string map string_of_list_ascii].
  pose proof (split_char_nonempty ":" s) as Hne.
  destruct (Ascii.eqb c ":").
  - rewrite <- IH. destruct (split_char ":" s) as [|piece pieces]; [now elim Hne|].
    reflexivity.
  - rewrite <- IH. destruct (split_char ":" s) as [|piece pieces]; [now elim Hne|].
    destruct pieces; reflexivity.
Qed.

Lemma hyphenated_spec (s : string) :
  String.length (hyphenated s) = String.length s
  /\ forallb (fun c => negb (Ascii.eqb c ":")) (list_ascii_of_string (hyphenated s)) = true.
Proof.
  unfold hyphenated. induction s as [|c s [IH1 IH2]]; [split; reflexivity|].
  cbn [list_ascii_of_string map string_of_list_ascii String.length forallb].
  rewrite IH1, IH2. split; [reflexivity|].
  destruct (Ascii.eqb c ":") eqn:E; [reflexivity|now rewrite E].
Qed.

(** The report is written under [./reports/], named after the script
    ([test-reporter] when the environment names none) and the time, and in
    the time every colon is replaced by a hyphen: it keeps its length and
    holds no colon. *)
Theorem report_file_name (rt : Runtime) (script_name : value) (now : string) :
  reportFileName rt script_name now
  = "./reports/" ++ to_string rt (js_or script_name (VStr "test-reporter")) ++ "-"
    ++ hyphenated now ++ ".html"
  /\ String.length (hyphenated now) = String.length now
  /\ forallb (fun c => negb (Ascii.eqb c ":")) (list_ascii_of_string (hyphenated now))
     = true
  /\ reportFileName rt VUndef "2025-01-02T03:04:05.678Z"
     = "./reports/test-reporter-2025-01-02T03-04-05.678Z.html".
Proof.
  unfold reportFileName. cbv zeta. rewrite join_split_colon.
  destruct (hyphenated_spec now) as [H1 H2]. auto.
Qed.

(** *** Additional information without keys *)

(** An [additionalInfo] that has no key of its own (an empty array, [true],
    a number) adds neither the tab nor the panel: the document is that of no
    additional information. *)
Theorem htmlReport_info_without_keys (rt : Runtime) (data : value) (o : obj)
  (info : value) :
  truthy info = true -> own_keys info = [] ->
  htmlReport rt data (VObj (obj_set o "additionalInfo" info))
  = htmlReport rt data (VObj (obj_set o "additionalInfo" VUndef)).
Proof.
  intros Ht Hk. unfold htmlReport. cbv zeta. cbn [get bind].
  rewrite !field_set_same. rewrite !field_set_other by reflexivity.
  destruct (calculateStats rt data) as [st|e]; cbn [bind]; [|reflexivity].
  unfold js_or. rewrite Ht. cbn [truthy].
  unfold generateModernHTML. cbv zeta.
  assert (E : object_keys info = Ok []).
  { destruct info; try discriminate Ht; cbn [object_keys]; now rewrite Hk. }
  rewrite E. reflexivity.
Qed.

Lemma htmlReport_info_without_keys_example :
  truthy (VArr []) = true /\ own_keys (VArr []) = []
  /\ htmlReport sample_runtime sample_summary
       (VObj (obj_set [("title", VStr "run")] "additionalInfo" (VArr [])))
     = htmlReport sample_runtime sample_summary
         (VObj (obj_set [("title", VStr "run")] "additionalInfo" VUndef)).
Proof.
  split; [reflexivity|]. split; [reflexivity|].
  exact (htmlReport_info_without_keys sample_runtime sample_summary
           [("title", VStr "run")] (VArr []) eq_refl eq_refl).
Defined.

(** ** Instances *)

Lemma absent_metric_defaults_example :
  wf_summary one_check_summary = true
  /\ exists st,
       calculateStats sample_runtime one_check_summary = Ok st
       /\ field st "totalRequests" = vnum 0
       /\ field st "successRate" = vnum 0
       /\ field st "avgResponseTime" = vnum 0
       /\ field st "dataSent" = vnum 0
       /\ field st "testDuration" = vnum 0.
Proof.
  split; [reflexivity|].
  destruct (absent_metric_defaults sample_runtime one_check_summary eq_refl)
    as (st & E & H1 & H2 & H3 & _ & _ & _ & H7 & H8).
  exists st. split; [exact E|]. split; [exact (H1 eq_refl)|].
  split; [exact (proj2 (proj2 (proj2 (H2 eq_refl))))|].
  split; [exact (proj1 (H3 eq_refl))|]. split; [exact (H7 eq_refl)|exact H8].
Defined.

Lemma absent_statistic_example :
  wf_summary no_count_summary = true
  /\ metric_value no_count_summary "data_received" "count" = Ok VUndef
  /\ exists st,
       calculateStats sample_runtime no_count_summary = Ok st
       /\ field st "dataReceived" = VStr "NaN".
Proof.
  split; [reflexivity|]. split; [reflexivity|].
  destruct (absent_statistic sample_runtime no_count_summary eq_refl)
    as (st & E & _ & _ & _ & _ & _ & _ & _ & _ & _ & H & _).
  exists st. split; [exact E|exact (H eq_refl)].
Defined.

Lemma http_method_reaches_document_example :
  wf_summary sample_summary = true /\ wf_options script_options = true
  /\ exists doc,
       htmlReport sample_runtime sample_summary script_options = Ok doc
       /\ occurs script_method doc = true.
Proof.
  split; [reflexivity|]. split; [reflexivity|].
  exact (http_method_reaches_document sample_runtime sample_summary script_options
           eq_refl eq_refl eq_refl eq_refl).
Defined.

Lemma binary64_rates_agree_example :
  (0 <= 1250 <= 10000)%Z /\ binary64_chain 1250 = true.
Proof.
  assert (H : (0 <= 1250 <= 10000)%Z) by lia.
  split; [exact H|exact (binary64_rates_agree 1250 H)].
Defined.

(** *** A timing metric without values *)

Lemma foldM_throws {S : Type} (body : S -> string -> result S) (xs : list string)
  (x : string) (e : exn) :
  In x xs ->
  (forall h, body h x = Throw e) ->
  (forall h y, y <> x -> exists h', body h y = Ok h') ->
  forall h, foldM body xs h = Throw e.
Proof.
  intros Hin Hx Hy. induction xs as [|y xs IH]; intros h; [destruct Hin|].
  cbn [foldM]. destruct (String.eqb_spec y x) as [->|Hne].
  - now rewrite Hx.
  - destruct (Hy h y Hne) as [h' ->]. cbn [bind]. apply IH.
    destruct Hin as [->|Hin]; [now elim Hne|exact Hin].
Qed.

Lemma metrics_row_returns (rt : Runtime) (o ms : obj) (html name : string) :
  assoc "metrics" o = Some (VObj ms) ->
  field ms name = VUndef \/ wf_metric (field ms name) = true ->
  exists html', metrics_row rt (VObj o) html name = Ok html'.
Proof.
  intros Hm Hf. unfold metrics_row. rewrite (metric_ok o ms Hm). cbn [bind].
  destruct Hf as [->|Hf]; [cbn [truthy]; eauto|].
  destruct (wf_metric_inv _ Hf) as (mo & vs & -> & Ev & Hn & _).
  cbn [truthy bind get]. rewrite Ev. cbn [bind].
  destruct (metric_cell_ok rt vs "avg" Hn) as [c1 ->]. cbn [bind].
  destruct (metric_cell_ok rt vs "min" Hn) as [c2 ->]. cbn [bind].
  destruct (metric_cell_ok rt vs "med" Hn) as [c3 ->]. cbn [bind].
  destruct (metric_cell_ok rt vs "max" Hn) as [c4 ->]. cbn [bind].
  destruct (metric_cell_ok rt vs "p(90)" Hn) as [c5 ->]. cbn [bind].
  destruct (metric_cell_ok rt vs "p(95)" Hn) as [c6 ->]. cbn [bind].
  eauto.
Qed.

(** One of the eight standard metrics that is present as a record without
    [values] makes the metrics table throw at the first cell of its row,
    when the other metrics are well formed. *)
Theorem metrics_table_needs_values (rt : Runtime) (o ms mo : obj) (name : string) :
  assoc "metrics" o = Some (VObj ms) ->
  In name standardMetrics ->
  field ms name = VObj mo -> nullish (field mo "values") = true ->
  (forall other, other <> name ->
     field ms other = VUndef \/ wf_metric (field ms other) = true) ->
  generateMetricsTable rt (VObj o) = Throw (NullAccess "avg").
Proof.
  intros Hm Hin Hf Hv Hothers. unfold generateMetricsTable. cbv zeta.
  rewrite (foldM_throws (metrics_row rt (VObj o)) standardMetrics name (NullAccess "avg"));
    [reflexivity|exact Hin| |].
  - intros h. unfold metrics_row. rewrite (metric_ok o ms Hm), Hf.
    cbn [bind truthy get]. unfold metric_cell.
    destruct (field mo "values"); try discriminate Hv; reflexivity.
  - intros h y Hy. apply (metrics_row_returns rt o ms h y Hm). now apply Hothers.
Qed.

Lemma metrics_table_needs_values_example :
  generateMetricsTable sample_runtime
    (record [("metrics", VObj waiting_without_values); ("root_group", record [])])
  = Throw (NullAccess "avg").
Proof.
  apply (metrics_table_needs_values sample_runtime
           [("metrics", VObj waiting_without_values); ("root_group", record [])]
           waiting_without_values [] "http_req_waiting" eq_refl).
  - simpl. auto.
  - reflexivity.
  - reflexivity.
  - intros other Hne. unfold field, waiting_without_values. cbn [assoc].
    destruct (String.eqb other "http_req_duration"); [right; reflexivity|].
    destruct (String.eqb_spec other "http_req_waiting") as [->|_]; [now elim Hne|].
    now left.
Defined.

(** *** The summary handler *)

(** On a well-formed summary the handler returns one file: the report that
    [htmlReport] renders with no options, under the name built from the
    script and the time. *)
Theorem handleSummary_one_file (rt : Runtime) (script_name : value) (now : string)
  (data : value) :
  wf_summary data = true ->
  exists doc,
    htmlReport rt data VUndef = Ok doc
    /\ handleSummary rt script_name now data
       = Ok (VObj [("./reports/"
                    ++ to_string rt (js_or script_name (VStr "test-reporter")) ++ "-"
                    ++ hyphenated now ++ ".html",
                    VStr doc)]).
Proof.
  intros Hwf.
  destruct (htmlReport_wf rt data VUndef Hwf eq_refl) as (st & doc & rest & _ & E & _).
  exists doc. split; [exact E|].
  unfold handleSummary. cbv zeta. rewrite E. cbn [bind].
  unfold reportFileName. cbv zeta. now rewrite join_split_colon.
Qed.

Lemma handleSummary_one_file_example :
  wf_summary one_check_summary = true
  /\ exists doc,
       htmlReport sample_runtime one_check_summary VUndef = Ok doc
       /\ handleSummary sample_runtime (VStr "login") "2025-01-02T03:04:05.678Z"
            one_check_summary
          = Ok (VObj [("./reports/login-2025-01-02T03-04-05.678Z.html", VStr doc)]).
Proof.
  split; [reflexivity|].
  exact (handleSummary_one_file sample_runtime (VStr "login")
           "2025-01-02T03:04:05.678Z" one_check_summary eq_refl).
Defined.
